(** * Shallow embedding of the OVS forwarder of networkservicemesh

    The forwarder sources (forwarder/ovs-forwarder/pkg/ovsforwarder and the
    endpoint composite of the SDK) are written in Go.  Go maps are modelled
    as stdpp [gmap]s (a missing key reads as the zero value, as in Go), Go
    [int] as [Z], Go [string] as [String.string], and calls to external
    collaborators (ovs-vsctl, sysfs, netlink) as oracles passed as section
    variables, so that every theorem holds for every answer they can give. *)

From Stdlib Require Import ZArith String Ascii Bool List Lia.
From stdpp Require Import base gmap strings list fin_maps.

Open Scope string_scope.

(* ================================================================== *)
(** ** Go errors *)
(* ================================================================== *)

(** The errors the modelled functions return, one constructor per
    [errors.Errorf] / [errors.Wrap] site that matters. *)
Inductive GoError :=
| EVsctl (what : string)          (* util.RunOVSVsctl / RunOVSOfctl failed *)
| ENetRep (deviceID : string)     (* sriov.GetNetRepresentor failed *)
| ENoNetRep                       (* "local: Could not find available Net Rep" *)
| EUnknownMechanism (ty : string) (* "unknown remote mechanism - %v" *)
| EInvalidConnType                (* "remote: invalid connection type" *)
| ESanity                         (* common.SanityCheckConnectionType *)
| ENetns (inode : string)         (* fs.GetNsHandleFromInode failed *)
| ENoLink (pci name : string)     (* GetLink: no link matching criteria *)
| EEmptyName                      (* "VF Link name is empty" *)
| EParseAddr (ip : string)        (* "failed to parse IP address" *)
| ESetName (name : string)        (* "failed to set interface name" *)
| EExternal (what : string).      (* any other external primitive *)

(* ================================================================== *)
(** ** Go string library: strings.ReplaceAll, strings.Split, strconv.Atoi *)
(* ================================================================== *)

Module GoStrings.

(** [strings.ReplaceAll s old new] for a non-empty [old] (all call sites
    of the forwarder pass a non-empty pattern): scan left to right,
    replacing non-overlapping occurrences.  [fuel] is the length of [s]. *)
Fixpoint replace_all_go (old new : string) (fuel : nat) (s : string) : string :=
  match fuel with
  | O => s
  | S f =>
      match s with
      | EmptyString => EmptyString
      | String c s' =>
          if String.prefix old s
          then new +:+ replace_all_go old new f
                 (String.substring (String.length old) (String.length s) s)
          else String c (replace_all_go old new f s')
      end
  end.

Definition ReplaceAll (s old new : string) : string :=
  replace_all_go old new (String.length s) s.

(** [strings.Split s sep] for a one-character separator; as in Go,
    splitting the empty string gives [[""]]. *)
Fixpoint Split (s : string) (sep : ascii) : list string :=
  match s with
  | EmptyString => [""]
  | String c s' =>
      let rest := Split s' sep in
      if Ascii.eqb c sep then "" :: rest
      else match rest with
           | [] => [String c ""]
           | w :: ws => String c w :: ws
           end
  end.

Definition comma : ascii := ","%char.
Definition dquote : string := String (ascii_of_nat 34) "".
Definition newline2 : string :=
  String (ascii_of_nat 10) (String (ascii_of_nat 10) "").

Fixpoint digits_val (s : string) (acc : Z) : option Z :=
  match s with
  | EmptyString => Some acc
  | String c s' =>
      let n := nat_of_ascii c in
      if (48 <=? n)%nat && (n <=? 57)%nat
      then digits_val s' (acc * 10 + Z.of_nat (n - 48))
      else None
  end.

Definition int_max : Z := 2 ^ 63 - 1.
Definition int_min : Z := - 2 ^ 63.

(** [strconv.Atoi]: a value and whether an error was returned.  A syntax
    error gives [0]; an out-of-range value is clamped, as ParseInt does. *)
Definition Atoi (s : string) : Z * bool :=
  let clamp (v : Z) :=
    if Z.ltb int_max v then (int_max, true)
    else if Z.ltb v int_min then (int_min, true)
    else (v, false) in
  let unsigned (r : string) (neg : bool) :=
    match r with
    | EmptyString => (0%Z, true)
    | _ => match digits_val r 0 with
           | Some v => clamp (if neg then - v else v)%Z
           | None => (0%Z, true)
           end
    end in
  match s with
  | String "-" r => unsigned r true
  | String "+" r => unsigned r false
  | _ => unsigned s false
  end.

End GoStrings.

Import GoStrings.

(* ================================================================== *)
(** ** ovsutils: GetInterfaceOfPort and CheckNetRepOvs *)
(* ================================================================== *)

Module Ovsutils.

(** The outcome of [GetInterfaceOfPort]: the returned port number, the
    returned error and how many times ovs-vsctl was queried. *)
Record PortQuery := { pq_port : Z; pq_err : option GoError; pq_queries : nat }.

(** The retry loop of [GetInterfaceOfPort] (ovsutils.go, second version).
    [vsctl i] is the stdout of the [i]-th
    [ovs-vsctl --if-exists get interface <name> ofport] call, [None] when
    the command fails.  [count] is the remaining retry budget. *)
Fixpoint gip_loop (vsctl : nat -> option string) (count i : nat) (portNo : Z)
  : PortQuery :=
  match count with
  | O => {| pq_port := portNo; pq_err := None; pq_queries := i |}
  | S c =>
      match vsctl i with
      | None => {| pq_port := (-1)%Z; pq_err := Some (EVsctl "get ofport");
                   pq_queries := S i |}
      | Some ofPort =>
          let p := fst (Atoi ofPort) in
          if Z.eqb p 0
          then (* log "retrying", count = count - 1, sleep 500ms, continue *)
               gip_loop vsctl c (S i) p
          else {| pq_port := p; pq_err := None; pq_queries := S i |}
      end
  end.

Definition GetInterfaceOfPort (vsctl : nat -> option string) : PortQuery :=
  gip_loop vsctl 5 0 0.

Definition specialChar : list string := ["name"; ":"; dquote; " "].

(** The attached interface names parsed out of
    [ovs-vsctl --columns=name list Interface]. *)
Definition parse_ovs_ports (ovsPorts : string) : list string :=
  let stripped := fold_left (fun acc ch => ReplaceAll acc ch "") specialChar ovsPorts in
  Split (ReplaceAll stripped newline2 ",") comma.

(** [CheckNetRepOvs netRep]: [ovsList] is the output of the listing
    command, [None] when it fails.  Returns (available, error). *)
Definition CheckNetRepOvs (netRep : string) (ovsList : option string)
  : bool * option GoError :=
  match ovsList with
  | None => (false, Some (EVsctl "list Interface"))
  | Some ovsPorts =>
      if existsb (String.eqb netRep) (parse_ovs_ports ovsPorts)
      then (false, None) else (true, None)
  end.

End Ovsutils.

Import Ovsutils.

(* ================================================================== *)
(** ** common.go: CheckNetRepAvailability and PickDeviceAndNetRep *)
(* ================================================================== *)

Module Pick.

Section Pick.

(** [sriov.GetNetRepresentor devID]: the VF representor name, [None] on
    error; and the switch's interface listing seen by CheckNetRepOvs. *)
Variable GetNetRepresentor : string -> option string.
Variable ovsList : option string.

Definition CheckNetRepAvailability (netRep : string) : bool * option GoError :=
  match CheckNetRepOvs netRep ovsList with
  | (_, Some e) => (false, Some e)
  | (a, None) => (a, None)
  end.

(** The [for] loop of PickDeviceAndNetRep.  The first component is
    [Some r] when a [return] statement inside the loop was executed, [None]
    when the loop ran to its end; the second is the final value of the
    variable [availNetRep]. *)
Fixpoint pick_loop (devIDs : list string) (availNetRep : bool)
  : option (string * string + GoError) * bool :=
  match devIDs with
  | [] => (None, availNetRep)
  | devID :: rest =>
      match GetNetRepresentor devID with
      | None => (Some (inr (ENetRep devID)), availNetRep)
      | Some netRep =>
          match CheckNetRepAvailability netRep with
          | (a, Some e) => (Some (inr e), a)
          | (a, None) =>
              if a then (Some (inl (devID, netRep)), a) else pick_loop rest a
          end
      end
  end.

(** [PickDeviceAndNetRep DeviceIDs].  After the loop the Go function has a
    single [if !availNetRep { ... return }] and then reaches its closing
    brace without a return statement: that path is the result [None]. *)
Definition PickDeviceAndNetRep (DeviceIDs : string)
  : option (string * string + GoError) :=
  match pick_loop (Split DeviceIDs comma) false with
  | (Some r, _) => Some r
  | (None, availNetRep) =>
      if negb availNetRep then Some (inr ENoNetRep) else None
  end.

End Pick.

End Pick.

Import Pick.

(* ================================================================== *)
(** ** sdk endpoint composite: ConnectionEndpoint (device pool) *)
(* ================================================================== *)

Module Endpoint.

(** The key [kernel.PciAddress] of the mechanism parameters (its literal
    lives in the connection API package). *)
Definition PciAddress : string := "pci_address".
Definition KERNEL_MECHANISM : string := "KERNEL_INTERFACE".

Record ConnectionEndpoint := {
  mechanismType : string;
  pciAddresses : gmap string bool   (* device identifier -> in use *)
}.

(** [NewConnectionEndpoint]: the pool is read once from the comma
    separated [EndpointPciAddresses] configuration value. *)
Definition NewConnectionEndpoint (EndpointPciAddresses MechanismType : string)
  : ConnectionEndpoint :=
  let pool : gmap string bool :=
    if String.eqb EndpointPciAddresses "" then ∅
    else fold_left (fun m pciAddress => <[pciAddress := false]> m)
           (Split EndpointPciAddresses comma) ∅ in
  {| mechanismType := if String.eqb MechanismType "" then KERNEL_MECHANISM
                      else MechanismType;
     pciAddresses := pool |}.

(** The [for pciAddress, in_use := range cce.pciAddresses] loop: Go visits
    the map in an unspecified order, given here as [order], a permutation
    of [map_to_list (pciAddresses cce)]. *)
Fixpoint pick_free (order : list (string * bool)) : string :=
  match order with
  | [] => ""
  | (pciAddress, in_use) :: rest => if in_use then pick_free rest else pciAddress
  end.

(** [ConnectionEndpoint.Request] as the last element of the chain (no
    [Next]).  [valid] is [request.IsValid() == nil]; [mechanism] is the
    parameter map built by [common.NewMechanism], [None] when it fails.
    The result is the parameter map of the returned connection's
    mechanism. *)
Definition Request (cce : ConnectionEndpoint) (order : list (string * bool))
  (valid : bool) (mechanism : option (gmap string string))
  : ConnectionEndpoint * (gmap string string + GoError) :=
  if negb valid then (cce, inr (EExternal "request is not valid")) else
  match mechanism with
  | None => (cce, inr (EExternal "mechanism not created"))
  | Some params =>
      let pickedPciAddress := pick_free order in
      let params' := if String.eqb pickedPciAddress "" then params
                     else <[PciAddress := pickedPciAddress]> params in
      let cce' := if String.eqb pickedPciAddress "" then cce
                  else {| mechanismType := mechanismType cce;
                          pciAddresses := <[pickedPciAddress := true]> (pciAddresses cce) |} in
      (cce', inl params')
  end.

(** [ConnectionEndpoint.Close] (no [Next]): [params] is the mechanism
    parameter map of the connection being closed. *)
Definition Close (cce : ConnectionEndpoint) (params : gmap string string)
  : ConnectionEndpoint :=
  match params !! PciAddress with
  | Some pciAddress =>
      {| mechanismType := mechanismType cce;
         pciAddresses := <[pciAddress := false]> (pciAddresses cce) |}
  | None => cce
  end.

(** A client operation on the endpoint: a Request with its map iteration
    order, or a Close with the closed connection's parameters. *)
Inductive EndpointOp :=
| OpRequest (order : list (string * bool)) (valid : bool)
    (mechanism : option (gmap string string))
| OpClose (params : gmap string string).

Definition step (cce : ConnectionEndpoint) (op : EndpointOp) : ConnectionEndpoint :=
  match op with
  | OpRequest order valid mech => fst (Request cce order valid mech)
  | OpClose params => Close cce params
  end.

(** Go's range order is some permutation of the map's entries. *)
Definition valid_op (cce : ConnectionEndpoint) (op : EndpointOp) : Prop :=
  match op with
  | OpRequest order _ _ => order ≡ₚ map_to_list (pciAddresses cce)
  | OpClose _ => True
  end.

Fixpoint run (cce : ConnectionEndpoint) (ops : list EndpointOp) : ConnectionEndpoint :=
  match ops with
  | [] => cce
  | op :: rest => run (step cce op) rest
  end.

Fixpoint valid_run (cce : ConnectionEndpoint) (ops : list EndpointOp) : Prop :=
  match ops with
  | [] => True
  | op :: rest => valid_op cce op /\ valid_run (step cce op) rest
  end.

(** The number of devices currently marked in use. *)
Definition in_use_count (cce : ConnectionEndpoint) : nat :=
  length (List.filter (fun kv : string * bool => kv.2) (map_to_list (pciAddresses cce))).

End Endpoint.

(* ================================================================== *)
(** ** sriov: VF links, SetupVF, ResetVF *)
(* ================================================================== *)

Module Sriov.

(** A netlink address as compared by [netlink.Addr.Equal]: the IP, the
    prefix length of the mask, and the label (ignored by Equal). *)
Record Addr := { a_ip : list Z; a_prefix : nat; a_label : string }.

Definition Addr_Equal (a x : Addr) : bool :=
  bool_decide (a_ip a = a_ip x) && Nat.eqb (a_prefix a) (a_prefix x).

(** A kernel network link: the PCI address of its device ("" for virtual
    links), its name, the namespace it lives in, its addresses and its
    admin state. *)
Record NetLink := {
  l_pci : string; l_name : string; l_ns : nat;
  l_addrs : list Addr; l_up : bool
}.

(** All links of the host, in every namespace, indexed by position. *)
Abbreviation World := (list NetLink).

Definition set_up (b : bool) (l : NetLink) : NetLink :=
  {| l_pci := l_pci l; l_name := l_name l; l_ns := l_ns l; l_addrs := l_addrs l; l_up := b |}.
Definition set_name (n : string) (l : NetLink) : NetLink :=
  {| l_pci := l_pci l; l_name := n; l_ns := l_ns l; l_addrs := l_addrs l; l_up := l_up l |}.
Definition set_addrs (a : list Addr) (l : NetLink) : NetLink :=
  {| l_pci := l_pci l; l_name := l_name l; l_ns := l_ns l; l_addrs := a; l_up := l_up l |}.
(** Moving a link to another namespace brings it down and flushes its
    addresses (kernel behaviour of [LinkSetNsFd]). *)
Definition set_ns (ns : nat) (l : NetLink) : NetLink :=
  {| l_pci := l_pci l; l_name := l_name l; l_ns := ns; l_addrs := []; l_up := false |}.

(** Another link than [i] named [name] in namespace [ns] (the kernel
    refuses a rename or move onto a taken name). *)
Definition name_taken (w : World) (i ns : nat) (name : string) : bool :=
  existsb (fun j => negb (Nat.eqb j i) &&
             match w !! j with
             | Some l => Nat.eqb (l_ns l) ns && String.eqb (l_name l) name
             | None => false
             end)
    (seq 0 (length w)).

(** The [vfLink] handle: the link's index and the namespace it was found in. *)
Record vfLink := { vf_link : nat; vf_netns : nat }.

Section Sriov.

(** [netlink.ParseAddr], the namespace lookup [fs.GetNsHandleFromInode]
    and the handle returned by [netns.Get()] (the host namespace). *)
Variable ParseAddr : string -> option Addr.
Variable GetNsHandleFromInode : string -> option nat.
Variable hostNetns : nat.

(** [searchByPCIAddress]: [inl (Some i)] found, [inr _] error. *)
Definition searchByPCIAddress (w : World) (ns : nat) (name pciAddress : string)
  : option nat + GoError :=
  match list_find (fun l => l_pci l = pciAddress /\ l_ns l = ns) w with
  | Some (i, _) => inl (Some i)
  | None => inr (ENoLink pciAddress name)
  end.

(** [searchByName]: an empty name yields [(nil, nil)]. *)
Definition searchByName (w : World) (ns : nat) (name pciAddress : string)
  : option nat + GoError :=
  if String.eqb name "" then inl None else
  match list_find (fun l => l_name l = name /\ l_ns l = ns) w with
  | Some (i, _) => inl (Some i)
  | None => inr (ENoLink pciAddress name)
  end.

Definition attempts : list (World -> nat -> string -> string -> option nat + GoError) :=
  [searchByPCIAddress; searchByName].

Fixpoint try_attempts (w : World) (ns : nat) (name pciAddress : string)
  (atts : list (World -> nat -> string -> string -> option nat + GoError))
  : option vfLink :=
  match atts with
  | [] => None
  | search :: rest =>
      match search w ns name pciAddress with
      | inl (Some i) => Some {| vf_link := i; vf_netns := ns |}
      | _ => try_attempts w ns name pciAddress rest
      end
  end.

(** [GetLink pciAddress name namespaces...]. *)
Fixpoint GetLink (w : World) (pciAddress name : string) (namespaces : list nat)
  : vfLink + GoError :=
  match namespaces with
  | [] => inr (ENoLink pciAddress name)
  | ns :: rest =>
      match try_attempts w ns name pciAddress attempts with
      | Some vf => inl vf
      | None => GetLink w pciAddress name rest
      end
  end.

(** [vfLink.AddAddress] on the link value: parse, list the current
    addresses, return early if an equal one is there, else [AddrAdd]. *)
Definition AddAddress_link (l : NetLink) (ip : string) : NetLink * option GoError :=
  match ParseAddr ip with
  | None => (l, Some (EParseAddr ip))
  | Some addr =>
      if existsb (Addr_Equal addr) (l_addrs l)
      then (l, None)   (* nothing to do *)
      else (set_addrs (l_addrs l ++ [addr]) l, None)
  end.

Definition AddAddress (w : World) (vf : vfLink) (ip : string) : World * option GoError :=
  match w !! vf_link vf with
  | None => (w, Some (EExternal "AddrList"))
  | Some l => let '(l', e) := AddAddress_link l ip in (<[vf_link vf := l']> w, e)
  end.

Inductive LinkStatus := DOWN | UP.

Definition SetAdminState (w : World) (vf : vfLink) (state : LinkStatus) : World :=
  alter (set_up (match state with UP => true | DOWN => false end)) (vf_link vf) w.

(** [vfLink.SetName]: down, rename (refused when the name is taken in the
    link's namespace), up. *)
Definition SetName (w : World) (vf : vfLink) (name : string) : World * option GoError :=
  let w1 := SetAdminState w vf DOWN in
  match w1 !! vf_link vf with
  | None => (w1, Some (ESetName name))
  | Some l =>
      if name_taken w1 (vf_link vf) (l_ns l) name then (w1, Some (ESetName name))
      else (SetAdminState (<[vf_link vf := set_name name l]> w1) vf UP, None)
  end.

Definition GetName (w : World) (vf : vfLink) : string + GoError :=
  match w !! vf_link vf with
  | Some l => if String.eqb (l_name l) "" then inr EEmptyName else inl (l_name l)
  | None => inr EEmptyName
  end.

(** [vfLink.MoveToNetns]: nothing if already there, else down and move. *)
Definition MoveToNetns (w : World) (vf : vfLink) (target : nat)
  : World * vfLink * option GoError :=
  if Nat.eqb (vf_netns vf) target then (w, vf, None) else
  let w1 := SetAdminState w vf DOWN in
  match w1 !! vf_link vf with
  | None => (w1, vf, Some (EExternal "LinkSetNsFd"))
  | Some l =>
      if name_taken w1 (vf_link vf) target (l_name l)
      then (w1, vf, Some (EExternal "LinkSetNsFd"))
      else (<[vf_link vf := set_ns target l]> w1,
            {| vf_link := vf_link vf; vf_netns := target |}, None)
  end.

Record VFInterfaceConfiguration := {
  PciAddress : string; Name : string; NetRepDevice : string;
  IPAddress : string; MacAddress : string; TargetNetns : string
}.

(** [SetupVF config] with the global [VfNameMap]. *)
Definition SetupVF (w : World) (VfNameMap : gmap string string)
  (config : VFInterfaceConfiguration) : World * gmap string string * option GoError :=
  match GetNsHandleFromInode (TargetNetns config) with
  | None => (w, VfNameMap, Some (ENetns (TargetNetns config)))
  | Some targetNetns =>
  match GetLink w (PciAddress config) (Name config) [hostNetns; targetNetns] with
  | inr e => (w, VfNameMap, Some e)
  | inl link =>
  match GetName w link with
  | inr e => (w, VfNameMap, Some e)
  | inl origName =>
  let m := <[PciAddress config := origName]> VfNameMap in
  match MoveToNetns w link targetNetns with
  | (w1, _, Some e) => (w1, m, Some e)
  | (w1, link1, None) =>
  match AddAddress w1 link1 (IPAddress config) with
  | (w2, Some e) => (w2, m, Some e)
  | (w2, None) =>
  match SetName w2 link1 (Name config) with
  | (w3, Some e) => (w3, m, Some e)
  | (w3, None) => (SetAdminState w3 link1 UP, m, None)
  end end end end end end.

(** [ResetVF config]: the link is searched in the host namespace only. *)
Definition ResetVF (w : World) (VfNameMap : gmap string string)
  (config : VFInterfaceConfiguration) : World * gmap string string * option GoError :=
  match GetLink w (PciAddress config) (Name config) [hostNetns] with
  | inr e => (w, VfNameMap, Some e)
  | inl link =>
      match VfNameMap !! PciAddress config with
      | Some origName =>
          let m := delete (PciAddress config) VfNameMap in
          match SetName w link origName with
          | (w', Some e) => (w', m, Some e)
          | (w', None) => (w', m, None)
          end
      | None => (w, VfNameMap, None)
      end
  end.

(** Kernel behaviour when the namespace holding a physical VF is deleted
    (the owning pod is gone): the link returns to the host namespace,
    down, without addresses, keeping its name. *)
Definition vf_returns_to_host (i : nat) (w : World) : World :=
  alter (set_ns hostNetns) i w.

End Sriov.

End Sriov.

(* ================================================================== *)
(** ** ovsforwarder: tunnel registry, connection teardown, Close *)
(* ================================================================== *)

Module Forwarder.

(** Mechanism types and parameter keys of the connection API. *)
Definition KERNEL_MECHANISM : string := "KERNEL_INTERFACE".
Definition VXLAN_MECHANISM : string := "VXLAN".
Definition SrcIP : string := "src_ip".
Definition DstIP : string := "dst_ip".
Definition VNI : string := "vni".
Definition PciAddresses : string := "pci_addresses".

Definition srcPrefix : string := "tapsrc".
Definition dstPrefix : string := "tapdst".

Record Connection := {
  c_mech_type : string;
  c_params : gmap string string;
  c_remote : bool              (* Connection.IsRemote() *)
}.

Record CrossConnect := { cc_id : string; cc_src : Connection; cc_dst : Connection }.

Inductive Direction := INCOMING | OUTGOING.

(** Effects on the host and the switch, in the order they are performed. *)
Inductive Ev :=
| AddVxlanPort (name localIP remoteIP : string)   (* newVXLAN *)
| DelVxlanPort (name : string)                    (* deleteVXLAN *)
| InitIface (device netRep ovsPortName : string) (conn : Connection) (isDst : bool)
| SetupIface (device ovsPortName : string) (conn : Connection) (isDst : bool)
| SetupLocalOvs (srcPort dstPort : string)        (* local SetupLocalOvSConnection *)
| SetupRemoteOvs (port tunnel : string) (vni : Z) (* remote SetupOvSConnection *)
| DelLocalOvs (srcPort dstPort : string)          (* local DeleteLocalOvSConnection *)
| DelRemoteOvs (port tunnel : string) (vni : Z)   (* remote DeleteLocalOvSConnection *)
| ReleaseIface (device ovsPortName : string) (conn : Connection) (isDst : bool)
| LogErr (e : GoError)                            (* logrus.Errorf / Warn *)
| MonitorDelete (id : string).                    (* o.common.Monitor.Delete *)

(** The forwarder's shared state: the global [DevIDMap], the global
    [PortMap], the tunnel registry [remote.Connect.vxlanInterfaces] and the
    trace of effects. *)
Record Fwd := {
  DevIDMap : gmap string string;
  PortMap : gmap string Z;
  vxlanInterfaces : gmap string Z;
  trace : list Ev
}.

Definition set_DevIDMap (m : gmap string string) (s : Fwd) : Fwd :=
  {| DevIDMap := m; PortMap := PortMap s; vxlanInterfaces := vxlanInterfaces s; trace := trace s |}.
Definition set_PortMap (m : gmap string Z) (s : Fwd) : Fwd :=
  {| DevIDMap := DevIDMap s; PortMap := m; vxlanInterfaces := vxlanInterfaces s; trace := trace s |}.
Definition set_vxlan (m : gmap string Z) (s : Fwd) : Fwd :=
  {| DevIDMap := DevIDMap s; PortMap := PortMap s; vxlanInterfaces := m; trace := trace s |}.
Definition emit (e : Ev) (s : Fwd) : Fwd :=
  {| DevIDMap := DevIDMap s; PortMap := PortMap s; vxlanInterfaces := vxlanInterfaces s;
     trace := trace s ++ [e] |}.

(** A Go map read: the zero value when the key is absent. *)
Definition get_str (m : gmap string string) (k : string) : string := default "" (m !! k).
Definition get_int (m : gmap string Z) (k : string) : Z := default 0%Z (m !! k).

Section Forwarder.

(** External answers: [sriov.GetNetRepresentor] (also with retries), the
    switch's interface listing, whether a host/switch primitive succeeds,
    [net.ParseIP(s).String()], and [common.SanityCheckConnectionType]. *)
Variable GetNetRepresentor : string -> option string.
Variable ovsList : option string.
Variable ovs_ok : Ev -> bool.
Variable ip_string : string -> string.
Variable SanityCheckConnectionType : CrossConnect -> bool.

(** Call an external primitive: the call is recorded, and [ovs_ok] says
    whether it returned an error. *)
Definition ext (e : Ev) (s : Fwd) : Fwd * option GoError :=
  (emit e s, if ovs_ok e then None else Some (EExternal "primitive")).

Definition tunnel_name (remoteIP : string) : string :=
  "v" +:+ ReplaceAll (ip_string remoteIP) "." "".

(** [createVXLANInterface] (vxlan.go): tunnel Acquire. *)
Definition createVXLANInterface (s : Fwd) (remoteConnection : Connection)
  (direction : Direction) : Fwd * (Z * string + GoError) :=
  let params := c_params remoteConnection in
  let srcIP := get_str params SrcIP in
  let dstIP := get_str params DstIP in
  let vni := fst (Atoi (get_str params VNI)) in
  let '(localIP, remoteIP) :=
    match direction with INCOMING => (dstIP, srcIP) | OUTGOING => (srcIP, dstIP) end in
  let ovsTunnelName := tunnel_name remoteIP in
  let created :=
    match vxlanInterfaces s !! ovsTunnelName with
    | None => ext (AddVxlanPort ovsTunnelName (ip_string localIP) (ip_string remoteIP)) s
    | Some _ => (s, None)
    end in
  match created with
  | (s1, Some e) => (s1, inr e)
  | (s1, None) =>
      (set_vxlan (<[ovsTunnelName := (get_int (vxlanInterfaces s1) ovsTunnelName + 1)%Z]>
                    (vxlanInterfaces s1)) s1, inl (vni, ovsTunnelName))
  end.

(** [getVXLANParameters] (vxlan.go). *)
Definition getVXLANParameters (remoteConnection : Connection) (direction : Direction)
  : Z * string :=
  let params := c_params remoteConnection in
  let vni := fst (Atoi (get_str params VNI)) in
  let remoteIP := match direction with
                  | INCOMING => get_str params SrcIP
                  | OUTGOING => get_str params DstIP end in
  (vni, tunnel_name remoteIP).

(** [deleteVXLANInterface] (vxlan.go): tunnel Release. *)
Definition deleteVXLANInterface (s : Fwd) (ovsTunnelName : string) : Fwd * option GoError :=
  let counter := get_int (vxlanInterfaces s) ovsTunnelName in
  if Z.eqb counter 1 then
    match ext (DelVxlanPort ovsTunnelName) s with
    | (s1, Some e) => (s1, Some e)
    | (s1, None) =>
        (set_vxlan (delete ovsTunnelName (vxlanInterfaces s1))
           (set_PortMap (delete ovsTunnelName (PortMap s1)) s1), None)
    end
  else if negb (Z.eqb counter 0) then
    (set_vxlan (<[ovsTunnelName := (counter - 1)%Z]> (vxlanInterfaces s)) s, None)
  else (s, None).

Definition CreateTunnelInterface (s : Fwd) (remoteConnection : Connection)
  (direction : Direction) : Fwd * (Z * string + GoError) :=
  if String.eqb (c_mech_type remoteConnection) VXLAN_MECHANISM
  then createVXLANInterface s remoteConnection direction
  else (s, inr (EUnknownMechanism (c_mech_type remoteConnection))).

Definition GetTunnelParameters (remoteConnection : Connection) (direction : Direction)
  : Z * string + GoError :=
  if String.eqb (c_mech_type remoteConnection) VXLAN_MECHANISM
  then inl (getVXLANParameters remoteConnection direction)
  else inr (EUnknownMechanism (c_mech_type remoteConnection)).

Definition DeleteTunnelInterface (s : Fwd) (ovsTunnelName : string)
  (remoteConnection : Connection) : Fwd * option GoError :=
  if String.eqb (c_mech_type remoteConnection) VXLAN_MECHANISM
  then deleteVXLANInterface s ovsTunnelName
  else (s, Some (EUnknownMechanism (c_mech_type remoteConnection))).

(** [PickDeviceAndNetRep] on the candidates of a connection, if it has any;
    ("", "") when the parameter is absent.  The [None] outcome (the Go
    function ending without a return) is unreachable, see
    [PickDeviceAndNetRep_returns]. *)
Definition pick_for (conn : Connection) : string * string + GoError :=
  match c_params conn !! PciAddresses with
  | None => inl ("", "")
  | Some deviceIDs =>
      match PickDeviceAndNetRep GetNetRepresentor ovsList deviceIDs with
      | Some r => r
      | None => inr ENoNetRep
      end
  end.

(** [GetNetRepresentor] whose error is only logged: "" on error. *)
Definition netrep_logged (s : Fwd) (deviceID : string) : Fwd * string :=
  match GetNetRepresentor deviceID with
  | Some r => (s, r)
  | None => (emit (LogErr (ENetRep deviceID)) s, "")
  end.

(** A primitive whose failure is only logged. *)
Definition ext_logged (e : Ev) (s : Fwd) : Fwd :=
  match ext e s with
  | (s1, Some err) => emit (LogErr err) s1
  | (s1, None) => s1
  end.

Definition role_conn (cc : CrossConnect) (isDst : bool) : Connection :=
  if isDst then cc_dst cc else cc_src cc.

(** [initInterface] (local.go): returns the switch port name of the side
    ([NetRepDevice] of the configuration). *)
Definition initInterface (s : Fwd) (deviceID deviceNetRep : string)
  (cc : CrossConnect) (isDst : bool) : Fwd * (string + GoError) :=
  let ovsPortName := (if isDst then dstPrefix else srcPrefix) +:+ cc_id cc in
  let port := if String.eqb deviceID "" then ovsPortName else deviceNetRep in
  match ext (InitIface deviceID deviceNetRep port (role_conn cc isDst) isDst) s with
  | (s1, Some e) => (s1, inr e)
  | (s1, None) => (s1, inl port)
  end.

(** [createLocalConnection] (local.go). *)
Definition createLocalConnection (s : Fwd) (cc : CrossConnect) : Fwd * option GoError :=
  match pick_for (cc_src cc) with
  | inr e => (s, Some e)
  | inl (srcDeviceID, srcNetRep) =>
  match pick_for (cc_dst cc) with
  | inr e => (s, Some e)
  | inl (dstDeviceID, dstNetRep) =>
  match initInterface s srcDeviceID srcNetRep cc false with
  | (s1, inr e) => (emit (LogErr e) s1, Some e)
  | (s1, inl srcOvSPortName) =>
  match initInterface s1 dstDeviceID dstNetRep cc true with
  | (s2, inr e) => (emit (LogErr e) s2, Some e)
  | (s2, inl dstOvSPortName) =>
  match ext (SetupLocalOvs srcOvSPortName dstOvSPortName) s2 with
  | (s3, Some e) => (emit (LogErr e) s3, Some e)
  | (s3, None) =>
      (set_DevIDMap (<["dst-" +:+ cc_id cc := dstDeviceID]>
                      (<["src-" +:+ cc_id cc := srcDeviceID]> (DevIDMap s3))) s3, None)
  end end end end end.

(** The [deviceID, isPresent := DevIDMap[key]; if isPresent {netRep, err =
    sriov.GetNetRepresentor(deviceID) ...}] prologue of the teardowns. *)
Definition recover_device (s : Fwd) (key : string) : Fwd * string * string :=
  match DevIDMap s !! key with
  | Some deviceID => let '(s1, netRep) := netrep_logged s deviceID in (s1, deviceID, netRep)
  | None => (s, "", "")
  end.

(** [deleteLocalConnection] (local.go, lines 173-225). *)
Definition deleteLocalConnection (s : Fwd) (cc : CrossConnect) : Fwd * option GoError :=
  let id := cc_id cc in
  let '(s1, srcDeviceID, srcNetRep) := recover_device s ("src-" +:+ id) in
  let '(s2, dstDeviceID, dstNetRep) := recover_device s1 ("dst-" +:+ id) in
  let srcOvSPortName := if negb (String.eqb srcDeviceID "") then srcNetRep else srcPrefix +:+ id in
  let dstOvSPortName := if negb (String.eqb dstDeviceID "") then dstNetRep else dstPrefix +:+ id in
  let s3 := ext_logged (DelLocalOvs srcOvSPortName dstOvSPortName) s2 in
  let s4 := ext_logged (ReleaseIface srcDeviceID srcOvSPortName (cc_src cc) false) s3 in
  let s5 := ext_logged (ReleaseIface dstDeviceID dstOvSPortName (cc_dst cc) true) s4 in
  (set_DevIDMap (delete ("dst-" +:+ id) (delete ("src-" +:+ id) (DevIDMap s5))) s5, None).

Definition is_incoming (direction : Direction) : bool :=
  match direction with INCOMING => true | OUTGOING => false end.

(** [createRemoteConnection] (ovsforwarder remote handler). *)
Definition createRemoteConnection (s : Fwd) (connID : string)
  (localConnection remoteConnection : Connection) (direction : Direction)
  : Fwd * option GoError :=
  let isDst := is_incoming direction in
  match pick_for localConnection with
  | inr e => (s, Some e)
  | inl (deviceID, netRep) =>
  let ovsPortName := if String.eqb deviceID "" then "tap_" +:+ connID else netRep in
  let init := if String.eqb deviceID ""
              then ext (InitIface "" "" ovsPortName localConnection isDst) s
              else (s, None) in
  match init with
  | (s1, Some e) => (emit (LogErr e) s1, Some e)
  | (s1, None) =>
  match CreateTunnelInterface s1 remoteConnection direction with
  | (s2, inr e) => (emit (LogErr e) s2, Some e)
  | (s2, inl (vni, ovsTunnelName)) =>
  match ext (SetupRemoteOvs ovsPortName ovsTunnelName vni) s2 with
  | (s3, Some e) => (emit (LogErr e) s3, Some e)
  | (s3, None) =>
  match ext (SetupIface deviceID ovsPortName localConnection isDst) s3 with
  | (s4, Some e) => (emit (LogErr e) s4, Some e)
  | (s4, None) =>
      (set_DevIDMap (<["rem-" +:+ connID := deviceID]> (DevIDMap s4)) s4, None)
  end end end end end.

(** [deleteRemoteConnection] (ovsforwarder remote handler, lines 130-179). *)
Definition deleteRemoteConnection (s : Fwd) (connID : string)
  (localConnection remoteConnection : Connection) (direction : Direction)
  : Fwd * option GoError :=
  match GetTunnelParameters remoteConnection direction with
  | inr e => (emit (LogErr e) s, Some e)
  | inl (vni, ovsTunnelName) =>
      let '(s1, deviceID, netRep) := recover_device s ("rem-" +:+ connID) in
      let ovsPortName := if negb (String.eqb deviceID "") then netRep else "tap_" +:+ connID in
      let s2 := ext_logged (DelRemoteOvs ovsPortName ovsTunnelName vni) s1 in
      let s2' := set_PortMap (delete ovsPortName (PortMap s2)) s2 in
      let s3 := ext_logged (ReleaseIface deviceID ovsPortName localConnection
                              (is_incoming direction)) s2' in
      let s4 := match DeleteTunnelInterface s3 ovsTunnelName remoteConnection with
                | (s', Some e) => emit (LogErr e) s'
                | (s', None) => s'
                end in
      (set_DevIDMap (delete ("rem-" +:+ connID) (DevIDMap s4)) s4, None)
  end.

Definition handleConnection (s : Fwd) (connID : string)
  (localConnection remoteConnection : Connection) (connect : bool) (direction : Direction)
  : Fwd * option GoError :=
  let r := if connect
           then createRemoteConnection s connID localConnection remoteConnection direction
           else deleteRemoteConnection s connID localConnection remoteConnection direction in
  match r with
  | (s1, Some e) => (emit (LogErr e) s1, Some e)
  | (s1, None) => (s1, None)
  end.

Definition handleRemoteConnection (s : Fwd) (cc : CrossConnect) (connect : bool)
  : Fwd * option GoError :=
  if c_remote (cc_src cc) && negb (c_remote (cc_dst cc)) then
    handleConnection s (cc_id cc) (cc_dst cc) (cc_src cc) connect INCOMING
  else if negb (c_remote (cc_src cc)) && c_remote (cc_dst cc) then
    handleConnection s (cc_id cc) (cc_src cc) (cc_dst cc) connect OUTGOING
  else (emit (LogErr EInvalidConnType) s, Some EInvalidConnType).

Definition handleLocalConnection (s : Fwd) (cc : CrossConnect) (connect : bool)
  : Fwd * option GoError :=
  let r := if connect then createLocalConnection s cc else deleteLocalConnection s cc in
  match r with
  | (s1, Some e) => (emit (LogErr e) s1, Some e)
  | (s1, None) => (s1, None)
  end.

(** [connectOrDisconnect] (ovsforwarder.go); metrics are not modelled. *)
Definition connectOrDisconnect (s : Fwd) (cc : CrossConnect) (connect : bool)
  : Fwd * option GoError :=
  if negb (SanityCheckConnectionType cc) then (s, Some ESanity)
  else if String.eqb (c_mech_type (cc_src cc)) KERNEL_MECHANISM
          && String.eqb (c_mech_type (cc_dst cc)) KERNEL_MECHANISM
  then handleLocalConnection s cc connect
  else handleRemoteConnection s cc connect.

(** [OvSForwarder.Close] (ovsforwarder.go, lines 87-95): the result is
    [&empty.Empty{}] ([inl tt]) or an error. *)
Definition Close (s : Fwd) (cc : CrossConnect) : Fwd * (unit + GoError) :=
  let '(s1, err) := connectOrDisconnect s cc false in
  let s2 := match err with Some e => emit (LogErr e) s1 | None => s1 end in
  (emit (MonitorDelete (cc_id cc)) s2, inl tt).

(** [k] Acquires (one per connection/direction) and [n] Releases. *)
Fixpoint acquire_all (s : Fwd) (rcs : list (Connection * Direction)) : Fwd :=
  match rcs with
  | [] => s
  | (rc, d) :: rest => acquire_all (fst (createVXLANInterface s rc d)) rest
  end.

Fixpoint release_n (s : Fwd) (ovsTunnelName : string) (n : nat) : Fwd :=
  match n with
  | O => s
  | S n' => release_n (fst (deleteVXLANInterface s ovsTunnelName)) ovsTunnelName n'
  end.

End Forwarder.

(** The calls to primitives in a trace (log and monitor entries dropped). *)
Definition is_call (e : Ev) : bool :=
  match e with LogErr _ | MonitorDelete _ => false | _ => true end.
Definition calls (t : list Ev) : list Ev := List.filter is_call t.

End Forwarder.

Import Sriov Forwarder.

(* ================================================================== *)
(** ** sriov: GetNetRepresentorWithRetries *)
(* ================================================================== *)

Module SriovNet.

(** The outcome of [GetNetRepresentorWithRetries]: the representor or the
    error, and how many times [sriovnet.GetNetDevicesFromPci] was called. *)
Record RepQuery := { rq_result : string + GoError; rq_queries : nat }.

Section SriovNet.

(** The sriovnet library: [GetNetDevicesFromPci deviceID i] is the answer to
    the [i]-th call for [deviceID] ([None] when it errors); the uplink, the
    VF index and the representor lookups, [None] on error. *)
Variable GetNetDevicesFromPci : string -> nat -> option (list string).
Variable GetUplinkRepresentor : string -> option string.
Variable GetVfIndexByPciAddress : string -> option Z.
Variable GetVfRepresentor : string -> Z -> option string.

(** The [for maxRetries > 0 && !done] loop (sriov.go, lines 47-62):
    [maxRetries] is the remaining budget, [i] the calls made so far.  The
    result is the error returned from inside the loop, if any, and the
    number of calls. *)
Fixpoint netdev_loop (deviceID : string) (maxRetries : nat) (i : nat)
  : option GoError * nat :=
  match maxRetries with
  | O => (None, i)
  | S m =>
      match GetNetDevicesFromPci deviceID i with
      | None => (Some (EExternal "GetNetDevicesFromPci"), S i)
      | Some vfNetdevices =>
          if negb (Nat.eqb (length vfNetdevices) 1) && Nat.eqb m 0
          then (Some (EExternal ("failed to get one netdevice interface per " +:+ deviceID)), S i)
          else if negb (Nat.eqb (length vfNetdevices) 1)
          then (* sleep 2s and retry *) netdev_loop deviceID m (S i)
          else (None, S i)   (* done = true *)
      end
  end.

(** [GetNetRepresentorWithRetries deviceID maxRetries] (sriov.go, 41-87).
    A negative [maxRetries] skips the loop, as [maxRetries > 0] is false. *)
Definition GetNetRepresentorWithRetries (deviceID : string) (maxRetries : Z) : RepQuery :=
  if Z.eqb maxRetries 0
  then {| rq_result := inr (EExternal "maxRetries can not be zero"); rq_queries := 0 |}
  else
  match netdev_loop deviceID (Z.to_nat maxRetries) 0 with
  | (Some e, n) => {| rq_result := inr e; rq_queries := n |}
  | (None, n) =>
      let r :=
        match GetUplinkRepresentor deviceID with
        | None => inr (EExternal "GetUplinkRepresentor")
        | Some uplink =>
            match GetVfIndexByPciAddress deviceID with
            | None => inr (EExternal "GetVfIndexByPciAddress")
            | Some vfIndex =>
                match GetVfRepresentor uplink vfIndex with
                | None => inr (EExternal "GetVfRepresentor")
                | Some rep => inl rep
                end
            end
        end in
      {| rq_result := r; rq_queries := n |}
  end.

(** [GetNetRepresentor] (sriov.go, 33-35). *)
Definition GetNetRepresentor (deviceID : string) : RepQuery :=
  GetNetRepresentorWithRetries deviceID 1.

End SriovNet.

End SriovNet.

(* ================================================================== *)
(** ** sriov: vfLink.DeleteAddress *)
(* ================================================================== *)

Module SriovAddr.

Section SriovAddr.

Variable ParseAddr : string -> option Addr.

(** [vfLink.DeleteAddress] on the link value: parse, then [AddrDel].  The
    kernel removes the address equal (same IP and prefix) to the given one
    and refuses when there is none; a link holds no two equal addresses
    (AddAddress never adds a duplicate), so removing every equal entry is
    removing that one. *)
Definition DeleteAddress_link (l : NetLink) (ip : string) : NetLink * option GoError :=
  match ParseAddr ip with
  | None => (l, Some (EParseAddr ip))
  | Some addr =>
      if existsb (Addr_Equal addr) (l_addrs l)
      then (set_addrs (List.filter (fun x => negb (Addr_Equal addr x)) (l_addrs l)) l, None)
      else (l, Some (EExternal "AddrDel"))
  end.

Definition DeleteAddress (w : World) (vf : vfLink) (ip : string) : World * option GoError :=
  match w !! vf_link vf with
  | None => (w, Some (EExternal "AddrDel"))
  | Some l => let '(l', e) := DeleteAddress_link l ip in (<[vf_link vf := l']> w, e)
  end.

End SriovAddr.

End SriovAddr.

(* ================================================================== *)
(** ** local (part_002): SetupLocalOvSConnection, DeleteLocalOvSConnection *)
(* ================================================================== *)

Module LocalOvs.

(** The switch commands of the [local] package, in the order issued. *)
Inductive OvsCmd :=
| AddPort (name : string)            (* ovs-vsctl -- --may-exist add-port br name *)
| GetOfport (name : string)          (* ovs-vsctl --if-exists get interface name ofport *)
| AddFlow (inPort outPort : Z)       (* ovs-ofctl add-flow br in_port=..,actions=output:.. *)
| DelFlows (inPort : Z)              (* ovs-ofctl del-flows br in_port=.. *)
| DelPort (name : string).           (* ovs-vsctl del-port br name *)

(** The package-level [portMap] and the commands issued (failures are only
    logged by these functions; the logs are not modelled). *)
Record LState := { portMap : gmap string Z; cmds : list OvsCmd }.

Definition set_portMap (m : gmap string Z) (s : LState) : LState :=
  {| portMap := m; cmds := cmds s |}.

Section LocalOvs.

(** Whether a command succeeds, and the stdout of the ofport query of an
    interface ([None] when ovs-vsctl fails). *)
Variable ovs_ok : OvsCmd -> bool.
Variable ofport : string -> option string.

Definition run (c : OvsCmd) (s : LState) : LState * bool :=
  ({| portMap := portMap s; cmds := cmds s ++ [c] |}, ovs_ok c).

(** [getInterfaceOfPort] (part_002, 344-353): -1 on error, else the Atoi
    value, its error ignored. *)
Definition getInterfaceOfPort (s : LState) (interfaceName : string) : LState * Z :=
  let s1 := {| portMap := portMap s; cmds := cmds s ++ [GetOfport interfaceName] |} in
  match ofport interfaceName with
  | None => (s1, (-1)%Z)
  | Some ofPort => (s1, fst (Atoi ofPort))
  end.

(** [SetupLocalOvSConnection] (part_002, 310-342). *)
Definition SetupLocalOvSConnection (s : LState) (srcOvsPort dstOvsPort : string) : LState :=
  let '(s1, _) := run (AddPort srcOvsPort) s in
  let '(s2, _) := run (AddPort dstOvsPort) s1 in
  let '(s3, srcPort) := getInterfaceOfPort s2 srcOvsPort in
  let '(s4, dstPort) := getInterfaceOfPort s3 dstOvsPort in
  let '(s5, ok1) := run (AddFlow srcPort dstPort) s4 in
  let s6 := if ok1 then set_portMap (<[srcOvsPort := srcPort]> (portMap s5)) s5 else s5 in
  let '(s7, ok2) := run (AddFlow dstPort srcPort) s6 in
  if ok2 then set_portMap (<[dstOvsPort := dstPort]> (portMap s7)) s7 else s7.

(** [DeleteLocalOvSConnection] (part_002, 356-385); the two deferred
    deletes run last, the one of [dstOvsPort] first. *)
Definition DeleteLocalOvSConnection (s : LState) (srcOvsPort dstOvsPort : string) : LState :=
  let srcPort := get_int (portMap s) srcOvsPort in
  let dstPort := get_int (portMap s) dstOvsPort in
  let '(s1, _) := run (DelFlows srcPort) s in
  let '(s2, _) := run (DelFlows dstPort) s1 in
  let '(s3, _) := run (DelPort srcOvsPort) s2 in
  let '(s4, _) := run (DelPort dstOvsPort) s3 in
  set_portMap (delete srcOvsPort (delete dstOvsPort (portMap s4))) s4.

End LocalOvs.

End LocalOvs.

(* ================================================================== *)
(** ** remote.go: SetupOvSConnection, DeleteLocalOvSConnection *)
(* ================================================================== *)

Module RemoteOvs.

(** The switch commands of the [remote] package. *)
Inductive RCmd :=
| RAddPort (name : string)                 (* ovs-vsctl -- --may-exist add-port br name *)
| RAddFlowOut (inPort vni outPort : Z)     (* in_port=.., actions=set_field:vni->tun_id,output:.. *)
| RAddFlowIn (inPort vni outPort : Z)      (* in_port=.., tun_id=vni,actions=output:.. *)
| RDelFlows (inPort : Z)                   (* del-flows in_port=.. *)
| RDelFlowsTun (inPort vni : Z)            (* del-flows in_port=..,tun_id=vni *)
| RDelPort (name : string).                (* ovs-vsctl del-port br name *)

(** The shared [ovsutils.PortMap] and the switch commands issued. *)
Record RState := { r_PortMap : gmap string Z; r_cmds : list RCmd }.

Definition set_r_PortMap (m : gmap string Z) (s : RState) : RState :=
  {| r_PortMap := m; r_cmds := r_cmds s |}.

Section RemoteOvs.

(** Whether a command succeeds; [ofport name i] is the stdout of the
    [i]-th ofport query of [name] made by [ovsutils.GetInterfaceOfPort]. *)
Variable ovs_ok : RCmd -> bool.
Variable ofport : string -> nat -> option string.

Definition rrun (c : RCmd) (s : RState) : RState * bool :=
  ({| r_PortMap := r_PortMap s; r_cmds := r_cmds s ++ [c] |}, ovs_ok c).

(** [Connect.SetupOvSConnection] (remote.go, 71-111). *)
Definition SetupOvSConnection (s : RState) (ovsLocalPort ovsTunnelPort : string) (vni : Z)
  : RState * option GoError :=
  let '(s1, ok) := rrun (RAddPort ovsLocalPort) s in
  if negb ok then (s1, Some (EVsctl "add-port")) else
  let q1 := GetInterfaceOfPort (ofport ovsLocalPort) in
  match pq_err q1 with
  | Some e => (s1, Some e)
  | None =>
  let q2 := GetInterfaceOfPort (ofport ovsTunnelPort) in
  match pq_err q2 with
  | Some e => (s1, Some e)
  | None =>
  let ovsLocalPortNum := pq_port q1 in
  let ovsTunnelPortNum := pq_port q2 in
  let '(s2, ok2) := rrun (RAddFlowOut ovsLocalPortNum vni ovsTunnelPortNum) s1 in
  if negb ok2 then (s2, Some (EVsctl "add-flow")) else
  let s3 := set_r_PortMap (<[ovsLocalPort := ovsLocalPortNum]> (r_PortMap s2)) s2 in
  let '(s4, ok3) := rrun (RAddFlowIn ovsTunnelPortNum vni ovsLocalPortNum) s3 in
  if negb ok3 then (s4, Some (EVsctl "add-flow")) else
  (set_r_PortMap (<[ovsTunnelPort := ovsTunnelPortNum]> (r_PortMap s4)) s4, None)
  end end.

(** [Connect.DeleteLocalOvSConnection] (remote.go, 114-138); the deferred
    delete of [ovsLocalPort] runs last. *)
Definition DeleteLocalOvSConnection (s : RState) (ovsLocalPort ovsTunnelPort : string) (vni : Z)
  : RState :=
  let ovsLocalPortNum := get_int (r_PortMap s) ovsLocalPort in
  let '(s1, _) := rrun (RDelFlows ovsLocalPortNum) s in
  let s2 := if negb (Z.eqb (get_int (r_PortMap s1) ovsTunnelPort) 0)
            then fst (rrun (RDelFlowsTun (get_int (r_PortMap s1) ovsTunnelPort) vni) s1)
            else s1 in
  let '(s3, _) := rrun (RDelPort ovsLocalPort) s2 in
  set_r_PortMap (delete ovsLocalPort (r_PortMap s3)) s3.

End RemoteOvs.

End RemoteOvs.

(* ================================================================== *)
(** ** Reference functions for the properties *)
(* ================================================================== *)

(** [s] with every occurrence of the character [c] removed. *)
Fixpoint remove_char (c : ascii) (s : string) : string :=
  match s with
  | EmptyString => EmptyString
  | String c' s' => if Ascii.eqb c' c then remove_char c s' else String c' (remove_char c s')
  end.

(** Whether the character [c] occurs in [s]. *)
Fixpoint has_char (c : ascii) (s : string) : bool :=
  match s with
  | EmptyString => false
  | String c' s' => Ascii.eqb c' c || has_char c s'
  end.

(** The remote endpoint address of a VXLAN connection for a direction, as
    [createVXLANInterface] and [getVXLANParameters] select it. *)
Definition remote_ip (rc : Connection) (d : Direction) : string :=
  match d with
  | INCOMING => get_str (c_params rc) SrcIP
  | OUTGOING => get_str (c_params rc) DstIP
  end.

(** A link matching [GetLink]'s criteria in namespace [ns]: its PCI
    address, or its (non-empty) name. *)
Definition link_matches (pci name : string) (ns : nat) (l : NetLink) : Prop :=
  l_ns l = ns /\ (l_pci l = pci \/ (name <> "" /\ l_name l = name)).

(* ================================================================== *)
(** * Properties *)
(* ================================================================== *)

(* ------------------------------------------------------------------ *)
(** ** Port-id query (ovsutils.GetInterfaceOfPort) *)
(* ------------------------------------------------------------------ *)

Lemma gip_loop_queries (vsctl : nat -> option string) (count i : nat) (p : Z) :
  (pq_queries (gip_loop vsctl count i p) <= i + count)%nat.
Proof.
  revert i p; induction count as [|c IH]; intros i p; simpl; [lia|].
  destruct (vsctl i) as [out|]; simpl; [|lia].
  destruct (Z.eqb _ 0); simpl; [specialize (IH (S i) (fst (Atoi out))); lia | lia].
Qed.

(** The query is bounded: at most five ovs-vsctl calls. *)
Lemma GetInterfaceOfPort_bounded (vsctl : nat -> option string) :
  (pq_queries (GetInterfaceOfPort vsctl) <= 5)%nat.
Proof. apply (gip_loop_queries vsctl 5 0 0). Qed.

(** C9 (code_bug).  When the switch keeps reporting port id 0 (here on
    all five queries), [GetInterfaceOfPort] gives up after the fifth query
    and returns port 0 with a nil error: the failure is not escalated. *)
Theorem GetInterfaceOfPort_zero_returned_as_success :
  GetInterfaceOfPort (fun _ => Some "0") =
  {| pq_port := 0; pq_err := None; pq_queries := 5 |}.
Proof. reflexivity. Qed.

(* ------------------------------------------------------------------ *)
(** ** Device picking (PickDeviceAndNetRep) *)
(* ------------------------------------------------------------------ *)

Section PickProofs.

Variable GetNetRepresentor : string -> option string.
Variable ovsList : option string.

Lemma CheckNetRepAvailability_ovs (netRep : string) :
  CheckNetRepAvailability ovsList netRep = CheckNetRepOvs netRep ovsList.
Proof.
  unfold CheckNetRepAvailability, CheckNetRepOvs.
  destruct ovsList; [destruct existsb|]; reflexivity.
Qed.

(** The loop only runs to its end with [availNetRep = false]. *)
Lemma pick_loop_end (devIDs : list string) (a : bool) :
  pick_loop GetNetRepresentor ovsList devIDs false = (None, a) -> a = false.
Proof.
  induction devIDs as [|d ds IH]; simpl; intros H; [congruence|].
  destruct (GetNetRepresentor d) as [r|]; [|discriminate].
  destruct (CheckNetRepAvailability ovsList r) as [[|] [e|]]; try discriminate.
  exact (IH H).
Qed.

Lemma pick_loop_found (devIDs : list string) (d r : string) :
  (exists a, pick_loop GetNetRepresentor ovsList devIDs false = (Some (inl (d, r)), a)) <->
  (exists pre post, devIDs = (pre ++ d :: post)%list /\
     GetNetRepresentor d = Some r /\ CheckNetRepOvs r ovsList = (true, None) /\
     Forall (fun x => exists r', GetNetRepresentor x = Some r' /\
                                 CheckNetRepOvs r' ovsList = (false, None)) pre).
Proof.
  induction devIDs as [|x xs IH]; simpl.
  - split; [intros [a H]; discriminate|].
    intros (pre & post & Heq & _); destruct pre; discriminate.
  - destruct (GetNetRepresentor x) as [rx|] eqn:Hx;
      [destruct (CheckNetRepAvailability ovsList rx) as [[|] [e|]] eqn:Hc;
       rewrite CheckNetRepAvailability_ovs in Hc|].
    (* each case: either [x] is returned, or the loop continues, or it fails *)
    all: split; [intros [a H]; try discriminate|].
    all: try (intros (pre & post & Heq & Hd & Hav & Hpre);
              destruct pre as [|y pre]; simpl in Heq; injection Heq as -> ->;
              [ rewrite Hx in Hd; injection Hd as ->; congruence
              | inversion Hpre as [|? ? (r' & Hr' & Hc') _]; subst;
                rewrite Hx in Hr'; injection Hr' as ->; congruence ]).
    + injection H as -> -> <-. exists [], xs; repeat split; auto.
    + intros (pre & post & Heq & Hd & Hav & Hpre).
      destruct pre as [|y pre]; simpl in Heq; injection Heq as -> ->.
      * rewrite Hx in Hd; injection Hd as ->; eexists; reflexivity.
      * inversion Hpre as [|? ? (r' & Hr' & Hc') _]; subst.
        rewrite Hx in Hr'; injection Hr' as ->; congruence.
    + destruct (proj1 IH (ex_intro _ a H)) as (pre & post & Heq & Hd & Hav & Hpre).
      exists (x :: pre), post; repeat split; auto; [simpl; congruence|].
      constructor; eauto.
    + intros (pre & post & Heq & Hd & Hav & Hpre).
      destruct pre as [|y pre]; simpl in Heq; injection Heq as -> ->.
      * rewrite Hx in Hd; injection Hd as ->; congruence.
      * inversion Hpre; subst. apply IH; exists pre, post; repeat split; auto.
    + intros (pre & post & Heq & Hd & Hav & Hpre).
      destruct pre as [|y pre]; simpl in Heq; injection Heq as -> ->.
      * congruence.
      * inversion Hpre as [|? ? (r' & Hr' & _) _]; congruence.
Qed.

Lemma pick_loop_none_attached (devIDs : list string) :
  (forall d, In d devIDs -> exists r, GetNetRepresentor d = Some r /\
                                      CheckNetRepOvs r ovsList = (false, None)) ->
  pick_loop GetNetRepresentor ovsList devIDs false = (None, false).
Proof.
  induction devIDs as [|x xs IH]; intros Hall; simpl; [reflexivity|].
  destruct (Hall x (or_introl eq_refl)) as (r & Hr & Hc).
  rewrite Hr, CheckNetRepAvailability_ovs, Hc.
  apply IH; intros d Hd; apply Hall; right; exact Hd.
Qed.

Lemma PickDeviceAndNetRep_found_iff (DeviceIDs d r : string) :
  PickDeviceAndNetRep GetNetRepresentor ovsList DeviceIDs = Some (inl (d, r)) <->
  (exists pre post, Split DeviceIDs comma = (pre ++ d :: post)%list /\
     GetNetRepresentor d = Some r /\ CheckNetRepOvs r ovsList = (true, None) /\
     Forall (fun x => exists r', GetNetRepresentor x = Some r' /\
                                 CheckNetRepOvs r' ovsList = (false, None)) pre).
Proof.
  rewrite <- pick_loop_found. unfold PickDeviceAndNetRep.
  destruct (pick_loop GetNetRepresentor ovsList (Split DeviceIDs comma) false)
    as [[res|] a] eqn:E.
  - split; [intros H; injection H as ->; eauto|].
    intros [a' H]; injection H as -> _; reflexivity.
  - split; [destruct a; simpl; discriminate|].
    intros [a' H]; discriminate.
Qed.

(** A failed representor lookup or switch listing on a candidate reached
    by the scan ends it with that error. *)
Lemma pick_loop_abort (pre post : list string) (d : string) (e : GoError) :
  Forall (fun x => exists r', GetNetRepresentor x = Some r' /\
                              CheckNetRepOvs r' ovsList = (false, None)) pre ->
  (GetNetRepresentor d = None /\ e = ENetRep d) \/
  (exists r b, GetNetRepresentor d = Some r /\ CheckNetRepOvs r ovsList = (b, Some e)) ->
  exists a, pick_loop GetNetRepresentor ovsList (pre ++ d :: post) false = (Some (inr e), a).
Proof.
  induction pre as [|x pre IH]; intros Hpre Hd; simpl.
  - destruct Hd as [[Hg ->] | (r & b & Hg & Hc)]; rewrite Hg; [eauto|].
    rewrite CheckNetRepAvailability_ovs, Hc. eauto.
  - inversion Hpre as [|? ? (r' & Hr' & Hc') Hrest]; subst.
    rewrite Hr', CheckNetRepAvailability_ovs, Hc'. exact (IH Hrest Hd).
Qed.

Lemma CheckNetRepOvs_error (r : string) (b : bool) (e : GoError) :
  CheckNetRepOvs r ovsList = (b, Some e) -> e = EVsctl "list Interface".
Proof.
  unfold CheckNetRepOvs. destruct ovsList; [destruct existsb|]; congruence.
Qed.

(** The scan never stops with the no-device error itself. *)
Lemma pick_loop_not_nodevice (devIDs : list string) (a : bool) :
  pick_loop GetNetRepresentor ovsList devIDs false <> (Some (inr ENoNetRep), a).
Proof.
  induction devIDs as [|x xs IH]; simpl; [discriminate|].
  destruct (GetNetRepresentor x) as [r|]; [|discriminate].
  destruct (CheckNetRepAvailability ovsList r) as [[|] [e|]] eqn:Hc;
    rewrite CheckNetRepAvailability_ovs in Hc; try discriminate; try exact IH.
  all: apply CheckNetRepOvs_error in Hc as ->; discriminate.
Qed.

(** The scan runs to its end only when every candidate is attached. *)
Lemma pick_loop_end_attached (devIDs : list string) (a : bool) :
  pick_loop GetNetRepresentor ovsList devIDs false = (None, a) ->
  forall d, In d devIDs -> exists r, GetNetRepresentor d = Some r /\
                                     CheckNetRepOvs r ovsList = (false, None).
Proof.
  induction devIDs as [|x xs IH]; simpl; intros H d Hd; [contradiction|].
  destruct (GetNetRepresentor x) as [r|] eqn:Hx; [|discriminate].
  destruct (CheckNetRepAvailability ovsList r) as [[|] [e|]] eqn:Hc;
    rewrite CheckNetRepAvailability_ovs in Hc; try discriminate.
  destruct Hd as [<-|Hd]; [eauto | exact (IH H d Hd)].
Qed.

Lemma PickDeviceAndNetRep_abort (DeviceIDs d : string) (pre post : list string)
  (e : GoError) :
  Split DeviceIDs comma = (pre ++ d :: post)%list ->
  Forall (fun x => exists r', GetNetRepresentor x = Some r' /\
                              CheckNetRepOvs r' ovsList = (false, None)) pre ->
  (GetNetRepresentor d = None /\ e = ENetRep d) \/
  (exists r b, GetNetRepresentor d = Some r /\ CheckNetRepOvs r ovsList = (b, Some e)) ->
  PickDeviceAndNetRep GetNetRepresentor ovsList DeviceIDs = Some (inr e).
Proof.
  intros Hs Hpre Hd. unfold PickDeviceAndNetRep. rewrite Hs.
  destruct (pick_loop_abort pre post d e Hpre Hd) as [a ->]. reflexivity.
Qed.

Lemma PickDeviceAndNetRep_nodevice_iff (DeviceIDs : string) :
  PickDeviceAndNetRep GetNetRepresentor ovsList DeviceIDs = Some (inr ENoNetRep) <->
  (forall d, In d (Split DeviceIDs comma) ->
     exists r, GetNetRepresentor d = Some r /\ CheckNetRepOvs r ovsList = (false, None)).
Proof.
  split.
  - unfold PickDeviceAndNetRep.
    destruct (pick_loop GetNetRepresentor ovsList (Split DeviceIDs comma) false)
      as [[res|] a] eqn:E.
    + intros H. injection H as ->. exfalso. exact (pick_loop_not_nodevice _ a E).
    + intros _. exact (pick_loop_end_attached _ a E).
  - intros Hall. unfold PickDeviceAndNetRep.
    rewrite (pick_loop_none_attached _ Hall). reflexivity.
Qed.

End PickProofs.

(** C2 (corrected).  [PickDeviceAndNetRep] returns [(d, r)] exactly when
    [d] is the first comma-separated candidate whose representor [r]
    resolves and is not in the switch's interface listing, every earlier
    candidate having a resolvable representor that is already attached.  A
    candidate reached by the scan whose representor lookup fails, or for
    which the switch listing fails, ends the scan with that error, whatever
    the later candidates are.  The routine only reads, marking nothing.
    Scenario: with the representor of "0000:01:00.1" attached and that of
    "0000:01:00.2" free, the second device is returned. *)
Theorem PickDeviceAndNetRep_first_available :
  (forall (GetNetRepresentor : string -> option string) (ovsList : option string)
          (DeviceIDs d r : string),
     PickDeviceAndNetRep GetNetRepresentor ovsList DeviceIDs = Some (inl (d, r)) <->
     (exists pre post, Split DeviceIDs comma = (pre ++ d :: post)%list /\
        GetNetRepresentor d = Some r /\ CheckNetRepOvs r ovsList = (true, None) /\
        Forall (fun x => exists r', GetNetRepresentor x = Some r' /\
                                    CheckNetRepOvs r' ovsList = (false, None)) pre)) /\
  (forall (GetNetRepresentor : string -> option string) (ovsList : option string)
          (DeviceIDs d : string) (pre post : list string) (e : GoError),
     Split DeviceIDs comma = (pre ++ d :: post)%list ->
     Forall (fun x => exists r', GetNetRepresentor x = Some r' /\
                                 CheckNetRepOvs r' ovsList = (false, None)) pre ->
     (GetNetRepresentor d = None /\ e = ENetRep d) \/
     (exists r b, GetNetRepresentor d = Some r /\ CheckNetRepOvs r ovsList = (b, Some e)) ->
     PickDeviceAndNetRep GetNetRepresentor ovsList DeviceIDs = Some (inr e)) /\
  PickDeviceAndNetRep
    (fun d => if String.eqb d "0000:01:00.1" then Some "eth1_0" else Some "eth1_1")
    (Some ("name : br0" +:+ newline2 +:+ "name : eth1_0"))
    "0000:01:00.1,0000:01:00.2" = Some (inl ("0000:01:00.2", "eth1_1")).
Proof.
  split; [exact PickDeviceAndNetRep_found_iff|].
  split; [exact PickDeviceAndNetRep_abort | vm_compute; reflexivity].
Qed.

Lemma PickDeviceAndNetRep_first_available_witness :
  PickDeviceAndNetRep (fun _ => Some "eth1_1") (Some "name : br0")
    "0000:01:00.2" = Some (inl ("0000:01:00.2", "eth1_1")) /\
  PickDeviceAndNetRep (fun d => if String.eqb d "0000:01:00.1" then Some "eth1_0" else None)
    (Some "name : eth1_0") "0000:01:00.1,0000:01:00.2,0000:01:00.3"
    = Some (inr (ENetRep "0000:01:00.2")).
Proof.
  split.
  - apply (proj1 PickDeviceAndNetRep_first_available).
    exists [], []; repeat split; try (vm_compute; reflexivity); constructor.
  - apply (proj1 (proj2 PickDeviceAndNetRep_first_available) _ _ _
             "0000:01:00.2" ["0000:01:00.1"] ["0000:01:00.3"]).
    + vm_compute. reflexivity.
    + constructor; [|constructor]. exists "eth1_0"; split; vm_compute; reflexivity.
    + left. split; reflexivity.
Defined.

(** C2 counterexample: "0000:01:00.2" is free with a representor that is
    not attached, yet the pick fails, because the representor lookup of the
    earlier candidate "0000:01:00.1" errors and the error aborts the scan. *)
Lemma PickDeviceAndNetRep_lookup_error_aborts :
  let reps := fun d => if String.eqb d "0000:01:00.2" then Some "eth1_1" else None in
  let ovsList := Some "name : br0" in
  reps "0000:01:00.2" = Some "eth1_1" /\
  CheckNetRepOvs "eth1_1" ovsList = (true, None) /\
  PickDeviceAndNetRep reps ovsList "0000:01:00.1,0000:01:00.2"
    = Some (inr (ENetRep "0000:01:00.1")).
Proof. vm_compute; repeat split. Qed.

(** C3 (corrected).  Every path of [PickDeviceAndNetRep] returns a value:
    the path after the loop is only reached with [availNetRep = false] and
    returns the "could not find available Net Rep" error.  That error is
    the result exactly when every candidate's representor resolves and is
    already attached.  When the scan reaches a candidate whose representor
    lookup or switch listing fails (every earlier candidate being attached),
    the result is that failure instead. *)
Theorem PickDeviceAndNetRep_total_nodevice :
  (forall (GetNetRepresentor : string -> option string) (ovsList : option string)
          (DeviceIDs : string),
     PickDeviceAndNetRep GetNetRepresentor ovsList DeviceIDs <> None) /\
  (forall (GetNetRepresentor : string -> option string) (ovsList : option string)
          (DeviceIDs : string),
     (forall d, In d (Split DeviceIDs comma) ->
        exists r, GetNetRepresentor d = Some r /\ CheckNetRepOvs r ovsList = (false, None)) <->
     PickDeviceAndNetRep GetNetRepresentor ovsList DeviceIDs = Some (inr ENoNetRep)) /\
  (forall (GetNetRepresentor : string -> option string) (ovsList : option string)
          (DeviceIDs d : string) (pre post : list string) (e : GoError),
     Split DeviceIDs comma = (pre ++ d :: post)%list ->
     Forall (fun x => exists r', GetNetRepresentor x = Some r' /\
                                 CheckNetRepOvs r' ovsList = (false, None)) pre ->
     (GetNetRepresentor d = None /\ e = ENetRep d) \/
     (exists r b, GetNetRepresentor d = Some r /\ CheckNetRepOvs r ovsList = (b, Some e)) ->
     PickDeviceAndNetRep GetNetRepresentor ovsList DeviceIDs = Some (inr e)).
Proof.
  split; [|split].
  - intros g o ids. unfold PickDeviceAndNetRep.
    destruct (pick_loop g o (Split ids comma) false) as [[res|] a] eqn:E; [discriminate|].
    apply pick_loop_end in E as ->. discriminate.
  - intros g o ids. symmetry. apply PickDeviceAndNetRep_nodevice_iff.
  - exact PickDeviceAndNetRep_abort.
Qed.

Lemma PickDeviceAndNetRep_total_nodevice_witness :
  PickDeviceAndNetRep (fun _ => Some "eth1_0") (Some "name : eth1_0")
    "0000:01:00.1" = Some (inr ENoNetRep) /\
  PickDeviceAndNetRep (fun _ => Some "eth1_0") None
    "0000:01:00.1" = Some (inr (EVsctl "list Interface")).
Proof.
  split.
  - apply (proj1 (proj1 (proj2 PickDeviceAndNetRep_total_nodevice) _ _ _)).
    intros d Hd. simpl in Hd. destruct Hd as [<-|[]].
    exists "eth1_0"; split; vm_compute; reflexivity.
  - apply (proj2 (proj2 PickDeviceAndNetRep_total_nodevice) _ _ _
             "0000:01:00.1" [] []).
    + vm_compute. reflexivity.
    + constructor.
    + right. exists "eth1_0", false. split; reflexivity.
Defined.

(** C3 counterexample: the only candidate has no resolvable representor,
    so no candidate is available, and the result is the lookup error, not
    the no-device error. *)
Lemma PickDeviceAndNetRep_nodevice_lookup_error :
  PickDeviceAndNetRep (fun _ => None) (Some "name : br0") "0000:01:00.1"
    = Some (inr (ENetRep "0000:01:00.1")) /\
  ENetRep "0000:01:00.1" <> ENoNetRep.
Proof. split; [vm_compute; reflexivity | discriminate]. Qed.

(* ------------------------------------------------------------------ *)
(** ** Address assignment (vfLink.AddAddress) *)
(* ------------------------------------------------------------------ *)

Lemma Addr_Equal_refl (a : Addr) : Addr_Equal a a = true.
Proof.
  unfold Addr_Equal. rewrite bool_decide_eq_true_2 by reflexivity.
  rewrite Nat.eqb_refl. reflexivity.
Qed.

Lemma AddAddress_link_twice (ParseAddr : string -> option Addr) (l : NetLink) (ip : string) :
  AddAddress_link ParseAddr (fst (AddAddress_link ParseAddr l ip)) ip
  = AddAddress_link ParseAddr l ip.
Proof.
  unfold AddAddress_link. destruct (ParseAddr ip) as [addr|]; simpl; [|reflexivity].
  destruct (existsb (Addr_Equal addr) (l_addrs l)) eqn:E; simpl; rewrite ?E; [reflexivity|].
  rewrite existsb_app; simpl. rewrite Addr_Equal_refl, orb_true_r. reflexivity.
Qed.

(** C10 (confirmed).  [vfLink.AddAddress] is idempotent: when an address
    equal to the parsed one is already on the link it succeeds and leaves
    the link unchanged; and adding the same address twice, on the link or
    on the whole set of links, gives the result of adding it once. *)
Theorem AddAddress_idempotent :
  (forall (ParseAddr : string -> option Addr) (l : NetLink) (ip : string) (a : Addr),
     ParseAddr ip = Some a -> existsb (Addr_Equal a) (l_addrs l) = true ->
     AddAddress_link ParseAddr l ip = (l, None)) /\
  (forall (ParseAddr : string -> option Addr) (l : NetLink) (ip : string),
     AddAddress_link ParseAddr (fst (AddAddress_link ParseAddr l ip)) ip
     = AddAddress_link ParseAddr l ip) /\
  (forall (ParseAddr : string -> option Addr) (w : World) (vf : vfLink) (ip : string),
     AddAddress ParseAddr (fst (AddAddress ParseAddr w vf ip)) vf ip
     = AddAddress ParseAddr w vf ip).
Proof.
  split; [|split].
  - intros P l ip a Hp He. unfold AddAddress_link. rewrite Hp, He. reflexivity.
  - exact AddAddress_link_twice.
  - intros P w vf ip. unfold AddAddress.
    destruct (w !! vf_link vf) as [l|] eqn:El; simpl; [|rewrite El; reflexivity].
    destruct (AddAddress_link P l ip) as [l' e] eqn:Ea; simpl.
    rewrite list_lookup_insert_eq by (eapply lookup_lt_Some; exact El).
    pose proof (AddAddress_link_twice P l ip) as Ht. rewrite Ea in Ht; simpl in Ht.
    rewrite Ht, list_insert_insert. case_decide; [reflexivity | congruence].
Qed.

Lemma AddAddress_idempotent_witness :
  let a := {| a_ip := [10; 0; 0; 1]%Z; a_prefix := 24; a_label := "" |} in
  let l := {| l_pci := "0000:01:00.1"; l_name := "nsm0"; l_ns := 1;
              l_addrs := [a]; l_up := true |} in
  AddAddress_link (fun _ => Some a) l "10.0.0.1/24" = (l, None).
Proof.
  intros a l. apply ((proj1 AddAddress_idempotent) (fun _ => Some a) l "10.0.0.1/24" a);
  vm_compute; reflexivity.
Defined.

(* ------------------------------------------------------------------ *)
(** ** Close (OvSForwarder.Close) *)
(* ------------------------------------------------------------------ *)

(** C8 (corrected).  [Close] returns success ([&empty.Empty{}] with a nil
    error) for every cross-connect and every outcome of the teardown, the
    ambiguous case included: when neither or both endpoints are remote and
    the pair is not kernel-to-kernel, the "invalid connection type" error is
    only logged (twice) and the monitor delete still happens. *)
Theorem Close_always_succeeds :
  (forall GetNetRepresentor ovsList ovs_ok ip_string SanityCheckConnectionType
          (s : Fwd) (cc : CrossConnect),
     snd (Close GetNetRepresentor ovsList ovs_ok ip_string SanityCheckConnectionType s cc)
     = inl tt) /\
  (forall GetNetRepresentor ovsList ovs_ok ip_string SanityCheckConnectionType
          (s : Fwd) (cc : CrossConnect),
     SanityCheckConnectionType cc = true ->
     String.eqb (c_mech_type (cc_src cc)) Forwarder.KERNEL_MECHANISM
       && String.eqb (c_mech_type (cc_dst cc)) Forwarder.KERNEL_MECHANISM = false ->
     c_remote (cc_src cc) = c_remote (cc_dst cc) ->
     Close GetNetRepresentor ovsList ovs_ok ip_string SanityCheckConnectionType s cc
     = (emit (MonitorDelete (cc_id cc))
          (emit (LogErr EInvalidConnType) (emit (LogErr EInvalidConnType) s)), inl tt)).
Proof.
  split.
  - intros g o ok ips san s cc. unfold Close.
    destruct (connectOrDisconnect _ _ _ _ _ s cc false); reflexivity.
  - intros g o ok ips san s cc Hs Hk Hr. unfold Close, connectOrDisconnect.
    rewrite Hs, Hk. simpl. unfold handleRemoteConnection. rewrite Hr.
    destruct (c_remote (cc_dst cc)); reflexivity.
Qed.

Lemma Close_always_succeeds_witness :
  let c := {| c_mech_type := "VXLAN"; c_params := ∅; c_remote := true |} in
  let cc := {| cc_id := "cc1"; cc_src := c; cc_dst := c |} in
  let s := {| DevIDMap := ∅; PortMap := ∅; vxlanInterfaces := ∅; trace := [] |} in
  Close (fun _ => None) None (fun _ => true) (fun x => x) (fun _ => true) s cc
  = (emit (MonitorDelete "cc1")
       (emit (LogErr EInvalidConnType) (emit (LogErr EInvalidConnType) s)), inl tt).
Proof.
  intros c cc s.
  apply (proj2 Close_always_succeeds); vm_compute; reflexivity.
Defined.

(** C8 counterexample: both endpoints are remote, so the remote handler
    cannot tell the local side from the remote one and reports the
    invalid-connection-type error; Close still returns success, surfacing
    no error. *)
Lemma Close_ambiguous_not_surfaced :
  let c := {| c_mech_type := "VXLAN"; c_params := ∅; c_remote := true |} in
  let cc := {| cc_id := "cc1"; cc_src := c; cc_dst := c |} in
  let s := {| DevIDMap := ∅; PortMap := ∅; vxlanInterfaces := ∅; trace := [] |} in
  snd (connectOrDisconnect (fun _ => None) None (fun _ => true) (fun x => x)
         (fun _ => true) s cc false) = Some EInvalidConnType /\
  snd (Close (fun _ => None) None (fun _ => true) (fun x => x) (fun _ => true) s cc)
  = inl tt.
Proof. vm_compute; split; reflexivity. Qed.

(* ------------------------------------------------------------------ *)
(** ** Device pool (ConnectionEndpoint) *)
(* ------------------------------------------------------------------ *)

Module EndpointProofs.

Import Endpoint.

Lemma pick_free_in (order : list (string * bool)) :
  pick_free order <> "" -> In (pick_free order, false) order.
Proof.
  induction order as [|[p u] rest IH]; simpl; [congruence|].
  destruct u; intros H; [right; apply IH, H | left; reflexivity].
Qed.

Lemma pick_free_all_used (order : list (string * bool)) :
  (forall kv, In kv order -> kv.2 = true) -> pick_free order = "".
Proof.
  induction order as [|[p u] rest IH]; simpl; intros H; [reflexivity|].
  pose proof (H (p, u) (or_introl eq_refl)) as Hu; simpl in Hu; subst u. apply IH. intros kv Hkv; apply H; right; exact Hkv.
Qed.

Lemma Request_dom (cce : ConnectionEndpoint) (order : list (string * bool))
  (valid : bool) (mech : option (gmap string string)) :
  order ≡ₚ map_to_list (pciAddresses cce) ->
  dom (pciAddresses (fst (Request cce order valid mech))) = dom (pciAddresses cce).
Proof.
  intros Hp. unfold Request. destruct valid; simpl; [|reflexivity].
  destruct mech as [params|]; simpl; [|reflexivity].
  destruct (String.eqb (pick_free order) "") eqn:E; simpl; [reflexivity|].
  apply String.eqb_neq in E. apply pick_free_in in E.
  apply (Permutation_in _ Hp), list_elem_of_In, elem_of_map_to_list in E.
  apply dom_insert_lookup_L. eauto.
Qed.

Lemma Close_dom (cce : ConnectionEndpoint) (params : gmap string string) :
  (forall p, params !! PciAddress = Some p -> p ∈ dom (pciAddresses cce)) ->
  dom (pciAddresses (Close cce params)) = dom (pciAddresses cce).
Proof.
  intros H. unfold Close. destruct (params !! PciAddress) as [p|] eqn:E; simpl; [|reflexivity].
  apply dom_insert_lookup_L. apply elem_of_dom. apply H; reflexivity.
Qed.

(** A Close names a device of the given key set (or none). *)
Definition closes_within (D : gset string) (op : EndpointOp) : Prop :=
  match op with
  | OpClose params => forall p, params !! PciAddress = Some p -> p ∈ D
  | OpRequest _ _ _ => True
  end.

Lemma run_dom (cce : ConnectionEndpoint) (ops : list EndpointOp) :
  valid_run cce ops -> Forall (closes_within (dom (pciAddresses cce))) ops ->
  dom (pciAddresses (run cce ops)) = dom (pciAddresses cce).
Proof.
  revert cce; induction ops as [|op rest IH]; intros cce Hv Hc; simpl; [reflexivity|].
  destruct Hv as [Hop Hv]. inversion Hc as [|? ? Hc1 Hcs]; subst.
  assert (Hd : dom (pciAddresses (step cce op)) = dom (pciAddresses cce)).
  { destruct op as [order valid mech|params]; simpl in *.
    - apply Request_dom, Hop.
    - apply Close_dom, Hc1. }
  rewrite IH; [exact Hd | exact Hv |]. rewrite Hd. exact Hcs.
Qed.

Lemma in_use_count_le_size (cce : ConnectionEndpoint) :
  (in_use_count cce <= size (pciAddresses cce))%nat.
Proof.
  unfold in_use_count. rewrite <- length_map_to_list. apply filter_length_le.
Qed.

(** C4 (corrected).  Along any run of Requests (in any map iteration order)
    and of Closes naming configured devices, the pool's key set stays the
    configured one, so at most [size] devices, the number configured, are
    marked in use at once.  A Request made when every device is in use does
    not fail: it succeeds, leaves the pool unchanged and returns the
    mechanism without a PCI address. *)
Theorem pool_bounded_and_exhausted_request_succeeds :
  (forall (cce : ConnectionEndpoint) (ops : list EndpointOp),
     valid_run cce ops -> Forall (closes_within (dom (pciAddresses cce))) ops ->
     dom (pciAddresses (run cce ops)) = dom (pciAddresses cce) /\
     (in_use_count (run cce ops) <= size (pciAddresses cce))%nat) /\
  (forall (cce : ConnectionEndpoint) (order : list (string * bool))
          (params : gmap string string),
     order ≡ₚ map_to_list (pciAddresses cce) ->
     map_Forall (fun _ in_use => in_use = true) (pciAddresses cce) ->
     Request cce order true (Some params) = (cce, inl params)).
Proof.
  split.
  - intros cce ops Hv Hc. pose proof (run_dom cce ops Hv Hc) as Hd. split; [exact Hd|].
    rewrite <- (size_dom (pciAddresses cce)), <- Hd, size_dom.
    apply in_use_count_le_size.
  - intros cce order params Hp Hall. unfold Request; simpl.
    rewrite pick_free_all_used; [reflexivity|].
    intros [k u] Hin.
    apply (Permutation_in _ Hp), list_elem_of_In, elem_of_map_to_list in Hin. exact (Hall k u Hin).
Qed.

Lemma pool_bounded_and_exhausted_request_succeeds_witness :
  let cce := {| mechanismType := KERNEL_MECHANISM;
                pciAddresses := {["0000:01:00.1" := true]} |} in
  let ops := [OpClose {[PciAddress := "0000:01:00.1"]};
              OpRequest [("0000:01:00.1", false)] true (Some ∅)] in
  Request cce [("0000:01:00.1", true)] true (Some ∅) = (cce, inl ∅) /\
  (in_use_count (run cce ops) <= size (pciAddresses cce))%nat.
Proof.
  intros cce ops. split.
  - apply (proj2 pool_bounded_and_exhausted_request_succeeds).
    + vm_compute. reflexivity.
    + apply map_Forall_singleton. reflexivity.
  - refine (proj2 (proj1 pool_bounded_and_exhausted_request_succeeds cce ops _ _)).
    + split; [exact I | split; [vm_compute; reflexivity | exact I]].
    + repeat constructor. intros p Hp. vm_compute in Hp. injection Hp as <-.
      unfold cce; simpl. rewrite dom_singleton_L. set_solver.
Defined.

(** C4 counterexample: a pool of one device; the first Request takes it,
    and a second Request, with no device free, succeeds instead of failing,
    its mechanism carrying no PCI address. *)
Lemma exhausted_pool_request_succeeds :
  let cce0 := NewConnectionEndpoint "0000:01:00.1" "" in
  let '(cce1, r1) := Request cce0 (map_to_list (pciAddresses cce0)) true (Some ∅) in
  let '(cce2, r2) := Request cce1 (map_to_list (pciAddresses cce1)) true (Some ∅) in
  r1 = inl {[PciAddress := "0000:01:00.1"]} /\ r2 = inl ∅ /\
  size (pciAddresses cce0) = 1%nat.
Proof. vm_compute. repeat split. Qed.

(** C5 (code_bug).  Closing a connection whose mechanism names a device
    outside the configured set inserts that device into the pool, marked
    free, and a later Request can hand it out. *)
Theorem Close_unconfigured_extends_pool :
  let cce0 := NewConnectionEndpoint "0000:01:00.1" "" in
  let cce1 := Close cce0 {[PciAddress := "0000:01:00.2"]} in
  dom (pciAddresses cce0) = {["0000:01:00.1"]} /\
  dom (pciAddresses cce1) = {["0000:01:00.1"; "0000:01:00.2"]} /\
  pciAddresses cce1 !! "0000:01:00.2" = Some false /\
  Request cce1 [("0000:01:00.2", false); ("0000:01:00.1", false)] true (Some ∅)
  = ({| mechanismType := KERNEL_MECHANISM;
        pciAddresses := {["0000:01:00.1" := false; "0000:01:00.2" := true]} |},
     inl {[PciAddress := "0000:01:00.2"]}) /\
  [("0000:01:00.2", false); ("0000:01:00.1", false)] ≡ₚ map_to_list (pciAddresses cce1).
Proof.
  intros cce0 cce1. split; [|split; [|split; [|split]]].
  - unfold cce0, NewConnectionEndpoint; simpl.
    rewrite insert_empty, dom_singleton_L. reflexivity.
  - unfold cce1, cce0, Close, NewConnectionEndpoint; simpl.
    rewrite lookup_singleton_eq; simpl. rewrite insert_empty.
    rewrite dom_insert_L, dom_singleton_L. set_solver.
  - vm_compute. reflexivity.
  - vm_compute. reflexivity.
  - vm_compute. apply Permutation_swap.
Qed.

End EndpointProofs.

(* ------------------------------------------------------------------ *)
(** ** Forwarder state: frame lemmas *)
(* ------------------------------------------------------------------ *)

Local Open Scope list_scope.

Section FwdProofs.

Variable GetNetRepresentor : string -> option string.
Variable ovs_ok : Ev -> bool.
Variable ip_string : string -> string.

(** Two forwarder states agree on the maps and on the calls made. *)
Definition same_but_logs (s s' : Fwd) : Prop :=
  DevIDMap s' = DevIDMap s /\ PortMap s' = PortMap s /\
  vxlanInterfaces s' = vxlanInterfaces s /\ calls (trace s') = calls (trace s).

Lemma calls_app (t1 t2 : list Ev) : calls (t1 ++ t2) = calls t1 ++ calls t2.
Proof. unfold calls. induction t1 as [|e t IH]; simpl; [reflexivity|]. destruct (is_call e); simpl; rewrite IH; reflexivity. Qed.

Lemma same_but_logs_refl (s : Fwd) : same_but_logs s s.
Proof. repeat split. Qed.

Lemma same_but_logs_log (e : GoError) (s s' : Fwd) :
  same_but_logs s s' -> same_but_logs s (emit (LogErr e) s').
Proof.
  intros (H1 & H2 & H3 & H4). repeat split; simpl; auto.
  rewrite calls_app, H4. simpl. apply app_nil_r.
Qed.

Lemma netrep_logged_spec (s : Fwd) (d : string) :
  same_but_logs s (fst (netrep_logged GetNetRepresentor s d)) /\
  snd (netrep_logged GetNetRepresentor s d) = default "" (GetNetRepresentor d).
Proof.
  unfold netrep_logged. destruct (GetNetRepresentor d); simpl.
  - split; [apply same_but_logs_refl | reflexivity].
  - split; [apply same_but_logs_log, same_but_logs_refl | reflexivity].
Qed.

Lemma recover_device_spec (s : Fwd) (key : string) :
  let '(s1, deviceID, netRep) := recover_device GetNetRepresentor s key in
  same_but_logs s s1 /\ deviceID = get_str (DevIDMap s) key /\
  (deviceID <> "" -> netRep = default "" (GetNetRepresentor deviceID)).
Proof.
  unfold recover_device, get_str. destruct (DevIDMap s !! key) as [d|]; simpl.
  - destruct (netrep_logged GetNetRepresentor s d) as [s1 r] eqn:E.
    pose proof (netrep_logged_spec s d) as [Hs Hr]. rewrite E in Hs, Hr. simpl in *.
    split; [exact Hs | split; [reflexivity | auto]].
  - split; [apply same_but_logs_refl | split; [reflexivity | congruence]].
Qed.

Lemma ext_logged_spec (e : Ev) (s : Fwd) :
  is_call e = true ->
  DevIDMap (ext_logged ovs_ok e s) = DevIDMap s /\
  PortMap (ext_logged ovs_ok e s) = PortMap s /\
  vxlanInterfaces (ext_logged ovs_ok e s) = vxlanInterfaces s /\
  calls (trace (ext_logged ovs_ok e s)) = calls (trace s) ++ [e].
Proof.
  intros Hc. unfold ext_logged, ext. destruct (ovs_ok e); simpl; repeat split;
  rewrite ?calls_app; simpl; rewrite ?Hc; simpl; rewrite ?app_nil_r; reflexivity.
Qed.

Lemma deleteVXLANInterface_frame (s : Fwd) (name : string) :
  let '(s', _) := deleteVXLANInterface ovs_ok s name in
  DevIDMap s' = DevIDMap s /\
  (calls (trace s') = calls (trace s) \/
   calls (trace s') = calls (trace s) ++ [DelVxlanPort name]).
Proof.
  unfold deleteVXLANInterface, ext.
  destruct (Z.eqb (get_int (vxlanInterfaces s) name) 1).
  - destruct (ovs_ok (DelVxlanPort name)); simpl; (split; [reflexivity | right]);
    rewrite calls_app; reflexivity.
  - destruct (negb _); simpl; auto.
Qed.

(* ------------------------------------------------------------------ *)
(** ** Tunnel registry: one Acquire, one Release *)
(* ------------------------------------------------------------------ *)

Lemma createVXLANInterface_present (s : Fwd) (rc : Connection) (d : Direction)
  (k : string) (c : Z) :
  snd (getVXLANParameters ip_string rc d) = k -> vxlanInterfaces s !! k = Some c ->
  fst (createVXLANInterface ovs_ok ip_string s rc d)
  = set_vxlan (<[k := (c + 1)%Z]> (vxlanInterfaces s)) s.
Proof.
  intros Hk Hc. unfold createVXLANInterface, get_int.
  destruct d; simpl in *; subst k; rewrite Hc; simpl; rewrite Hc; reflexivity.
Qed.

Lemma createVXLANInterface_absent (s : Fwd) (rc : Connection) (d : Direction)
  (k : string) :
  snd (getVXLANParameters ip_string rc d) = k -> vxlanInterfaces s !! k = None ->
  (forall l r, ovs_ok (AddVxlanPort k l r) = true) ->
  exists l r, fst (createVXLANInterface ovs_ok ip_string s rc d)
              = set_vxlan (<[k := 1%Z]> (vxlanInterfaces s)) (emit (AddVxlanPort k l r) s).
Proof.
  intros Hk Hc Hok. unfold createVXLANInterface, ext, get_int.
  destruct d; simpl in *; subst k; rewrite Hc, Hok; simpl; rewrite Hc; eauto.
Qed.

Fixpoint acquire_keys (rcs : list (Connection * Direction)) (k : string) : Prop :=
  match rcs with
  | [] => True
  | (rc, d) :: rest => snd (getVXLANParameters ip_string rc d) = k /\ acquire_keys rest k
  end.

Lemma acquire_all_present (rcs : list (Connection * Direction)) (s : Fwd) (k : string) (c : Z) :
  acquire_keys rcs k -> vxlanInterfaces s !! k = Some c ->
  vxlanInterfaces (acquire_all ovs_ok ip_string s rcs) !! k = Some (c + Z.of_nat (length rcs))%Z /\
  trace (acquire_all ovs_ok ip_string s rcs) = trace s /\
  PortMap (acquire_all ovs_ok ip_string s rcs) = PortMap s.
Proof.
  revert s c; induction rcs as [|[rc d] rest IH]; intros s c Hk Hc; simpl.
  - rewrite Hc, Z.add_0_r. auto.
  - destruct Hk as [Hk1 Hk]. rewrite (createVXLANInterface_present s rc d k c Hk1 Hc).
    destruct (IH (set_vxlan (<[k := (c + 1)%Z]> (vxlanInterfaces s)) s) (c + 1)%Z Hk)
      as (H1 & H2 & H3).
    { simpl. apply lookup_insert_eq. }
    rewrite H1, H2, H3. repeat split; [f_equal; lia].
Qed.

Lemma acquire_all_absent (rcs : list (Connection * Direction)) (s : Fwd) (k : string) :
  rcs <> [] -> acquire_keys rcs k -> vxlanInterfaces s !! k = None ->
  (forall l r, ovs_ok (AddVxlanPort k l r) = true) ->
  vxlanInterfaces (acquire_all ovs_ok ip_string s rcs) !! k = Some (Z.of_nat (length rcs)) /\
  (exists l r, trace (acquire_all ovs_ok ip_string s rcs) = trace s ++ [AddVxlanPort k l r]) /\
  PortMap (acquire_all ovs_ok ip_string s rcs) = PortMap s.
Proof.
  destruct rcs as [|[rc d] rest]; [congruence|]. intros _ [Hk1 Hk] Hc Hok. simpl.
  destruct (createVXLANInterface_absent s rc d k Hk1 Hc Hok) as (l & r & ->).
  destruct (acquire_all_present rest
              (set_vxlan (<[k:=1%Z]> (vxlanInterfaces s)) (emit (AddVxlanPort k l r) s)) k 1 Hk)
    as (H1 & H2 & H3).
  { simpl. apply lookup_insert_eq. }
  rewrite H1, H2, H3. repeat split; [f_equal; lia | eauto].
Qed.

Lemma deleteVXLANInterface_more (s : Fwd) (k : string) (c : Z) :
  vxlanInterfaces s !! k = Some c -> (1 < c)%Z ->
  fst (deleteVXLANInterface ovs_ok s k) = set_vxlan (<[k := (c - 1)%Z]> (vxlanInterfaces s)) s.
Proof.
  intros Hc Hlt. unfold deleteVXLANInterface, get_int. rewrite Hc; simpl.
  destruct (Z.eqb_spec c 1); [lia|]. destruct (Z.eqb_spec c 0); [lia|]. reflexivity.
Qed.

Lemma deleteVXLANInterface_last (s : Fwd) (k : string) :
  vxlanInterfaces s !! k = Some 1%Z -> ovs_ok (DelVxlanPort k) = true ->
  fst (deleteVXLANInterface ovs_ok s k)
  = set_vxlan (delete k (vxlanInterfaces s))
      (set_PortMap (delete k (PortMap s)) (emit (DelVxlanPort k) s)).
Proof.
  intros Hc Hok. unfold deleteVXLANInterface, get_int, ext. rewrite Hc, Hok. reflexivity.
Qed.

Lemma release_n_add (s : Fwd) (k : string) (a b : nat) :
  release_n ovs_ok s k (a + b) = release_n ovs_ok (release_n ovs_ok s k a) k b.
Proof. revert s; induction a as [|a IH]; intros s; simpl; auto. Qed.

Lemma release_n_more (i : nat) (s : Fwd) (k : string) (c : Z) :
  vxlanInterfaces s !! k = Some c -> (Z.of_nat i < c)%Z ->
  vxlanInterfaces (release_n ovs_ok s k i) !! k = Some (c - Z.of_nat i)%Z /\
  trace (release_n ovs_ok s k i) = trace s.
Proof.
  revert s c; induction i as [|i IH]; intros s c Hc Hlt; simpl.
  - rewrite Hc, Z.sub_0_r. auto.
  - rewrite (deleteVXLANInterface_more s k c Hc) by lia.
    destruct (IH (set_vxlan (<[k := (c - 1)%Z]> (vxlanInterfaces s)) s) (c - 1)%Z)
      as [H1 H2]; [simpl; apply lookup_insert_eq | lia |].
    rewrite H1, H2. split; [f_equal; lia | reflexivity].
Qed.

End FwdProofs.

(** C1 (confirmed).  Tunnel reference counting, for the tunnel name [k]
    of M >= 1 connections (each [createVXLANInterface] call derives [k]
    from its connection as [getVXLANParameters] does), starting with no
    registry entry for [k] and with the switch primitives succeeding:
    after the j-th Acquire (1 <= j <= M) the registry holds [k] with count
    j and the tunnel port has been created once, by the first Acquire;
    after i < M Releases the count is M - i and nothing was deleted; the
    M-th Release deletes the tunnel port once and removes [k] from the
    registry and from the port map. *)
Theorem tunnel_refcount :
  forall (ovs_ok : Ev -> bool) (ip_string : string -> string) (s : Fwd)
         (rcs : list (Connection * Direction)) (k : string),
  rcs <> [] -> acquire_keys ip_string rcs k -> vxlanInterfaces s !! k = None ->
  (forall l r, ovs_ok (AddVxlanPort k l r) = true) -> ovs_ok (DelVxlanPort k) = true ->
  let M := length rcs in
  let s1 := acquire_all ovs_ok ip_string s rcs in
  (forall j, (1 <= j <= M)%nat ->
     vxlanInterfaces (acquire_all ovs_ok ip_string s (take j rcs)) !! k = Some (Z.of_nat j) /\
     exists l r, trace (acquire_all ovs_ok ip_string s (take j rcs))
                 = trace s ++ [AddVxlanPort k l r]) /\
  (forall i, (i < M)%nat ->
     vxlanInterfaces (release_n ovs_ok s1 k i) !! k = Some (Z.of_nat (M - i)) /\
     trace (release_n ovs_ok s1 k i) = trace s1) /\
  (vxlanInterfaces (release_n ovs_ok s1 k M) !! k = None /\
   PortMap (release_n ovs_ok s1 k M) !! k = None /\
   trace (release_n ovs_ok s1 k M) = trace s1 ++ [DelVxlanPort k]).
Proof.
  intros ok ips s rcs k Hne Hk Hc Hadd Hdel M s1.
  assert (Hkeys : forall j, acquire_keys ips (take j rcs) k).
  { clear -Hk. intros j. revert rcs Hk; induction j as [|j IH]; intros [|[rc d] rest] Hk;
    simpl; auto. destruct Hk; split; auto. }
  destruct (acquire_all_absent ok ips rcs s k Hne Hk Hc Hadd) as (HA1 & _ & _).
  split; [|split].
  - intros j Hj.
    assert (Hl : length (take j rcs) = j) by (rewrite length_take; lia).
    assert (Hnj : take j rcs <> []) by (intros E; rewrite E in Hl; simpl in Hl; lia).
    destruct (acquire_all_absent ok ips (take j rcs) s k Hnj (Hkeys j) Hc Hadd)
      as (H1 & H2 & _).
    rewrite Hl in H1. auto.
  - intros i Hi. destruct (release_n_more ok i s1 k (Z.of_nat M) HA1) as [H1 H2]; [lia|].
    rewrite H1, H2. split; [f_equal; lia | reflexivity].
  - assert (HM : M = (M - 1 + 1)%nat) by (unfold M; destruct rcs; [congruence | simpl; lia]).
    rewrite HM, release_n_add. simpl.
    destruct (release_n_more ok (M - 1) s1 k (Z.of_nat M) HA1) as [H1 H2]; [lia|].
    rewrite (deleteVXLANInterface_last ok _ k); [| rewrite H1; f_equal; lia | exact Hdel].
    simpl. rewrite H2. repeat split; apply lookup_delete_eq.
Qed.

Lemma tunnel_refcount_witness :
  let rc1 := {| c_mech_type := VXLAN_MECHANISM;
                c_params := <[SrcIP := "10.0.0.1"]> (<[DstIP := "10.0.0.5"]> {[VNI := "42"]});
                c_remote := true |} in
  let rcs := [(rc1, OUTGOING); (rc1, OUTGOING)] in
  let s := {| DevIDMap := ∅; PortMap := ∅; vxlanInterfaces := ∅; trace := [] |} in
  vxlanInterfaces (acquire_all (fun _ => true) (fun x => x) s rcs) !! "v10005" = Some 2%Z /\
  (exists l r, trace (acquire_all (fun _ => true) (fun x => x) s rcs)
               = [AddVxlanPort "v10005" l r]) /\
  trace (release_n (fun _ => true) (acquire_all (fun _ => true) (fun x => x) s rcs) "v10005" 2)
  = trace (acquire_all (fun _ => true) (fun x => x) s rcs) ++ [DelVxlanPort "v10005"].
Proof.
  intros rc1 rcs s.
  pose proof (tunnel_refcount (fun _ => true) (fun x => x) s rcs "v10005") as T.
  destruct T as (Ha & _ & Hf).
  - discriminate.
  - split; [vm_compute; reflexivity | split; [vm_compute; reflexivity | exact I]].
  - reflexivity.
  - reflexivity.
  - reflexivity.
  - destruct (Ha 2%nat) as [H1 H2]; [simpl; lia |].
    split; [exact H1 | split; [exact H2 | exact (proj2 (proj2 Hf))]].
Defined.

(* ------------------------------------------------------------------ *)
(** ** Connection teardown *)
(* ------------------------------------------------------------------ *)

(** C6 (confirmed).  Local teardown reads the device of each side from the
    [DevIDMap] records "src-"+id and "dst-"+id (the zero value "" when
    absent), never from the cross-connect's parameters; a side without a
    device gets the port name "tapsrc"+id / "tapdst"+id, a side with one
    gets its representor; the teardown calls are made on these, and both
    records are removed.  Remote teardown of a VXLAN connection likewise
    reads the device from "rem-"+id, names the port "tap_"+id when there is
    none, and removes the record; the tunnel port is deleted when this was
    its last reference. *)
Theorem teardown_recovers_and_removes_records :
  (forall (GetNetRepresentor : string -> option string) (ovs_ok : Ev -> bool)
          (s : Fwd) (cc : CrossConnect),
     let id := cc_id cc in
     let sd := get_str (DevIDMap s) ("src-" +:+ id) in
     let dd := get_str (DevIDMap s) ("dst-" +:+ id) in
     let sp := if String.eqb sd "" then srcPrefix +:+ id
               else default "" (GetNetRepresentor sd) in
     let dp := if String.eqb dd "" then dstPrefix +:+ id
               else default "" (GetNetRepresentor dd) in
     let '(s', err) := deleteLocalConnection GetNetRepresentor ovs_ok s cc in
     err = None /\
     DevIDMap s' = delete ("dst-" +:+ id) (delete ("src-" +:+ id) (DevIDMap s)) /\
     calls (trace s') = calls (trace s) ++
       [DelLocalOvs sp dp; ReleaseIface sd sp (cc_src cc) false;
        ReleaseIface dd dp (cc_dst cc) true]) /\
  (forall (GetNetRepresentor : string -> option string) (ovs_ok : Ev -> bool)
          (ip_string : string -> string) (s : Fwd) (connID : string)
          (localConnection remoteConnection : Connection) (direction : Direction),
     c_mech_type remoteConnection = VXLAN_MECHANISM ->
     let rd := get_str (DevIDMap s) ("rem-" +:+ connID) in
     let rp := if String.eqb rd "" then "tap_" +:+ connID
               else default "" (GetNetRepresentor rd) in
     let '(vni, tun) := getVXLANParameters ip_string remoteConnection direction in
     let '(s', err) := deleteRemoteConnection GetNetRepresentor ovs_ok ip_string s connID
                         localConnection remoteConnection direction in
     err = None /\
     DevIDMap s' = delete ("rem-" +:+ connID) (DevIDMap s) /\
     (calls (trace s') = calls (trace s) ++
        [DelRemoteOvs rp tun vni; ReleaseIface rd rp localConnection (is_incoming direction)] \/
      calls (trace s') = calls (trace s) ++
        [DelRemoteOvs rp tun vni; ReleaseIface rd rp localConnection (is_incoming direction);
         DelVxlanPort tun])).
Proof.
  split.
  - intros g ok s cc. cbv zeta. unfold deleteLocalConnection.
    pose proof (recover_device_spec g s ("src-" +:+ cc_id cc)) as R1.
    destruct (recover_device g s ("src-" +:+ cc_id cc)) as [[s1 sd] sr] eqn:E1.
    destruct R1 as ((A1 & _ & _ & D1) & Hsd & Hsr).
    pose proof (recover_device_spec g s1 ("dst-" +:+ cc_id cc)) as R2.
    destruct (recover_device g s1 ("dst-" +:+ cc_id cc)) as [[s2 dd] dr] eqn:E2.
    destruct R2 as ((A2 & _ & _ & D2) & Hdd & Hdr).
    rewrite A1 in Hdd. rewrite <- Hsd, <- Hdd.
    assert (Ps : (if negb (String.eqb sd "") then sr else srcPrefix +:+ cc_id cc)
                 = (if String.eqb sd "" then srcPrefix +:+ cc_id cc
                    else default "" (g sd))).
    { destruct (String.eqb_spec sd ""); simpl; [reflexivity | auto]. }
    assert (Pd : (if negb (String.eqb dd "") then dr else dstPrefix +:+ cc_id cc)
                 = (if String.eqb dd "" then dstPrefix +:+ cc_id cc
                    else default "" (g dd))).
    { destruct (String.eqb_spec dd ""); simpl; [reflexivity | auto]. }
    rewrite Ps, Pd. simpl.
    split; [reflexivity|].
    match goal with
    | |- context [ext_logged ok ?e3 (ext_logged ok ?e2 (ext_logged ok ?e1 s2))] =>
        destruct (ext_logged_spec ok e1 s2 eq_refl) as (B1 & _ & _ & C1);
        destruct (ext_logged_spec ok e2 (ext_logged ok e1 s2) eq_refl) as (B2 & _ & _ & C2);
        destruct (ext_logged_spec ok e3 (ext_logged ok e2 (ext_logged ok e1 s2)) eq_refl)
          as (B3 & _ & _ & C3)
    end.
    rewrite B3, B2, B1, A2, A1, C3, C2, C1, D2, D1. split; [reflexivity|].
    rewrite <- !app_assoc. reflexivity.
  - intros g ok ips s connID lc rc dir Hm. cbv zeta.
    destruct (getVXLANParameters ips rc dir) as [vni tun] eqn:Ep.
    unfold deleteRemoteConnection, GetTunnelParameters.
    rewrite Hm, String.eqb_refl, Ep.
    pose proof (recover_device_spec g s ("rem-" +:+ connID)) as R1.
    destruct (recover_device g s ("rem-" +:+ connID)) as [[s1 rd] nr] eqn:E1.
    destruct R1 as ((A1 & _ & _ & D1) & Hrd & Hnr).
    rewrite <- Hrd.
    assert (Pp : (if negb (String.eqb rd "") then nr else "tap_" +:+ connID)
                 = (if String.eqb rd "" then "tap_" +:+ connID
                    else default "" (g rd))).
    { destruct (String.eqb_spec rd ""); simpl; [reflexivity | auto]. }
    rewrite Pp.
    set (rp := if String.eqb rd "" then "tap_" +:+ connID else default "" (g rd)).
    destruct (ext_logged_spec ok (DelRemoteOvs rp tun vni) s1 eq_refl) as (B1 & _ & _ & C1).
    set (s2 := ext_logged ok (DelRemoteOvs rp tun vni) s1) in *.
    set (s2' := set_PortMap (delete rp (PortMap s2)) s2).
    destruct (ext_logged_spec ok (ReleaseIface rd rp lc (is_incoming dir)) s2' eq_refl)
      as (B2 & _ & _ & C2).
    set (s3 := ext_logged ok (ReleaseIface rd rp lc (is_incoming dir)) s2') in *.
    unfold DeleteTunnelInterface. rewrite Hm, String.eqb_refl.
    pose proof (deleteVXLANInterface_frame ok s3 tun) as F.
    destruct (deleteVXLANInterface ok s3 tun) as [s4 [e|]] eqn:E4; simpl;
      destruct F as [F1 F2]; (split; [reflexivity | split]);
      simpl in *; rewrite ?F1, ?B2, ?B1, ?A1; try reflexivity;
      rewrite ?calls_app; simpl; rewrite ?app_nil_r;
      (destruct F2 as [F2|F2]; rewrite F2, C2; simpl in *; rewrite C1, D1;
       [left | right]; rewrite <- !app_assoc; reflexivity).
Qed.

Lemma teardown_recovers_and_removes_records_witness :
  let rc := {| c_mech_type := VXLAN_MECHANISM;
               c_params := <[SrcIP := "10.0.0.5"]> {[VNI := "42"]}; c_remote := true |} in
  let lc := {| c_mech_type := "KERNEL_INTERFACE"; c_params := ∅; c_remote := false |} in
  let s := {| DevIDMap := {["rem-c1" := "0000:01:00.1"]}; PortMap := ∅;
              vxlanInterfaces := {["v10005" := 1%Z]}; trace := [] |} in
  c_mech_type rc = VXLAN_MECHANISM /\
  let rd := get_str (DevIDMap s) ("rem-" +:+ "c1") in
  let rp := if String.eqb rd "" then "tap_" +:+ "c1"
            else default "" ((fun _ => Some "eth1_1") rd) in
  let '(vni, tun) := getVXLANParameters (fun x => x) rc INCOMING in
  let '(s', err) := deleteRemoteConnection (fun _ => Some "eth1_1") (fun _ => true)
                      (fun x => x) s "c1" lc rc INCOMING in
  err = None /\
  DevIDMap s' = delete ("rem-" +:+ "c1") (DevIDMap s) /\
  (calls (trace s') = calls (trace s) ++
     [DelRemoteOvs rp tun vni; ReleaseIface rd rp lc (is_incoming INCOMING)] \/
   calls (trace s') = calls (trace s) ++
     [DelRemoteOvs rp tun vni; ReleaseIface rd rp lc (is_incoming INCOMING);
      DelVxlanPort tun]).
Proof.
  intros rc lc s. split; [reflexivity|].
  exact (proj2 teardown_recovers_and_removes_records (fun _ => Some "eth1_1")
           (fun _ => true) (fun x => x) s "c1" lc rc INCOMING eq_refl).
Defined.

(* ------------------------------------------------------------------ *)
(** ** VF attach and detach (SetupVF, ResetVF) *)
(* ------------------------------------------------------------------ *)

Lemma pci_alter (f : NetLink -> NetLink) (i : nat) (w : World) :
  (forall x, l_pci (f x) = l_pci x) -> l_pci <$> alter f i w = l_pci <$> w.
Proof.
  intros Hf. apply list_eq. intros j. rewrite !list_lookup_fmap.
  destruct (decide (i = j)) as [<-|Hne].
  - rewrite list_lookup_alter_eq. destruct (w !! i) as [x|]; cbn; [|reflexivity].
    f_equal. apply Hf.
  - rewrite list_lookup_alter_ne by exact Hne. reflexivity.
Qed.

Lemma pci_insert (i : nat) (x y : NetLink) (w : World) :
  w !! i = Some y -> l_pci x = l_pci y -> l_pci <$> <[i := x]> w = l_pci <$> w.
Proof.
  intros Hy Hp. rewrite list_fmap_insert. apply list_insert_id.
  rewrite list_lookup_fmap, Hy. simpl. rewrite Hp. reflexivity.
Qed.

Lemma SetAdminState_pci (w : World) (vf : vfLink) (st : LinkStatus) :
  l_pci <$> SetAdminState w vf st = l_pci <$> w.
Proof. unfold SetAdminState. apply pci_alter. reflexivity. Qed.

Lemma SetName_pci (w : World) (vf : vfLink) (n : string) :
  l_pci <$> fst (SetName w vf n) = l_pci <$> w.
Proof.
  unfold SetName. destruct (SetAdminState w vf DOWN !! vf_link vf) as [l|] eqn:E;
    [destruct (name_taken _ _ _ _)|]; simpl; rewrite ?SetAdminState_pci; try reflexivity.
  rewrite (pci_insert _ _ l) by (exact E || reflexivity). apply SetAdminState_pci.
Qed.

Lemma MoveToNetns_pci (w : World) (vf : vfLink) (t : nat) :
  l_pci <$> fst (fst (MoveToNetns w vf t)) = l_pci <$> w.
Proof.
  unfold MoveToNetns. destruct (Nat.eqb _ _); [reflexivity|].
  destruct (SetAdminState w vf DOWN !! vf_link vf) as [l|] eqn:E;
    [destruct (name_taken _ _ _ _)|]; simpl; rewrite ?SetAdminState_pci; try reflexivity.
  rewrite (pci_insert _ _ l) by (exact E || reflexivity). apply SetAdminState_pci.
Qed.

Lemma AddAddress_link_pci (P : string -> option Addr) (l : NetLink) (ip : string) :
  l_pci (fst (AddAddress_link P l ip)) = l_pci l.
Proof.
  unfold AddAddress_link. destruct (P ip); [destruct (existsb _ _)|]; reflexivity.
Qed.

Lemma AddAddress_pci (P : string -> option Addr) (w : World) (vf : vfLink) (ip : string) :
  l_pci <$> fst (AddAddress P w vf ip) = l_pci <$> w.
Proof.
  unfold AddAddress. destruct (w !! vf_link vf) as [l|] eqn:E; [|reflexivity].
  pose proof (AddAddress_link_pci P l ip) as Hp.
  destruct (AddAddress_link P l ip) as [l' e]. simpl in *.
  apply (pci_insert _ _ l); assumption.
Qed.

Lemma unique_pci_transfer (w w' : World) (pci : string) (i : nat) :
  l_pci <$> w' = l_pci <$> w ->
  (forall j l', w !! j = Some l' -> l_pci l' = pci -> j = i) ->
  (forall j l', w' !! j = Some l' -> l_pci l' = pci -> j = i).
Proof.
  intros Heq Hu j l' Hj Hp.
  assert (H : (l_pci <$> w') !! j = Some pci) by (rewrite list_lookup_fmap, Hj; simpl; congruence).
  rewrite Heq, list_lookup_fmap in H.
  destruct (w !! j) as [l''|] eqn:E; simpl in H; [|discriminate].
  injection H as H. exact (Hu j l'' E H).
Qed.

Lemma GetLink_host (w : World) (pci name : string) (host : nat) (rest : list nat)
  (i : nat) (l : NetLink) :
  w !! i = Some l -> l_pci l = pci -> l_ns l = host ->
  (forall j l', w !! j = Some l' -> l_pci l' = pci -> j = i) ->
  GetLink w pci name (host :: rest) = inl {| vf_link := i; vf_netns := host |}.
Proof.
  intros Hl Hp Hn Hu. simpl. unfold searchByPCIAddress.
  rewrite (proj2 (list_find_Some _ w i l)); [reflexivity|].
  split; [exact Hl | split; [auto |]].
  intros j y Hj Hlt [Hyp _]. specialize (Hu j y Hj Hyp). lia.
Qed.

Lemma existsb_pointwise {A : Type} (f g : A -> bool) (xs : list A) :
  (forall x, f x = g x) -> existsb f xs = existsb g xs.
Proof. intros H. induction xs as [|x xs IH]; simpl; [reflexivity|]. rewrite H, IH. reflexivity. Qed.

Lemma name_taken_alter (f : NetLink -> NetLink) (w : World) (i ns : nat) (n : string) :
  name_taken (alter f i w) i ns n = name_taken w i ns n.
Proof.
  unfold name_taken. rewrite length_alter. apply existsb_pointwise. intros j.
  destruct (Nat.eqb_spec j i) as [->|Hne]; simpl; [reflexivity|].
  rewrite list_lookup_alter_ne by congruence. reflexivity.
Qed.

Lemma SetName_free (w : World) (i ns : nat) (l : NetLink) (n : string) :
  w !! i = Some l -> l_ns l = ns -> name_taken w i ns n = false ->
  snd (SetName w {| vf_link := i; vf_netns := ns |} n) = None /\
  exists l', fst (SetName w {| vf_link := i; vf_netns := ns |} n) !! i = Some l' /\
             l_name l' = n.
Proof.
  intros Hl Hns Hfree. unfold SetName, SetAdminState; simpl.
  rewrite list_lookup_alter_eq, Hl; simpl. rewrite name_taken_alter, Hns, Hfree.
  simpl. split; [reflexivity|].
  eexists; split.
  - rewrite list_lookup_alter_eq, list_lookup_insert_eq; [reflexivity|].
    rewrite length_alter. eapply lookup_lt_Some; exact Hl.
  - reflexivity.
Qed.

(** [SetupVF]'s outcome when it succeeds on a VF found in the host
    namespace: the original name is recorded and every link keeps its
    PCI address. *)
Lemma SetupVF_success (ParseAddr : string -> option Addr)
  (GetNsHandleFromInode : string -> option nat) (hostNetns : nat)
  (w : World) (VfNameMap : gmap string string) (config : VFInterfaceConfiguration)
  (i : nat) (l : NetLink) (w1 : World) (m1 : gmap string string) :
  w !! i = Some l -> l_pci l = PciAddress config -> l_ns l = hostNetns -> l_name l <> "" ->
  (forall j l', w !! j = Some l' -> l_pci l' = PciAddress config -> j = i) ->
  SetupVF ParseAddr GetNsHandleFromInode hostNetns w VfNameMap config = (w1, m1, None) ->
  m1 = <[PciAddress config := l_name l]> VfNameMap /\ l_pci <$> w1 = l_pci <$> w.
Proof.
  intros Hl Hp Hn He Hu Hs. unfold SetupVF in Hs.
  destruct (GetNsHandleFromInode (TargetNetns config)) as [t|]; [|discriminate].
  rewrite (GetLink_host w _ _ hostNetns [t] i l Hl Hp Hn Hu) in Hs.
  unfold GetName in Hs at 1; simpl in Hs. rewrite Hl in Hs.
  destruct (String.eqb_spec (l_name l) "") as [|_]; [contradiction|].
  pose proof (MoveToNetns_pci w {| vf_link := i; vf_netns := hostNetns |} t) as P1.
  destruct (MoveToNetns w _ t) as [[wa link1] [e|]]; [discriminate|]. simpl in P1.
  pose proof (AddAddress_pci ParseAddr wa link1 (IPAddress config)) as P2.
  destruct (AddAddress ParseAddr wa link1 (IPAddress config)) as [wb [e|]];
    [discriminate|]. simpl in P2.
  pose proof (SetName_pci wb link1 (Name config)) as P3.
  destruct (SetName wb link1 (Name config)) as [wc [e|]]; [discriminate|]. simpl in P3.
  injection Hs as <- <-. split; [reflexivity|].
  rewrite SetAdminState_pci, P3, P2, P1. reflexivity.
Qed.

Lemma SetAdminState_lookup_ne (w : World) (vf : vfLink) (st : LinkStatus) (j : nat) :
  j <> vf_link vf -> SetAdminState w vf st !! j = w !! j.
Proof. intros H. unfold SetAdminState. apply list_lookup_alter_ne. congruence. Qed.

Lemma SetName_lookup_ne (w : World) (vf : vfLink) (n : string) (j : nat) :
  j <> vf_link vf -> fst (SetName w vf n) !! j = w !! j.
Proof.
  intros H. unfold SetName.
  destruct (SetAdminState w vf DOWN !! vf_link vf) as [l|];
    [destruct (name_taken _ _ _ _)|]; simpl; rewrite ?SetAdminState_lookup_ne by exact H;
    try reflexivity.
  rewrite list_lookup_insert_ne by congruence. apply SetAdminState_lookup_ne. exact H.
Qed.

Lemma MoveToNetns_lookup_ne (w : World) (vf : vfLink) (t j : nat) :
  j <> vf_link vf -> fst (fst (MoveToNetns w vf t)) !! j = w !! j.
Proof.
  intros H. unfold MoveToNetns. destruct (Nat.eqb _ _); [reflexivity|].
  destruct (SetAdminState w vf DOWN !! vf_link vf) as [l|];
    [destruct (name_taken _ _ _ _)|]; simpl; rewrite ?SetAdminState_lookup_ne by exact H;
    try reflexivity.
  rewrite list_lookup_insert_ne by congruence. apply SetAdminState_lookup_ne. exact H.
Qed.

Lemma AddAddress_lookup_ne (P : string -> option Addr) (w : World) (vf : vfLink)
  (ip : string) (j : nat) :
  j <> vf_link vf -> fst (AddAddress P w vf ip) !! j = w !! j.
Proof.
  intros H. unfold AddAddress. destruct (w !! vf_link vf) as [l|]; [|reflexivity].
  destruct (AddAddress_link P l ip) as [l' e]. simpl.
  apply list_lookup_insert_ne. congruence.
Qed.

Lemma MoveToNetns_moved (w w' : World) (i s t : nat) (l : NetLink) (vf' : vfLink) :
  w !! i = Some l -> s <> t ->
  MoveToNetns w {| vf_link := i; vf_netns := s |} t = (w', vf', None) ->
  vf' = {| vf_link := i; vf_netns := t |} /\ w' !! i = Some (set_ns t (set_up false l)).
Proof.
  intros Hl Hst H. unfold MoveToNetns, SetAdminState in H; simpl in H.
  apply Nat.eqb_neq in Hst. rewrite Hst, list_lookup_alter_eq, Hl in H. simpl in H.
  destruct (name_taken _ _ _ _); [discriminate|].
  injection H as <- <-. split; [reflexivity|].
  apply list_lookup_insert_eq. rewrite length_alter. eapply lookup_lt_Some; exact Hl.
Qed.

Lemma AddAddress_keeps (P : string -> option Addr) (w : World) (vf : vfLink)
  (ip : string) (l : NetLink) :
  w !! vf_link vf = Some l ->
  exists l', fst (AddAddress P w vf ip) !! vf_link vf = Some l' /\
             l_name l' = l_name l /\ l_ns l' = l_ns l.
Proof.
  intros Hl. unfold AddAddress. rewrite Hl.
  assert (Hlt : vf_link vf < length w) by (eapply lookup_lt_Some; exact Hl).
  unfold AddAddress_link. destruct (P ip); [destruct (existsb _ _)|]; simpl;
    (eexists; split; [apply list_lookup_insert_eq; exact Hlt | split; reflexivity]).
Qed.

Lemma SetName_renamed (w w' : World) (vf : vfLink) (n : string) (l : NetLink) :
  w !! vf_link vf = Some l -> SetName w vf n = (w', None) ->
  exists l', w' !! vf_link vf = Some l' /\ l_name l' = n /\ l_ns l' = l_ns l.
Proof.
  intros Hl H. unfold SetName, SetAdminState in H.
  rewrite list_lookup_alter_eq, Hl in H. simpl in H.
  destruct (name_taken _ _ _ _); [discriminate|]. injection H as <-.
  exists (set_up true (set_name n (set_up false l))). split; [|split; reflexivity].
  rewrite list_lookup_alter_eq, list_lookup_insert_eq; [reflexivity|].
  rewrite length_alter. eapply lookup_lt_Some; exact Hl.
Qed.

(** [SetupVF] into another namespace than the host's, on a VF found in the
    host namespace: the VF's link is in the target namespace under the
    configured name, and no other link has changed. *)
Lemma SetupVF_moved (ParseAddr : string -> option Addr)
  (GetNsHandleFromInode : string -> option nat) (hostNetns : nat)
  (w : World) (VfNameMap : gmap string string) (config : VFInterfaceConfiguration)
  (i : nat) (l : NetLink) (w1 : World) (m1 : gmap string string) (t : nat) :
  w !! i = Some l -> l_pci l = PciAddress config -> l_ns l = hostNetns ->
  (forall j l', w !! j = Some l' -> l_pci l' = PciAddress config -> j = i) ->
  GetNsHandleFromInode (TargetNetns config) = Some t -> t <> hostNetns ->
  SetupVF ParseAddr GetNsHandleFromInode hostNetns w VfNameMap config = (w1, m1, None) ->
  (exists l1, w1 !! i = Some l1 /\ l_ns l1 = t /\ l_name l1 = Name config) /\
  (forall j, j <> i -> w1 !! j = w !! j).
Proof.
  intros Hl Hp Hn Hu Ht Hth Hs. unfold SetupVF in Hs. rewrite Ht in Hs.
  rewrite (GetLink_host w _ _ hostNetns [t] i l Hl Hp Hn Hu) in Hs.
  destruct (GetName w _) as [origName|e]; [|discriminate].
  destruct (MoveToNetns w {| vf_link := i; vf_netns := hostNetns |} t)
    as [[wa link1] [e|]] eqn:Em; [discriminate|].
  pose proof (fun j Hj => MoveToNetns_lookup_ne w {| vf_link := i; vf_netns := hostNetns |} t j Hj)
    as Hwa. rewrite Em in Hwa. simpl in Hwa.
  apply (MoveToNetns_moved w wa i hostNetns t l link1 Hl (not_eq_sym Hth)) in Em
    as [-> Hla].
  destruct (AddAddress_keeps ParseAddr wa {| vf_link := i; vf_netns := t |}
              (IPAddress config) _ Hla) as (lb & Hlb & Hnb & Hsb).
  pose proof (fun j Hj => AddAddress_lookup_ne ParseAddr wa {| vf_link := i; vf_netns := t |}
                            (IPAddress config) j Hj) as Hwb.
  destruct (AddAddress ParseAddr wa _ (IPAddress config)) as [wb [e|]]; [discriminate|].
  simpl in Hlb, Hwb.
  pose proof (fun j Hj => SetName_lookup_ne wb {| vf_link := i; vf_netns := t |}
                            (Name config) j Hj) as Hwc.
  destruct (SetName wb _ (Name config)) as [wc [e|]] eqn:Es; [discriminate|].
  simpl in Hwc.
  destruct (SetName_renamed wb wc {| vf_link := i; vf_netns := t |} (Name config) lb Hlb Es)
    as (lc & Hlc & Hnc & Hsc).
  simpl in Hlc. injection Hs as <- _. split.
  - exists (set_up true lc). split; [|split].
    + unfold SetAdminState; simpl. rewrite list_lookup_alter_eq, Hlc. reflexivity.
    + simpl. rewrite Hsc, Hsb. reflexivity.
    + exact Hnc.
  - intros j Hj. rewrite SetAdminState_lookup_ne by exact Hj.
    rewrite Hwc, Hwb, Hwa by exact Hj. reflexivity.
Qed.

Lemma SetupVF_no_pci_in_host (ParseAddr : string -> option Addr)
  (GetNsHandleFromInode : string -> option nat) (hostNetns : nat)
  (w : World) (VfNameMap : gmap string string) (config : VFInterfaceConfiguration)
  (i : nat) (l : NetLink) (w1 : World) (m1 : gmap string string) (t : nat) :
  w !! i = Some l -> l_pci l = PciAddress config -> l_ns l = hostNetns -> l_name l <> "" ->
  (forall j l', w !! j = Some l' -> l_pci l' = PciAddress config -> j = i) ->
  GetNsHandleFromInode (TargetNetns config) = Some t -> t <> hostNetns ->
  SetupVF ParseAddr GetNsHandleFromInode hostNetns w VfNameMap config = (w1, m1, None) ->
  forall name, searchByPCIAddress w1 hostNetns name (PciAddress config)
               = inr (ENoLink (PciAddress config) name).
Proof.
  intros Hl Hp Hn He Hu Ht Hth Hs name.
  destruct (SetupVF_success ParseAddr GetNsHandleFromInode hostNetns w VfNameMap config
              i l w1 m1 Hl Hp Hn He Hu Hs) as [_ Hw].
  destruct (SetupVF_moved ParseAddr GetNsHandleFromInode hostNetns w VfNameMap config
              i l w1 m1 t Hl Hp Hn Hu Ht Hth Hs) as [(l1 & Hl1 & Hs1 & _) _].
  unfold searchByPCIAddress.
  rewrite (proj2 (list_find_None _ _)); [reflexivity|].
  apply Forall_lookup. intros j x Hj [Hpx Hnx].
  pose proof (unique_pci_transfer w w1 _ i Hw Hu j x Hj Hpx) as ->.
  rewrite Hl1 in Hj. injection Hj as <-. congruence.
Qed.

Lemma ResetVF_after_SetupVF_no_link (ParseAddr : string -> option Addr)
  (GetNsHandleFromInode : string -> option nat) (hostNetns : nat)
  (w : World) (VfNameMap : gmap string string) (config : VFInterfaceConfiguration)
  (i : nat) (l : NetLink) (w1 : World) (m1 : gmap string string) (t : nat) :
  w !! i = Some l -> l_pci l = PciAddress config -> l_ns l = hostNetns -> l_name l <> "" ->
  (forall j l', w !! j = Some l' -> l_pci l' = PciAddress config -> j = i) ->
  GetNsHandleFromInode (TargetNetns config) = Some t -> t <> hostNetns ->
  SetupVF ParseAddr GetNsHandleFromInode hostNetns w VfNameMap config = (w1, m1, None) ->
  (forall j l', j <> i -> w !! j = Some l' -> l_ns l' = hostNetns -> l_name l' <> Name config) ->
  ResetVF hostNetns w1 m1 config = (w1, m1, Some (ENoLink (PciAddress config) (Name config))).
Proof.
  intros Hl Hp Hn He Hu Ht Hth Hs Hfree.
  pose proof (SetupVF_no_pci_in_host ParseAddr GetNsHandleFromInode hostNetns w VfNameMap
                config i l w1 m1 t Hl Hp Hn He Hu Ht Hth Hs (Name config)) as Hpci.
  destruct (SetupVF_moved ParseAddr GetNsHandleFromInode hostNetns w VfNameMap config
              i l w1 m1 t Hl Hp Hn Hu Ht Hth Hs) as [(l1 & Hl1 & Hs1 & _) Hother].
  unfold ResetVF. cbn [GetLink try_attempts attempts]. rewrite Hpci.
  unfold searchByName.
  destruct (String.eqb_spec (Name config) "") as [_|_]; [reflexivity|].
  rewrite (proj2 (list_find_None _ _)); [reflexivity|].
  apply Forall_lookup. intros j x Hj [Hnx Hsx].
  destruct (decide (j = i)) as [->|Hji].
  - rewrite Hl1 in Hj. injection Hj as <-. congruence.
  - rewrite Hother in Hj by exact Hji. exact (Hfree j x Hji Hj Hsx Hnx).
Qed.

Lemma ResetVF_after_SetupVF_other_link (ParseAddr : string -> option Addr)
  (GetNsHandleFromInode : string -> option nat) (hostNetns : nat)
  (w : World) (VfNameMap : gmap string string) (config : VFInterfaceConfiguration)
  (i : nat) (l : NetLink) (w1 : World) (m1 : gmap string string) (t : nat)
  (j : nat) (l' : NetLink) :
  w !! i = Some l -> l_pci l = PciAddress config -> l_ns l = hostNetns -> l_name l <> "" ->
  (forall j l', w !! j = Some l' -> l_pci l' = PciAddress config -> j = i) ->
  GetNsHandleFromInode (TargetNetns config) = Some t -> t <> hostNetns ->
  SetupVF ParseAddr GetNsHandleFromInode hostNetns w VfNameMap config = (w1, m1, None) ->
  j <> i -> w !! j = Some l' -> l_ns l' = hostNetns -> l_name l' = Name config ->
  Name config <> "" ->
  let '(w3, m3, _) := ResetVF hostNetns w1 m1 config in
  m3 !! PciAddress config = None /\ w3 !! i = w1 !! i.
Proof.
  intros Hl Hp Hn He Hu Ht Hth Hs Hji Hj Hjs Hjn Hne.
  pose proof (SetupVF_no_pci_in_host ParseAddr GetNsHandleFromInode hostNetns w VfNameMap
                config i l w1 m1 t Hl Hp Hn He Hu Ht Hth Hs (Name config)) as Hpci.
  destruct (SetupVF_success ParseAddr GetNsHandleFromInode hostNetns w VfNameMap config
              i l w1 m1 Hl Hp Hn He Hu Hs) as [Hm _].
  destruct (SetupVF_moved ParseAddr GetNsHandleFromInode hostNetns w VfNameMap config
              i l w1 m1 t Hl Hp Hn Hu Ht Hth Hs) as [(l1 & Hl1 & Hs1 & _) Hother].
  unfold ResetVF. cbn [GetLink try_attempts attempts]. rewrite Hpci.
  unfold searchByName.
  destruct (String.eqb_spec (Name config) "") as [|_]; [contradiction|].
  destruct (list_find (fun x => l_name x = Name config /\ l_ns x = hostNetns) w1)
    as [[k x]|] eqn:Ef.
  - apply list_find_Some in Ef as (Hk & [Hkn Hks] & _).
    assert (Hki : i <> k) by (intros <-; rewrite Hl1 in Hk; injection Hk as <-; congruence).
    rewrite Hm, lookup_insert_eq.
    pose proof (SetName_lookup_ne w1 {| vf_link := k; vf_netns := hostNetns |} (l_name l) i Hki)
      as Hi.
    destruct (SetName w1 _ (l_name l)) as [w3 [e|]]; simpl in Hi;
      (split; [apply lookup_delete_eq | exact Hi]).
  - exfalso. apply list_find_None in Ef.
    rewrite <- (Hother j Hji) in Hj.
    exact (Forall_lookup_1 _ _ _ _ Ef Hj (conj Hjn Hjs)).
Qed.

(** C7 (corrected).  Take a VF identified by its PCI address and found in
    the host namespace with a name: a successful [SetupVF] records that
    name in [VfNameMap].  The round trip holds once the VF is back in the
    host namespace, where [ResetVF] looks for it (it comes back when the
    pod's namespace is deleted, [vf_returns_to_host]): if its original name
    is still free there, [ResetVF] succeeds, deletes the entry and gives
    the link its original name back.  When the target namespace differs
    from the host's and [ResetVF] is called right after [SetupVF], the VF
    is still in the target namespace under the configured name: if no other
    host link bears that name, [ResetVF] fails with no link found and
    changes nothing, so the name and the entry stay; if another host link
    bears it (and it is not empty), [ResetVF] finds that link instead,
    deletes the entry and leaves the VF's link as it was. *)
Theorem SetupVF_ResetVF_round_trip :
  forall (ParseAddr : string -> option Addr) (GetNsHandleFromInode : string -> option nat)
         (hostNetns : nat) (w : World) (VfNameMap : gmap string string)
         (config : VFInterfaceConfiguration) (i : nat) (l : NetLink)
         (w1 : World) (m1 : gmap string string),
  w !! i = Some l -> l_pci l = PciAddress config -> l_ns l = hostNetns -> l_name l <> "" ->
  (forall j l', w !! j = Some l' -> l_pci l' = PciAddress config -> j = i) ->
  SetupVF ParseAddr GetNsHandleFromInode hostNetns w VfNameMap config = (w1, m1, None) ->
  m1 !! PciAddress config = Some (l_name l) /\
  (name_taken (vf_returns_to_host hostNetns i w1) i hostNetns (l_name l) = false ->
   let '(w3, m3, err) := ResetVF hostNetns (vf_returns_to_host hostNetns i w1) m1 config in
   err = None /\ m3 = delete (PciAddress config) m1 /\ m3 !! PciAddress config = None /\
   exists l3, w3 !! i = Some l3 /\ l_name l3 = l_name l) /\
  (forall t, GetNsHandleFromInode (TargetNetns config) = Some t -> t <> hostNetns ->
   (exists l1, w1 !! i = Some l1 /\ l_ns l1 = t /\ l_name l1 = Name config) /\
   ((forall j l', j <> i -> w !! j = Some l' -> l_ns l' = hostNetns -> l_name l' <> Name config) ->
    ResetVF hostNetns w1 m1 config
    = (w1, m1, Some (ENoLink (PciAddress config) (Name config)))) /\
   (forall j l', j <> i -> w !! j = Some l' -> l_ns l' = hostNetns -> l_name l' = Name config ->
    Name config <> "" ->
    let '(w3, m3, _) := ResetVF hostNetns w1 m1 config in
    m3 !! PciAddress config = None /\ w3 !! i = w1 !! i)).
Proof.
  intros P G host w m config i l w1 m1 Hl Hp Hn He Hu Hs.
  destruct (SetupVF_success P G host w m config i l w1 m1 Hl Hp Hn He Hu Hs) as [Hm Hw].
  assert (Hm1 : m1 !! PciAddress config = Some (l_name l))
    by (rewrite Hm; apply lookup_insert_eq).
  split; [exact Hm1|]. split.
  - intros Hfree.
    set (w2 := vf_returns_to_host host i w1).
    assert (Hw2 : l_pci <$> w2 = l_pci <$> w)
      by (unfold w2, vf_returns_to_host; rewrite pci_alter by reflexivity; exact Hw).
    assert (Hl1 : exists l1, w1 !! i = Some l1 /\ l_pci l1 = PciAddress config).
    { assert (H : (l_pci <$> w1) !! i = Some (PciAddress config))
        by (rewrite Hw, list_lookup_fmap, Hl; simpl; congruence).
      rewrite list_lookup_fmap in H. destruct (w1 !! i) as [l1|]; [|discriminate].
      injection H as H. eauto. }
    destruct Hl1 as (l1 & Hl1 & Hp1).
    assert (Hl2 : w2 !! i = Some (set_ns host l1))
      by (unfold w2, vf_returns_to_host; rewrite list_lookup_alter_eq, Hl1; reflexivity).
    unfold ResetVF.
    rewrite (GetLink_host w2 _ _ host [] i (set_ns host l1) Hl2 Hp1 eq_refl
               (unique_pci_transfer w w2 _ i Hw2 Hu)).
    rewrite Hm1.
    destruct (SetName_free w2 i host (set_ns host l1) (l_name l) Hl2 eq_refl Hfree)
      as [Herr (l3 & Hl3 & Hn3)].
    destruct (SetName w2 _ (l_name l)) as [w3 [e|]]; simpl in Herr; [discriminate|].
    simpl in Hl3. split; [reflexivity | split; [reflexivity | split]].
    + apply lookup_delete_eq.
    + eauto.
  - intros t Ht Hth. split; [|split].
    + exact (proj1 (SetupVF_moved P G host w m config i l w1 m1 t Hl Hp Hn Hu Ht Hth Hs)).
    + exact (ResetVF_after_SetupVF_no_link P G host w m config i l w1 m1 t
               Hl Hp Hn He Hu Ht Hth Hs).
    + intros j l' Hji Hj Hjs Hjn Hne.
      exact (ResetVF_after_SetupVF_other_link P G host w m config i l w1 m1 t j l'
               Hl Hp Hn He Hu Ht Hth Hs Hji Hj Hjs Hjn Hne).
Qed.

Lemma SetupVF_ResetVF_round_trip_witness :
  let P := fun s => if String.eqb s "10.0.0.1/24"
                    then Some {| a_ip := [10; 0; 0; 1]%Z; a_prefix := 24; a_label := "" |}
                    else None in
  let G := fun s => if String.eqb s "4026532" then Some 1%nat else None in
  let l := {| l_pci := "0000:01:00.2"; l_name := "ens1f0v1"; l_ns := 0;
              l_addrs := []; l_up := false |} in
  let cfg := {| PciAddress := "0000:01:00.2"; Name := "nsm0"; NetRepDevice := "eth1_1";
                IPAddress := "10.0.0.1/24"; MacAddress := ""; TargetNetns := "4026532" |} in
  let w1 := fst (fst (SetupVF P G 0 [l] ∅ cfg)) in
  let m1 := snd (fst (SetupVF P G 0 [l] ∅ cfg)) in
  m1 !! PciAddress cfg = Some (l_name l) /\
  (let '(w3, m3, err) := ResetVF 0 (vf_returns_to_host 0 0 w1) m1 cfg in
   err = None /\ m3 = delete (PciAddress cfg) m1 /\ m3 !! PciAddress cfg = None /\
   exists l3, w3 !! 0%nat = Some l3 /\ l_name l3 = l_name l) /\
  ResetVF 0 w1 m1 cfg = (w1, m1, Some (ENoLink (PciAddress cfg) (Name cfg))) /\
  (let l2 := {| l_pci := ""; l_name := "nsm0"; l_ns := 0; l_addrs := []; l_up := true |} in
   let w1' := fst (fst (SetupVF P G 0 [l; l2] ∅ cfg)) in
   let m1' := snd (fst (SetupVF P G 0 [l; l2] ∅ cfg)) in
   let '(w3, m3, _) := ResetVF 0 w1' m1' cfg in
   m3 !! PciAddress cfg = None /\ w3 !! 0%nat = w1' !! 0%nat).
Proof.
  intros P G l cfg w1 m1.
  assert (Hs : SetupVF P G 0 [l] ∅ cfg = (w1, m1, None)) by (vm_compute; reflexivity).
  assert (Hu : forall j l', [l] !! j = Some l' -> l_pci l' = PciAddress cfg -> j = 0%nat)
    by (intros [|j] l' Hj _; [reflexivity | simpl in Hj; discriminate Hj]).
  destruct (SetupVF_ResetVF_round_trip P G 0 [l] ∅ cfg 0 l w1 m1
              eq_refl eq_refl eq_refl ltac:(discriminate) Hu Hs) as (H1 & H2 & H3).
  split; [exact H1|]. split; [apply H2; vm_compute; reflexivity|]. split.
  - apply (proj1 (proj2 (H3 1%nat eq_refl ltac:(discriminate)))).
    intros [|j] l' Hji Hj; [exfalso; exact (Hji eq_refl) | simpl in Hj; discriminate Hj].
  - intros l2 w1' m1'.
    assert (Hs' : SetupVF P G 0 [l; l2] ∅ cfg = (w1', m1', None)) by (vm_compute; reflexivity).
    assert (Hu' : forall j l', [l; l2] !! j = Some l' -> l_pci l' = PciAddress cfg -> j = 0%nat).
    { intros [|[|j]] l' Hj Hp; [reflexivity | | simpl in Hj; discriminate Hj].
      simpl in Hj. injection Hj as <-. discriminate Hp. }
    destruct (SetupVF_ResetVF_round_trip P G 0 [l; l2] ∅ cfg 0 l w1' m1'
                eq_refl eq_refl eq_refl ltac:(discriminate) Hu' Hs') as (_ & _ & H3').
    exact (proj2 (proj2 (H3' 1%nat eq_refl ltac:(discriminate))) 1%nat l2
             ltac:(discriminate) eq_refl eq_refl eq_refl ltac:(discriminate)).
Defined.

(** C7 counterexample: a VF "ens1f0v1" in the host namespace is attached
    to namespace 1 as "nsm0" and then detached directly: [ResetVF] does not
    find it in the host namespace and fails, the link keeps the name "nsm0"
    and [VfNameMap] keeps its entry. *)
Lemma SetupVF_ResetVF_not_restored :
  let P := fun s => if String.eqb s "10.0.0.1/24"
                    then Some {| a_ip := [10; 0; 0; 1]%Z; a_prefix := 24; a_label := "" |}
                    else None in
  let G := fun s => if String.eqb s "4026532" then Some 1%nat else None in
  let l := {| l_pci := "0000:01:00.2"; l_name := "ens1f0v1"; l_ns := 0;
              l_addrs := []; l_up := false |} in
  let cfg := {| PciAddress := "0000:01:00.2"; Name := "nsm0"; NetRepDevice := "eth1_1";
                IPAddress := "10.0.0.1/24"; MacAddress := ""; TargetNetns := "4026532" |} in
  let '(w1, m1, err1) := SetupVF P G 0 [l] ∅ cfg in
  let '(w3, m3, err3) := ResetVF 0 w1 m1 cfg in
  err1 = None /\ err3 = Some (ENoLink "0000:01:00.2" "nsm0") /\
  l_name <$> (w3 !! 0%nat) = Some "nsm0" /\ m3 !! "0000:01:00.2" = Some "ens1f0v1".
Proof. vm_compute. repeat split. Qed.

(* ================================================================== *)
(** * Further properties of the code *)
(* ================================================================== *)

Module EndpointExtras.
Import Endpoint.

Lemma pool_fold_in (xs : list string) (m : gmap string bool) (k : string) :
  In k xs -> fold_left (fun m pciAddress => <[pciAddress := false]> m) xs m !! k = Some false.
Proof.
  revert m; induction xs as [|x xs IH] using rev_ind; intros m Hin; [destruct Hin|].
  rewrite fold_left_app; simpl.
  destruct (decide (x = k)) as [->|Hne]; [apply lookup_insert_eq|].
  rewrite lookup_insert_ne by exact Hne. apply IH.
  apply in_app_or in Hin as [Hin|[->|[]]]; [exact Hin | congruence].
Qed.

Lemma pool_fold_notin (xs : list string) (m : gmap string bool) (k : string) :
  ~ In k xs -> fold_left (fun m pciAddress => <[pciAddress := false]> m) xs m !! k = m !! k.
Proof.
  revert m; induction xs as [|x xs IH]; intros m Hin; simpl; [reflexivity|].
  rewrite IH by (intros H; apply Hin; right; exact H).
  apply lookup_insert_ne. intros ->. apply Hin. left. reflexivity.
Qed.

(** NewConnectionEndpoint builds the pool from the comma-separated list: a key is present, marked free, exactly when the list is non-empty and the key is one of its fields; every other key is absent. *)
Theorem NewConnectionEndpoint_pool :
  forall (EndpointPciAddresses MechanismType k : string),
  pciAddresses (NewConnectionEndpoint EndpointPciAddresses MechanismType) !! k =
  if bool_decide (EndpointPciAddresses <> "" /\ k ∈ Split EndpointPciAddresses comma)
  then Some false else None.
Proof.
  intros E M k. unfold NewConnectionEndpoint; simpl.
  destruct (String.eqb_spec E "") as [->|Hne].
  - rewrite bool_decide_eq_false_2 by tauto. apply lookup_empty.
  - destruct (decide (k ∈ Split E comma)) as [Hin|Hnin].
    + rewrite bool_decide_eq_true_2 by tauto. apply pool_fold_in, list_elem_of_In, Hin.
    + rewrite bool_decide_eq_false_2 by tauto.
      rewrite pool_fold_notin by (rewrite <- list_elem_of_In; exact Hnin).
      apply lookup_empty.
Qed.

Lemma pick_free_empty (order : list (string * bool)) :
  pick_free order = "" ->
  (forall kv, In kv order -> kv.2 = true) \/ In ("", false) order.
Proof.
  induction order as [|[p u] rest IH]; simpl; intros H; [left; intros kv []|].
  destruct u.
  - destruct (IH H) as [Hall|Hin]; [left|right; right; exact Hin].
    intros kv [<-|Hkv]; [reflexivity | apply Hall, Hkv].
  - subst p. right. left. reflexivity.
Qed.

Lemma in_order_lookup (cce : ConnectionEndpoint) (order : list (string * bool)) k b :
  order ≡ₚ map_to_list (pciAddresses cce) -> In (k, b) order -> pciAddresses cce !! k = Some b.
Proof.
  intros Hp Hin. apply (Permutation_in _ Hp), list_elem_of_In, elem_of_map_to_list in Hin.
  exact Hin.
Qed.

Lemma lookup_in_order (cce : ConnectionEndpoint) (order : list (string * bool)) k b :
  order ≡ₚ map_to_list (pciAddresses cce) -> pciAddresses cce !! k = Some b -> In (k, b) order.
Proof.
  intros Hp Hk. apply (Permutation_in _ (Permutation_sym Hp)).
  apply list_elem_of_In, elem_of_map_to_list. exact Hk.
Qed.

(** When some device of the pool is free (and the pool has no empty key), Request marks exactly one free device in use and returns the mechanism parameters with pci_address set to that device. *)
Theorem Request_takes_free_device :
  forall (cce : ConnectionEndpoint) (order : list (string * bool)) (params : gmap string string),
  order ≡ₚ map_to_list (pciAddresses cce) ->
  pciAddresses cce !! "" = None ->
  (exists k, pciAddresses cce !! k = Some false) ->
  exists p, pciAddresses cce !! p = Some false /\
    Request cce order true (Some params) =
    ({| mechanismType := mechanismType cce; pciAddresses := <[p := true]> (pciAddresses cce) |},
     inl (<[PciAddress := p]> params)).
Proof.
  intros cce order params Hp Hnone [k Hk].
  assert (Hne : pick_free order <> "").
  { intros He. destruct (pick_free_empty order He) as [Hall|Hin].
    - pose proof (Hall (k, false) (lookup_in_order cce order k false Hp Hk)). discriminate.
    - pose proof (in_order_lookup cce order _ _ Hp Hin). congruence. }
  exists (pick_free order). split.
  - apply (in_order_lookup cce order _ _ Hp), EndpointProofs.pick_free_in, Hne.
  - unfold Request; simpl. apply String.eqb_neq in Hne. rewrite Hne. reflexivity.
Qed.

(** Closing the connection a Request returned, when the request carried no pci_address of its own, gives back the pool as it was before the Request. *)
Theorem Request_Close_round_trip :
  forall (cce : ConnectionEndpoint) (order : list (string * bool)) (params : gmap string string),
  order ≡ₚ map_to_list (pciAddresses cce) ->
  params !! PciAddress = None ->
  exists params1, snd (Request cce order true (Some params)) = inl params1 /\
    Close (fst (Request cce order true (Some params))) params1 = cce.
Proof.
  intros cce order params Hp Hn. unfold Request; simpl.
  destruct (String.eqb_spec (pick_free order) "") as [He|Hne]; simpl.
  - exists params. split; [reflexivity|]. unfold Close. rewrite Hn. reflexivity.
  - eexists; split; [reflexivity|]. unfold Close. rewrite lookup_insert_eq; simpl.
    rewrite insert_insert_eq, insert_id.
    + destruct cce; reflexivity.
    + apply (in_order_lookup cce order _ _ Hp), EndpointProofs.pick_free_in, Hne.
Qed.

End EndpointExtras.

Lemma substring_0_long (n : nat) (s : string) :
  (String.length s <= n)%nat -> String.substring 0 n s = s.
Proof.
  revert n; induction s as [|c s IH]; intros n Hn; destruct n; simpl in *;
    try reflexivity; [lia | rewrite IH by lia; reflexivity].
Qed.

Lemma replace_all_go_remove_char (c : ascii) (fuel : nat) (s : string) :
  (String.length s <= fuel)%nat ->
  replace_all_go (String c "") "" fuel s = remove_char c s.
Proof.
  revert s; induction fuel as [|f IH]; intros s Hl.
  - destruct s; simpl in *; [reflexivity | lia].
  - destruct s as [|c' s]; simpl; [reflexivity|].
    simpl in Hl.
    destruct (Ascii.eqb_spec c' c) as [->|Hne].
    + destruct (ascii_dec c c) as [_|Hc]; [|congruence]. simpl.
      rewrite substring_0_long by lia.
      replace (String.prefix "" s) with true by (destruct s; reflexivity).
      apply IH. lia.
    + destruct (ascii_dec c c') as [Hc|_]; [congruence|].
      rewrite IH by lia. reflexivity.
Qed.

Lemma ReplaceAll_remove_char (s : string) (c : ascii) :
  ReplaceAll s (String c "") "" = remove_char c s.
Proof. apply replace_all_go_remove_char. lia. Qed.

Lemma getVXLANParameters_name (ips : string -> string) (rc : Connection) (d : Direction) :
  snd (getVXLANParameters ips rc d) = tunnel_name ips (remote_ip rc d).
Proof. destruct d; reflexivity. Qed.

Lemma createVXLANInterface_ok (ok : Ev -> bool) (ips : string -> string) (s s' : Fwd)
  (rc : Connection) (d : Direction) (r : Z * string) :
  createVXLANInterface ok ips s rc d = (s', inl r) ->
  r = getVXLANParameters ips rc d /\
  vxlanInterfaces s' = <[snd r := (get_int (vxlanInterfaces s) (snd r) + 1)%Z]> (vxlanInterfaces s) /\
  DevIDMap s' = DevIDMap s /\ exists t, trace s' = trace s ++ t.
Proof.
  intros H. unfold createVXLANInterface, ext in H.
  destruct d; simpl in H; (destruct (vxlanInterfaces s !! _) eqn:E; [| destruct (ok _)]);
    simpl in H; try discriminate H; injection H as <- <-.
  all: split; [reflexivity|]; split; [reflexivity| split; [reflexivity|]].
  all: first [exists []; symmetry; apply app_nil_r | eexists; reflexivity].
Qed.

(** A successful createVXLANInterface returns exactly the pair getVXLANParameters computes, and increments that tunnel's reference count (absent counts as 0), leaving the other counts unchanged. *)
Theorem createVXLANInterface_matches_getVXLANParameters :
  forall (ovs_ok : Ev -> bool) (ip_string : string -> string) (s s' : Fwd)
         (rc : Connection) (d : Direction) (r : Z * string),
  createVXLANInterface ovs_ok ip_string s rc d = (s', inl r) ->
  r = getVXLANParameters ip_string rc d /\
  vxlanInterfaces s' = <[snd r := (get_int (vxlanInterfaces s) (snd r) + 1)%Z]> (vxlanInterfaces s).
Proof.
  intros ok ips s s' rc d r H.
  destruct (createVXLANInterface_ok ok ips s s' rc d r H) as (Hr & Hv & _). split; assumption.
Qed.

(** When the tunnel is new and the switch refuses to add the port, createVXLANInterface fails and leaves the reference counts and the port map unchanged. *)
Theorem createVXLANInterface_add_failure :
  forall (ovs_ok : Ev -> bool) (ip_string : string -> string) (s : Fwd)
         (rc : Connection) (d : Direction),
  let k := snd (getVXLANParameters ip_string rc d) in
  vxlanInterfaces s !! k = None ->
  (forall l r, ovs_ok (AddVxlanPort k l r) = false) ->
  vxlanInterfaces (fst (createVXLANInterface ovs_ok ip_string s rc d)) = vxlanInterfaces s /\
  PortMap (fst (createVXLANInterface ovs_ok ip_string s rc d)) = PortMap s /\
  exists e, snd (createVXLANInterface ovs_ok ip_string s rc d) = inr e.
Proof.
  intros ok ips s rc d k Hk Hok. unfold createVXLANInterface, ext.
  destruct d; simpl in *; unfold k in *; rewrite Hk, Hok; simpl; eauto.
Qed.

(** When the last reference of a tunnel is released but removing the port fails, deleteVXLANInterface returns the error and keeps the registry entry with count 1 and the port map unchanged. *)
Theorem deleteVXLANInterface_last_failure_keeps_entry :
  forall (ovs_ok : Ev -> bool) (s : Fwd) (ovsTunnelName : string),
  vxlanInterfaces s !! ovsTunnelName = Some 1%Z ->
  ovs_ok (DelVxlanPort ovsTunnelName) = false ->
  exists e, deleteVXLANInterface ovs_ok s ovsTunnelName = (emit (DelVxlanPort ovsTunnelName) s, Some e) /\
    vxlanInterfaces (emit (DelVxlanPort ovsTunnelName) s) !! ovsTunnelName = Some 1%Z /\
    PortMap (emit (DelVxlanPort ovsTunnelName) s) = PortMap s.
Proof.
  intros ok s k Hc Hok. unfold deleteVXLANInterface, get_int, ext. rewrite Hc, Hok. simpl.
  eexists; repeat split; exact Hc.
Qed.

(** A remote mechanism without a vni parameter yields VNI 0, both from getVXLANParameters and from a successful createVXLANInterface. *)
Theorem missing_vni_is_zero :
  forall (ovs_ok : Ev -> bool) (ip_string : string -> string) (s s' : Fwd)
         (rc : Connection) (d : Direction) (r : Z * string),
  c_params rc !! VNI = None ->
  fst (getVXLANParameters ip_string rc d) = 0%Z /\
  (createVXLANInterface ovs_ok ip_string s rc d = (s', inl r) -> fst r = 0%Z).
Proof.
  intros ok ips s s' rc d r Hv.
  assert (H0 : fst (getVXLANParameters ips rc d) = 0%Z)
    by (unfold getVXLANParameters, get_str; rewrite Hv; reflexivity).
  split; [exact H0|]. intros Hc.
  destruct (createVXLANInterface_ok ok ips s s' rc d r Hc) as [-> _].
  exact H0.
Qed.

Lemma createVXLANInterface_absent_remote (ovs_ok : Ev -> bool) (ip_string : string -> string)
  (s : Fwd) (rc : Connection) (d : Direction) (k : string) :
  snd (getVXLANParameters ip_string rc d) = k -> vxlanInterfaces s !! k = None ->
  (forall l r, ovs_ok (AddVxlanPort k l r) = true) ->
  exists l, fst (createVXLANInterface ovs_ok ip_string s rc d)
            = set_vxlan (<[k := 1%Z]> (vxlanInterfaces s))
                (emit (AddVxlanPort k l (ip_string (remote_ip rc d))) s).
Proof.
  intros Hk Hc Hok. unfold createVXLANInterface, ext, get_int.
  destruct d; simpl in *; subst k; rewrite Hc, Hok; simpl; rewrite Hc; eauto.
Qed.

(** Two peers whose addresses differ only in the position of the dots get the same tunnel name: acquiring both creates one port and counts two references. *)
Theorem distinct_peers_share_tunnel :
  forall (ovs_ok : Ev -> bool) (ip_string : string -> string) (s : Fwd)
         (rc1 rc2 : Connection) (d1 d2 : Direction),
  remove_char "." (ip_string (remote_ip rc1 d1)) = remove_char "." (ip_string (remote_ip rc2 d2)) ->
  let k := tunnel_name ip_string (remote_ip rc1 d1) in
  vxlanInterfaces s !! k = None ->
  (forall l r, ovs_ok (AddVxlanPort k l r) = true) ->
  let s2 := acquire_all ovs_ok ip_string s [(rc1, d1); (rc2, d2)] in
  snd (getVXLANParameters ip_string rc2 d2) = k /\
  vxlanInterfaces s2 !! k = Some 2%Z /\
  exists l, trace s2 = trace s ++ [AddVxlanPort k l (ip_string (remote_ip rc1 d1))].
Proof.
  intros ok ips s rc1 rc2 d1 d2 Hdots k Hk Hok s2.
  assert (H1 : snd (getVXLANParameters ips rc1 d1) = k) by apply getVXLANParameters_name.
  assert (H2 : snd (getVXLANParameters ips rc2 d2) = k).
  { rewrite getVXLANParameters_name. unfold k, tunnel_name. rewrite !ReplaceAll_remove_char, Hdots. reflexivity. }
  split; [exact H2|].
  unfold s2; simpl.
  destruct (createVXLANInterface_absent_remote ok ips s rc1 d1 k H1 Hk Hok) as [l ->].
  rewrite (createVXLANInterface_present ok ips _ rc2 d2 k 1 H2) by (simpl; apply lookup_insert_eq).
  simpl. split; [apply lookup_insert_eq | eauto].
Qed.

Lemma gip_loop_first_nonzero (vsctl : nat -> option string) (k : nat) :
  forall (count i : nat) (p : Z),
  (k < count)%nat ->
  (forall j, (j < k)%nat -> exists o, vsctl (i + j)%nat = Some o /\ fst (Atoi o) = 0%Z) ->
  (vsctl (i + k)%nat = None ->
     gip_loop vsctl count i p =
     {| pq_port := (-1)%Z; pq_err := Some (EVsctl "get ofport"); pq_queries := S (i + k) |}) /\
  (forall o, vsctl (i + k)%nat = Some o -> fst (Atoi o) <> 0%Z ->
     gip_loop vsctl count i p = {| pq_port := fst (Atoi o); pq_err := None; pq_queries := S (i + k) |}).
Proof.
  induction k as [|k IH]; intros count i p Hk Hpre; (destruct count as [|c]; [lia|]); simpl.
  - rewrite Nat.add_0_r. split.
    + intros ->. reflexivity.
    + intros o -> Ho. apply Z.eqb_neq in Ho. rewrite Ho. reflexivity.
  - destruct (Hpre 0%nat ltac:(lia)) as (o0 & Ho0 & Hz). rewrite Nat.add_0_r in Ho0.
    rewrite Ho0, Hz. simpl.
    replace (i + S k)%nat with (S i + k)%nat by lia.
    apply IH; [lia|]. intros j Hj. replace (S i + j)%nat with (i + S j)%nat by lia.
    apply Hpre. lia.
Qed.

(** The port-id query returns the first non-zero answer among its first five attempts, after k+1 queries; if the query itself fails first, it returns -1 with the error. *)
Theorem GetInterfaceOfPort_first_nonzero :
  forall (vsctl : nat -> option string) (k : nat),
  (k < 5)%nat ->
  (forall j, (j < k)%nat -> exists o, vsctl j = Some o /\ fst (Atoi o) = 0%Z) ->
  (vsctl k = None ->
     GetInterfaceOfPort vsctl =
     {| pq_port := (-1)%Z; pq_err := Some (EVsctl "get ofport"); pq_queries := S k |}) /\
  (forall o, vsctl k = Some o -> fst (Atoi o) <> 0%Z ->
     GetInterfaceOfPort vsctl = {| pq_port := fst (Atoi o); pq_err := None; pq_queries := S k |}).
Proof.
  intros vsctl k Hk Hpre. apply (gip_loop_first_nonzero vsctl k 5 0 0 Hk). exact Hpre.
Qed.

Lemma GetInterfaceOfPort_first_nonzero_witness :
  GetInterfaceOfPort (fun i => if Nat.eqb i 0 then Some "0" else Some "7")
  = {| pq_port := 7; pq_err := None; pq_queries := 2 |}.
Proof.
  refine (proj2 (GetInterfaceOfPort_first_nonzero _ 1 _ _) "7" eq_refl _).
  - lia.
  - intros j Hj. assert (j = 0%nat) as -> by lia. exists "0". split; reflexivity.
  - vm_compute. discriminate.
Defined.

Module SriovNetProofs.
Import SriovNet.

Section Loop.
Variable N : string -> nat -> option (list string).

Lemma netdev_loop_queries (d : string) (n i : nat) :
  (snd (netdev_loop N d n i) <= i + n)%nat.
Proof.
  revert i; induction n as [|m IH]; intros i; simpl; [lia|].
  destruct (N d i) as [vs|]; simpl; [|lia].
  destruct (negb (Nat.eqb (length vs) 1) && Nat.eqb m 0); simpl; [lia|].
  destruct (negb (Nat.eqb (length vs) 1)); simpl; [specialize (IH (S i)); lia | lia].
Qed.

Lemma netdev_loop_S (d : string) (m i : nat) :
  netdev_loop N d (S m) i =
  match N d i with
  | None => (Some (EExternal "GetNetDevicesFromPci"), S i)
  | Some vfNetdevices =>
      if negb (Nat.eqb (length vfNetdevices) 1) && Nat.eqb m 0
      then (Some (EExternal ("failed to get one netdevice interface per " +:+ d)), S i)
      else if negb (Nat.eqb (length vfNetdevices) 1)
      then netdev_loop N d m (S i)
      else (None, S i)
  end.
Proof. reflexivity. Qed.

Lemma netdev_loop_done (d : string) (m i : nat) :
  fst (netdev_loop N d (S m) i) = None <->
  exists k, (k <= m)%nat /\
    (forall j, (j < k)%nat -> exists vs, N d (i + j)%nat = Some vs /\ length vs <> 1%nat) /\
    (exists vs, N d (i + k)%nat = Some vs /\ length vs = 1%nat).
Proof.
  revert i; induction m as [|m IH]; intros i; rewrite netdev_loop_S.
  - destruct (N d i) as [vs|] eqn:E.
    + destruct (Nat.eqb_spec (length vs) 1) as [H1|H1]; cbn [negb andb Nat.eqb fst].
      * split; [intros _; exists 0%nat; rewrite Nat.add_0_r; split; [lia|split; [intros; lia | eauto]]|].
        intros _. reflexivity.
      * split; [discriminate|]. intros (k & Hk & _ & vs' & Hvs & Hl).
        assert (k = 0%nat) as -> by lia. rewrite Nat.add_0_r, E in Hvs. congruence.
    + split; [discriminate|]. intros (k & Hk & _ & vs' & Hvs & Hl).
      assert (k = 0%nat) as -> by lia. rewrite Nat.add_0_r, E in Hvs. congruence.
  - destruct (N d i) as [vs|] eqn:E.
    + destruct (Nat.eqb_spec (length vs) 1) as [H1|H1]; cbn [negb andb Nat.eqb fst].
      * split; [intros _; exists 0%nat; rewrite Nat.add_0_r; split; [lia|split; [intros; lia | eauto]]|].
        intros _. reflexivity.
      * rewrite IH. split.
        -- intros (k & Hk & Hpre & Hk1). exists (S k). split; [lia|split].
           ++ intros [|j] Hj; [rewrite Nat.add_0_r; eauto|].
              replace (i + S j)%nat with (S i + j)%nat by lia. apply Hpre. lia.
           ++ replace (i + S k)%nat with (S i + k)%nat by lia. exact Hk1.
        -- intros ([|k] & Hk & Hpre & vs' & Hvs & Hl).
           ++ rewrite Nat.add_0_r, E in Hvs. congruence.
           ++ exists k. split; [lia|split].
              ** intros j Hj. replace (S i + j)%nat with (i + S j)%nat by lia. apply Hpre. lia.
              ** replace (S i + k)%nat with (i + S k)%nat by lia. eauto.
    + split; [discriminate|]. intros ([|k] & Hk & Hpre & vs' & Hvs & Hl).
      * rewrite Nat.add_0_r, E in Hvs. congruence.
      * destruct (Hpre 0%nat ltac:(lia)) as (vs'' & Hv & _). rewrite Nat.add_0_r, E in Hv. congruence.
Qed.

End Loop.

(** For a positive retry bound, GetNetRepresentorWithRetries asks for the netdevices at most maxRetries times and returns a representor exactly when some attempt within the bound sees one netdevice (all earlier ones seeing another number) and the uplink, VF index and representor lookups succeed. *)
Theorem GetNetRepresentorWithRetries_retries :
  forall (N : string -> nat -> option (list string)) (U : string -> option string)
         (X : string -> option Z) (R : string -> Z -> option string)
         (deviceID : string) (maxRetries : Z) (rep : string),
  (0 < maxRetries)%Z ->
  (rq_queries (GetNetRepresentorWithRetries N U X R deviceID maxRetries) <= Z.to_nat maxRetries)%nat /\
  (rq_result (GetNetRepresentorWithRetries N U X R deviceID maxRetries) = inl rep <->
   (exists k, (Z.of_nat k < maxRetries)%Z /\
      (forall j, (j < k)%nat -> exists vs, N deviceID j = Some vs /\ length vs <> 1%nat) /\
      (exists vs, N deviceID k = Some vs /\ length vs = 1%nat)) /\
   exists uplink vfIndex, U deviceID = Some uplink /\ X deviceID = Some vfIndex /\
                          R uplink vfIndex = Some rep).
Proof.
  intros N U X R d m rep Hm. unfold GetNetRepresentorWithRetries.
  destruct (Z.eqb_spec m 0) as [|_]; [lia|].
  destruct (Z.to_nat m) as [|m'] eqn:Em; [lia|].
  pose proof (netdev_loop_queries N d (S m') 0) as Hq.
  pose proof (netdev_loop_done N d m' 0) as Hd.
  destruct (netdev_loop N d (S m') 0) as [[e|] n]; simpl in *.
  - split; [lia|]. split; [discriminate|].
    intros [Hk _]. exfalso.
    assert (Some e = None) as Hc; [|discriminate Hc].
    apply Hd. destruct Hk as (k & Hk & Hpre & Hk1). exists k. split; [lia|]. split; assumption.
  - split; [lia|].
    assert (Hloop : exists k, (Z.of_nat k < m)%Z /\
      (forall j, (j < k)%nat -> exists vs, N d j = Some vs /\ length vs <> 1%nat) /\
      (exists vs, N d k = Some vs /\ length vs = 1%nat)).
    { destruct (proj1 Hd eq_refl) as (k & Hk & Hpre & Hk1). exists k. split; [lia|]. split; assumption. }
    destruct (U d) as [u|]; [destruct (X d) as [x|]; [destruct (R u x) as [r|] eqn:Er|]|].
    + split; [intros H; injection H as ->; split; [exact Hloop | eauto]|].
      intros [_ (u' & x' & Hu & Hx & Hr)]. injection Hu as <-. injection Hx as <-. congruence.
    + split; [discriminate|]. intros [_ (u' & x' & Hu & Hx & Hr)].
      injection Hu as <-. injection Hx as <-. congruence.
    + split; [discriminate|]. intros [_ (u' & x' & Hu & Hx & Hr)]. discriminate.
    + split; [discriminate|]. intros [_ (u' & x' & Hu & Hx & Hr)]. discriminate.
Qed.

(** For a retry bound of 0 or less no netdevice query is made: bound 0 is an error, and a negative bound goes straight to the representor lookup. *)
Theorem GetNetRepresentorWithRetries_nonpositive :
  forall (N : string -> nat -> option (list string)) (U : string -> option string)
         (X : string -> option Z) (R : string -> Z -> option string)
         (deviceID : string) (maxRetries : Z),
  (maxRetries <= 0)%Z ->
  rq_queries (GetNetRepresentorWithRetries N U X R deviceID maxRetries) = 0%nat /\
  (maxRetries = 0%Z ->
     rq_result (GetNetRepresentorWithRetries N U X R deviceID maxRetries)
     = inr (EExternal "maxRetries can not be zero")) /\
  (forall uplink vfIndex rep, (maxRetries < 0)%Z ->
     U deviceID = Some uplink -> X deviceID = Some vfIndex -> R uplink vfIndex = Some rep ->
     rq_result (GetNetRepresentorWithRetries N U X R deviceID maxRetries) = inl rep).
Proof.
  intros N U X R d m Hm. unfold GetNetRepresentorWithRetries.
  destruct (Z.eqb_spec m 0) as [->|Hne].
  - split; [reflexivity|]. split; [reflexivity|]. intros; lia.
  - replace (Z.to_nat m) with 0%nat by lia. simpl.
    split; [reflexivity|]. split; [intros; contradiction|].
    intros u x r _ Hu Hx Hr. rewrite Hu, Hx, Hr. reflexivity.
Qed.

End SriovNetProofs.

Lemma has_char_app (c : ascii) (a b : string) :
  has_char c (a +:+ b) = has_char c a || has_char c b.
Proof. induction a as [|x a IH]; simpl; [reflexivity|]. rewrite IH, orb_assoc. reflexivity. Qed.

Lemma has_char_substring (c : ascii) (n m : nat) (s : string) :
  has_char c s = false -> has_char c (String.substring n m s) = false.
Proof.
  revert n m; induction s as [|x s IH]; intros n m H; destruct n, m; simpl in *; auto.
  - apply orb_false_iff in H as [H1 H2]. rewrite H1. simpl. apply IH. exact H2.
  - apply orb_false_iff in H as [_ H2]. apply IH. exact H2.
  - apply orb_false_iff in H as [_ H2]. apply IH. exact H2.
Qed.

Lemma has_char_replace_all_go (c : ascii) (old new : string) (fuel : nat) (s : string) :
  has_char c s = false -> has_char c new = false ->
  has_char c (replace_all_go old new fuel s) = false.
Proof.
  revert s; induction fuel as [|f IH]; intros s Hs Hn; cbn [replace_all_go]; [exact Hs|].
  destruct s as [|x s']; [reflexivity|].
  destruct (String.prefix old (String x s')).
  - rewrite has_char_app, Hn, orb_false_l. apply IH; [apply has_char_substring; exact Hs | exact Hn].
  - simpl in *. apply orb_false_iff in Hs as [H1 H2]. rewrite H1. simpl. apply IH; assumption.
Qed.

Lemma has_char_remove_char (c c' : ascii) (s : string) :
  has_char c s = false \/ c = c' -> has_char c (remove_char c' s) = false.
Proof.
  intros H. induction s as [|x s IH]; simpl; [reflexivity|].
  destruct (Ascii.eqb_spec x c') as [->|Hne].
  - apply IH. destruct H as [H|H]; [simpl in H; apply orb_false_iff in H as [_ H]|]; auto.
  - simpl. destruct H as [H| ->].
    + simpl in H. apply orb_false_iff in H as [H1 H2]. rewrite H1. apply IH. auto.
    + destruct (Ascii.eqb_spec x c') as [|_]; [contradiction|]. apply IH. auto.
Qed.

Lemma has_char_Split (c sep : ascii) (s w : string) :
  has_char c s = false -> In w (Split s sep) -> has_char c w = false.
Proof.
  revert w; induction s as [|x s IH]; intros w Hs Hin; simpl in *.
  - destruct Hin as [<-|[]]. reflexivity.
  - apply orb_false_iff in Hs as [H1 H2].
    destruct (Ascii.eqb x sep).
    + destruct Hin as [<-|Hin]; [reflexivity | apply IH; assumption].
    + destruct (Split s sep) as [|w0 ws] eqn:E.
      * destruct Hin as [<-|[]]. simpl. rewrite H1. reflexivity.
      * destruct Hin as [<-|Hin].
        -- simpl. rewrite H1. apply IH; [exact H2 | rewrite ?E; left; reflexivity].
        -- apply IH; [exact H2 | rewrite ?E; right; exact Hin].
Qed.

Lemma parse_ovs_ports_no_special (c : ascii) (ovsPorts w : string) :
  c = ":"%char \/ c = ascii_of_nat 34 \/ c = " "%char ->
  In w (parse_ovs_ports ovsPorts) -> has_char c w = false.
Proof.
  intros Hc Hin. unfold parse_ovs_ports in Hin. simpl in Hin.
  unfold dquote in Hin. rewrite !ReplaceAll_remove_char in Hin.
  eapply has_char_Split; [|exact Hin].
  apply has_char_replace_all_go; [|destruct Hc as [->|[->| ->]]; reflexivity].
  apply has_char_remove_char.
  destruct Hc as [->|[->| ->]]; [left|left|right; reflexivity].
  - apply has_char_remove_char. left. apply has_char_remove_char. right. reflexivity.
  - apply has_char_remove_char. right. reflexivity.
Qed.

(** A representor name containing a colon, a double quote or a space is never reported as attached, whatever the switch listing holds. *)
Theorem CheckNetRepOvs_special_char_never_attached :
  forall (netRep ovsPorts : string) (c : ascii),
  c = ":"%char \/ c = ascii_of_nat 34 \/ c = " "%char ->
  has_char c netRep = true ->
  CheckNetRepOvs netRep (Some ovsPorts) = (true, None).
Proof.
  intros netRep out c Hc Hn. unfold CheckNetRepOvs.
  replace (existsb (String.eqb netRep) (parse_ovs_ports out)) with false; [reflexivity|].
  symmetry. apply not_true_iff_false. intros H.
  apply existsb_exists in H as (w & Hin & Hw). apply String.eqb_eq in Hw. subst w.
  rewrite (parse_ovs_ports_no_special c out netRep Hc Hin) in Hn. discriminate.
Qed.

Module LocalOvsProofs.
Import LocalOvs.

(** With distinct ports and flows that install, setting up then deleting a local OvS connection records both port ids, then removes both records, and issues add-port, ofport queries, two flows, two flow deletions and two port deletions in that order. *)
Theorem local_ovs_setup_delete_round_trip :
  forall (ovs_ok : OvsCmd -> bool) (ofport : string -> option string)
         (s : LState) (src dst : string),
  src <> dst ->
  (forall a b, ovs_ok (AddFlow a b) = true) ->
  exists srcPort dstPort,
    portMap (SetupLocalOvSConnection ovs_ok ofport s src dst)
      = <[dst := dstPort]> (<[src := srcPort]> (portMap s)) /\
    portMap (DeleteLocalOvSConnection ovs_ok (SetupLocalOvSConnection ovs_ok ofport s src dst) src dst)
      = delete src (delete dst (portMap s)) /\
    cmds (DeleteLocalOvSConnection ovs_ok (SetupLocalOvSConnection ovs_ok ofport s src dst) src dst)
      = cmds s ++ [AddPort src; AddPort dst; GetOfport src; GetOfport dst;
                   AddFlow srcPort dstPort; AddFlow dstPort srcPort;
                   DelFlows srcPort; DelFlows dstPort; DelPort src; DelPort dst].
Proof.
  intros ovs_ok ofport s src dst Hne Hok.
  unfold SetupLocalOvSConnection, DeleteLocalOvSConnection, getInterfaceOfPort, run, set_portMap.
  set (p := match ofport src with None => (-1)%Z | Some o => fst (Atoi o) end).
  set (q := match ofport dst with None => (-1)%Z | Some o => fst (Atoi o) end).
  destruct (ofport src) as [os|] eqn:Es; destruct (ofport dst) as [od|] eqn:Ed;
    simpl; rewrite !Hok; simpl.
  all: exists p, q; unfold p, q; rewrite ?Es, ?Ed.
  all: split; [reflexivity|].
  all: unfold get_int; rewrite lookup_insert_eq, lookup_insert_ne, lookup_insert_eq by congruence.
  all: rewrite delete_insert_eq, delete_insert_ne, delete_insert_eq by congruence.
  all: split; [reflexivity|]; rewrite <- !app_assoc; reflexivity.
Qed.

(** Deleting a local OvS connection whose ports were never recorded deletes flows for in_port 0 and deletes both ports, leaving the port map unchanged. *)
Theorem local_ovs_delete_unrecorded :
  forall (ovs_ok : OvsCmd -> bool) (s : LState) (src dst : string),
  portMap s !! src = None -> portMap s !! dst = None ->
  DeleteLocalOvSConnection ovs_ok s src dst
  = {| portMap := portMap s;
       cmds := cmds s ++ [DelFlows 0; DelFlows 0; DelPort src; DelPort dst] |}.
Proof.
  intros ovs_ok s src dst Hs Hd.
  unfold DeleteLocalOvSConnection, run, set_portMap, get_int; simpl.
  rewrite Hs, Hd, !delete_id by (rewrite ?lookup_delete_None; auto).
  rewrite <- !app_assoc. reflexivity.
Qed.

End LocalOvsProofs.

Module RemoteOvsProofs.
Import RemoteOvs.

(** If adding the local port fails or either port-id query fails, the remote OvS setup returns an error after add-port only: no flow is installed and the port map is unchanged. *)
Theorem remote_ovs_setup_early_failure :
  forall (ovs_ok : RCmd -> bool) (ofport : string -> nat -> option string)
         (s : RState) (local tunnel : string) (vni : Z),
  ovs_ok (RAddPort local) = false \/
  pq_err (GetInterfaceOfPort (ofport local)) <> None \/
  pq_err (GetInterfaceOfPort (ofport tunnel)) <> None ->
  exists e, SetupOvSConnection ovs_ok ofport s local tunnel vni
            = ({| r_PortMap := r_PortMap s; r_cmds := r_cmds s ++ [RAddPort local] |}, Some e).
Proof.
  intros ovs_ok ofport s local tunnel vni H.
  unfold SetupOvSConnection, rrun; cbn -[GetInterfaceOfPort].
  destruct (ovs_ok (RAddPort local)) eqn:Ea; [|eauto]. simpl.
  destruct (pq_err (GetInterfaceOfPort (ofport local))) as [e|] eqn:E1; [eauto|].
  destruct (pq_err (GetInterfaceOfPort (ofport tunnel))) as [e2|] eqn:E2; [eauto|].
  exfalso. destruct H as [H|[H|H]]; congruence.
Qed.

(** After a successful remote OvS setup, deletion removes the local port record but keeps the tunnel record, and skips the tunnel flow deletion when the tunnel port id is 0. *)
Theorem remote_ovs_setup_delete_round_trip :
  forall (ovs_ok : RCmd -> bool) (ofport : string -> nat -> option string)
         (s s1 : RState) (local tunnel : string) (vni : Z),
  local <> tunnel ->
  SetupOvSConnection ovs_ok ofport s local tunnel vni = (s1, None) ->
  let lp := pq_port (GetInterfaceOfPort (ofport local)) in
  let tp := pq_port (GetInterfaceOfPort (ofport tunnel)) in
  r_PortMap s1 = <[tunnel := tp]> (<[local := lp]> (r_PortMap s)) /\
  r_PortMap (DeleteLocalOvSConnection ovs_ok s1 local tunnel vni)
    = <[tunnel := tp]> (delete local (r_PortMap s)) /\
  r_cmds (DeleteLocalOvSConnection ovs_ok s1 local tunnel vni)
    = r_cmds s ++ [RAddPort local; RAddFlowOut lp vni tp; RAddFlowIn tp vni lp; RDelFlows lp]
        ++ (if Z.eqb tp 0 then [] else [RDelFlowsTun tp vni]) ++ [RDelPort local].
Proof.
  intros ovs_ok ofport s s1 local tunnel vni Hne H lp tp.
  unfold SetupOvSConnection, rrun, set_r_PortMap in H; cbn -[GetInterfaceOfPort] in H.
  destruct (ovs_ok (RAddPort local)); [|discriminate]. simpl in H.
  destruct (pq_err (GetInterfaceOfPort (ofport local))); [discriminate|].
  destruct (pq_err (GetInterfaceOfPort (ofport tunnel))); [discriminate|].
  fold lp tp in H.
  destruct (ovs_ok (RAddFlowOut lp vni tp)); [|discriminate]. simpl in H.
  destruct (ovs_ok (RAddFlowIn tp vni lp)); [|discriminate]. simpl in H.
  injection H as <-. simpl. split; [reflexivity|].
  unfold DeleteLocalOvSConnection, rrun, set_r_PortMap, get_int; cbn [r_PortMap r_cmds fst].
  rewrite lookup_insert_eq, lookup_insert_ne, lookup_insert_eq by congruence.
  cbn [default id].
  destruct (Z.eqb tp 0); cbn [negb r_PortMap r_cmds fst];
    (split; [rewrite delete_insert_ne, delete_insert_eq by congruence; reflexivity|]);
    rewrite <- !app_assoc; reflexivity.
Qed.

End RemoteOvsProofs.

Lemma try_attempts_found (w : World) (ns : nat) (name pci : string) (vf : vfLink) :
  try_attempts w ns name pci attempts = Some vf ->
  vf_netns vf = ns /\
  exists l, w !! vf_link vf = Some l /\ link_matches pci name ns l /\
    (l_pci l <> pci -> forall j l', w !! j = Some l' -> l_ns l' = ns -> l_pci l' <> pci).
Proof.
  simpl. unfold searchByPCIAddress, searchByName.
  destruct (list_find (fun l => l_pci l = pci /\ l_ns l = ns) w) as [[i l]|] eqn:Ep.
  - intros H. injection H as <-. simpl. split; [reflexivity|].
    apply list_find_Some in Ep as (Hl & [Hp Hn] & _).
    exists l. split; [exact Hl|]. split; [split; [exact Hn | left; exact Hp]|].
    intros Hne; contradiction.
  - apply list_find_None in Ep.
    destruct (String.eqb_spec name "") as [->|Hname]; [discriminate|].
    destruct (list_find (fun l => l_name l = name /\ l_ns l = ns) w) as [[i l]|] eqn:En;
      [|discriminate].
    intros H. injection H as <-. simpl. split; [reflexivity|].
    apply list_find_Some in En as (Hl & [Hnm Hn] & _).
    exists l. split; [exact Hl|]. split; [split; [exact Hn | right; split; assumption]|].
    intros _ j l' Hj Hns Hp. eapply (Forall_lookup_1 _ _ _ _ Ep Hj). split; assumption.
Qed.

Lemma try_attempts_none (w : World) (ns : nat) (name pci : string) :
  try_attempts w ns name pci attempts = None ->
  forall i l, w !! i = Some l -> ~ link_matches pci name ns l.
Proof.
  simpl. unfold searchByPCIAddress, searchByName.
  destruct (list_find (fun l => l_pci l = pci /\ l_ns l = ns) w) as [[i0 l0]|] eqn:Ep;
    [discriminate|].
  apply list_find_None in Ep.
  intros H i l Hl [Hn [Hp | [Hname Hnm]]].
  - eapply (Forall_lookup_1 _ _ _ _ Ep Hl). split; assumption.
  - destruct (String.eqb_spec name "") as [->|_]; [contradiction|].
    destruct (list_find (fun l => l_name l = name /\ l_ns l = ns) w) as [[i1 l1]|] eqn:En;
      [discriminate|].
    apply list_find_None in En. eapply (Forall_lookup_1 _ _ _ _ En Hl). split; assumption.
Qed.

(** GetLink searches the namespaces in order: on failure no link of any listed namespace matches; on success the link is in the first namespace with a match, and a name match is returned only when no link of that namespace has the PCI address. *)
Theorem GetLink_first_matching_namespace :
  forall (w : World) (pci name : string) (namespaces : list nat),
  (forall e, GetLink w pci name namespaces = inr e ->
     e = ENoLink pci name /\
     forall ns i l, In ns namespaces -> w !! i = Some l -> ~ link_matches pci name ns l) /\
  (forall vf, GetLink w pci name namespaces = inl vf ->
     exists pre post, namespaces = pre ++ vf_netns vf :: post /\
       (forall ns i l, In ns pre -> w !! i = Some l -> ~ link_matches pci name ns l) /\
       exists l, w !! vf_link vf = Some l /\ link_matches pci name (vf_netns vf) l /\
         (l_pci l <> pci ->
          forall j l', w !! j = Some l' -> l_ns l' = vf_netns vf -> l_pci l' <> pci)).
Proof.
  intros w pci name nss. induction nss as [|ns rest IH]; cbn [GetLink].
  - split.
    + intros e H. injection H as <-. split; [reflexivity | intros ? ? ? []].
    + intros vf H; discriminate.
  - destruct (try_attempts w ns name pci attempts) as [vf0|] eqn:Et.
    + split; [intros e H; discriminate|].
      intros vf H. injection H as <-.
      destruct (try_attempts_found _ _ _ _ _ Et) as [Hns Hl]. rewrite Hns.
      exists [], rest. split; [reflexivity|]. split; [intros ? ? ? []|].
      exact Hl.
    + pose proof (try_attempts_none _ _ _ _ Et) as Hnone. destruct IH as [IHe IHv]. split.
      * intros e H. destruct (IHe e H) as [He Hr]. split; [exact He|].
        intros ns' i l [<-|Hin]; [apply Hnone | apply Hr; exact Hin].
      * intros vf H. destruct (IHv vf H) as (pre & post & Heq & Hpre & Hl).
        exists (ns :: pre), post. split; [rewrite Heq; reflexivity|]. split; [|exact Hl].
        intros ns' i l [<-|Hin]; [apply Hnone | apply Hpre; exact Hin].
Qed.

(** When the new name is taken in the link's namespace, SetName fails and leaves the link down, with every other link unchanged. *)
Theorem SetName_taken_leaves_link_down :
  forall (w : World) (i ns : nat) (l : NetLink) (name : string),
  w !! i = Some l -> name_taken w i (l_ns l) name = true ->
  snd (SetName w {| vf_link := i; vf_netns := ns |} name) = Some (ESetName name) /\
  fst (SetName w {| vf_link := i; vf_netns := ns |} name) !! i = Some (set_up false l) /\
  (forall j, j <> i -> fst (SetName w {| vf_link := i; vf_netns := ns |} name) !! j = w !! j).
Proof.
  intros w i ns l name Hl Ht. unfold SetName, SetAdminState; simpl.
  rewrite list_lookup_alter_eq, Hl; simpl. rewrite name_taken_alter, Ht. simpl.
  split; [reflexivity|]. split.
  - rewrite list_lookup_alter_eq, Hl. reflexivity.
  - intros j Hj. rewrite list_lookup_alter_ne by congruence. reflexivity.
Qed.

(** When the link's name is taken in the target namespace, MoveToNetns fails, keeps the VF handle, and leaves the link down with every other link unchanged. *)
Theorem MoveToNetns_taken_leaves_link_down :
  forall (w : World) (vf : vfLink) (target : nat) (l : NetLink),
  vf_netns vf <> target -> w !! vf_link vf = Some l ->
  name_taken w (vf_link vf) target (l_name l) = true ->
  snd (MoveToNetns w vf target) = Some (EExternal "LinkSetNsFd") /\
  snd (fst (MoveToNetns w vf target)) = vf /\
  fst (fst (MoveToNetns w vf target)) !! vf_link vf = Some (set_up false l) /\
  (forall j, j <> vf_link vf -> fst (fst (MoveToNetns w vf target)) !! j = w !! j).
Proof.
  intros w vf t l Hne Hl Ht. unfold MoveToNetns, SetAdminState.
  destruct (Nat.eqb_spec (vf_netns vf) t) as [|_]; [contradiction|].
  rewrite list_lookup_alter_eq, Hl; simpl. rewrite name_taken_alter, Ht. simpl.
  split; [reflexivity|]. split; [reflexivity|]. split.
  - rewrite list_lookup_alter_eq, Hl. reflexivity.
  - intros j Hj. rewrite list_lookup_alter_ne by congruence. reflexivity.
Qed.

(** ** Concrete instances of the properties above *)

Import GoStrings Ovsutils Pick Sriov Forwarder.

Lemma Request_takes_free_device_witness :
  let cce := Endpoint.NewConnectionEndpoint "0000:01:00.1,0000:01:00.2" "" in
  exists p, Endpoint.pciAddresses cce !! p = Some false /\
    Endpoint.Request cce (map_to_list (Endpoint.pciAddresses cce)) true (Some ∅) =
    ({| Endpoint.mechanismType := Endpoint.mechanismType cce;
        Endpoint.pciAddresses := <[p := true]> (Endpoint.pciAddresses cce) |},
     inl (<[Endpoint.PciAddress := p]> ∅)).
Proof.
  intros cce. apply EndpointExtras.Request_takes_free_device.
  - reflexivity.
  - vm_compute. reflexivity.
  - exists "0000:01:00.1". vm_compute. reflexivity.
Defined.

Lemma Request_Close_round_trip_witness :
  let cce := Endpoint.NewConnectionEndpoint "0000:01:00.1" "" in
  exists params1,
    snd (Endpoint.Request cce (map_to_list (Endpoint.pciAddresses cce)) true (Some ∅)) = inl params1 /\
    Endpoint.Close (fst (Endpoint.Request cce (map_to_list (Endpoint.pciAddresses cce)) true (Some ∅)))
      params1 = cce.
Proof.
  intros cce. apply EndpointExtras.Request_Close_round_trip.
  - reflexivity.
  - vm_compute. reflexivity.
Defined.

Lemma createVXLANInterface_matches_getVXLANParameters_witness :
  let s0 := {| DevIDMap := ∅; PortMap := ∅; vxlanInterfaces := ∅; trace := [] |} in
  let rc := {| c_mech_type := VXLAN_MECHANISM;
               c_params := <[SrcIP := "10.0.0.1"]> (<[DstIP := "10.0.0.5"]> {[VNI := "42"]});
               c_remote := true |} in
  let out := createVXLANInterface (fun _ => true) (fun x => x) s0 rc OUTGOING in
  (42%Z, "v10005") = getVXLANParameters (fun x => x) rc OUTGOING /\
  vxlanInterfaces (fst out) = <["v10005" := (get_int (vxlanInterfaces s0) "v10005" + 1)%Z]> (vxlanInterfaces s0).
Proof.
  intros s0 rc out.
  apply (createVXLANInterface_matches_getVXLANParameters (fun _ => true) (fun x => x) s0 (fst out)
           rc OUTGOING (42%Z, "v10005")).
  vm_compute. reflexivity.
Defined.

Lemma createVXLANInterface_add_failure_witness :
  let s0 := {| DevIDMap := ∅; PortMap := ∅; vxlanInterfaces := ∅; trace := [] |} in
  let rc := {| c_mech_type := VXLAN_MECHANISM;
               c_params := <[SrcIP := "10.0.0.1"]> (<[DstIP := "10.0.0.5"]> {[VNI := "42"]});
               c_remote := true |} in
  let ok := fun e => match e with AddVxlanPort _ _ _ => false | _ => true end in
  vxlanInterfaces (fst (createVXLANInterface ok (fun x => x) s0 rc OUTGOING)) = ∅ /\
  PortMap (fst (createVXLANInterface ok (fun x => x) s0 rc OUTGOING)) = ∅ /\
  exists e, snd (createVXLANInterface ok (fun x => x) s0 rc OUTGOING) = inr e.
Proof.
  intros s0 rc ok. apply (createVXLANInterface_add_failure ok (fun x => x) s0 rc OUTGOING).
  - vm_compute. reflexivity.
  - intros l r. reflexivity.
Defined.

Lemma deleteVXLANInterface_last_failure_keeps_entry_witness :
  let s0 := {| DevIDMap := ∅; PortMap := {["v10005" := 7%Z]};
               vxlanInterfaces := {["v10005" := 1%Z]}; trace := [] |} in
  exists e, deleteVXLANInterface (fun _ => false) s0 "v10005" = (emit (DelVxlanPort "v10005") s0, Some e) /\
    vxlanInterfaces (emit (DelVxlanPort "v10005") s0) !! "v10005" = Some 1%Z /\
    PortMap (emit (DelVxlanPort "v10005") s0) = PortMap s0.
Proof.
  intros s0. apply deleteVXLANInterface_last_failure_keeps_entry.
  - vm_compute. reflexivity.
  - reflexivity.
Defined.

Lemma missing_vni_is_zero_witness :
  let s0 := {| DevIDMap := ∅; PortMap := ∅; vxlanInterfaces := ∅; trace := [] |} in
  let rc := {| c_mech_type := VXLAN_MECHANISM; c_params := {[DstIP := "10.0.0.5"]}; c_remote := true |} in
  fst (getVXLANParameters (fun x => x) rc OUTGOING) = 0%Z /\
  (createVXLANInterface (fun _ => true) (fun x => x) s0 rc OUTGOING
     = (fst (createVXLANInterface (fun _ => true) (fun x => x) s0 rc OUTGOING), inl (0%Z, "v10005")) ->
   fst (0%Z, "v10005") = 0%Z).
Proof.
  intros s0 rc. apply missing_vni_is_zero. vm_compute. reflexivity.
Defined.

Lemma distinct_peers_share_tunnel_witness :
  let s0 := {| DevIDMap := ∅; PortMap := ∅; vxlanInterfaces := ∅; trace := [] |} in
  let rc1 := {| c_mech_type := VXLAN_MECHANISM;
                c_params := {[DstIP := "10.0.0.15"; VNI := "1"]}; c_remote := true |} in
  let rc2 := {| c_mech_type := VXLAN_MECHANISM;
                c_params := {[DstIP := "100.0.1.5"; VNI := "2"]}; c_remote := true |} in
  let s2 := acquire_all (fun _ => true) (fun x => x) s0 [(rc1, OUTGOING); (rc2, OUTGOING)] in
  snd (getVXLANParameters (fun x => x) rc2 OUTGOING) = "v100015" /\
  vxlanInterfaces s2 !! "v100015" = Some 2%Z /\
  exists l, trace s2 = trace s0 ++ [AddVxlanPort "v100015" l "10.0.0.15"].
Proof.
  intros s0 rc1 rc2 s2.
  apply (distinct_peers_share_tunnel (fun _ => true) (fun x => x) s0 rc1 rc2 OUTGOING OUTGOING).
  - vm_compute. reflexivity.
  - vm_compute. reflexivity.
  - intros l r. reflexivity.
Defined.

Lemma GetNetRepresentorWithRetries_retries_witness :
  let N := fun (_ : string) (i : nat) => if Nat.eqb i 0 then Some [] else Some ["eth1"] in
  let U := fun (_ : string) => Some "pf0" in
  let X := fun (_ : string) => Some 1%Z in
  let R := fun (_ : string) (_ : Z) => Some "pf0vf1" in
  (SriovNet.rq_queries (SriovNet.GetNetRepresentorWithRetries N U X R "0000:01:00.2" 3) <= 3)%nat /\
  (SriovNet.rq_result (SriovNet.GetNetRepresentorWithRetries N U X R "0000:01:00.2" 3) = inl "pf0vf1" <->
   (exists k, (Z.of_nat k < 3)%Z /\
      (forall j, (j < k)%nat -> exists vs, N "0000:01:00.2" j = Some vs /\ length vs <> 1%nat) /\
      (exists vs, N "0000:01:00.2" k = Some vs /\ length vs = 1%nat)) /\
   exists uplink vfIndex, U "0000:01:00.2" = Some uplink /\ X "0000:01:00.2" = Some vfIndex /\
                          R uplink vfIndex = Some "pf0vf1").
Proof.
  intros N U X R. apply SriovNetProofs.GetNetRepresentorWithRetries_retries. lia.
Defined.

Lemma GetNetRepresentorWithRetries_nonpositive_witness :
  let N := fun (_ : string) (_ : nat) => @None (list string) in
  let U := fun (_ : string) => Some "pf0" in
  let X := fun (_ : string) => Some 1%Z in
  let R := fun (_ : string) (_ : Z) => Some "pf0vf1" in
  SriovNet.rq_queries (SriovNet.GetNetRepresentorWithRetries N U X R "0000:01:00.2" (-1)) = 0%nat /\
  ((-1)%Z = 0%Z -> SriovNet.rq_result (SriovNet.GetNetRepresentorWithRetries N U X R "0000:01:00.2" (-1))
                   = inr (EExternal "maxRetries can not be zero")) /\
  (forall uplink vfIndex rep, ((-1) < 0)%Z ->
     U "0000:01:00.2" = Some uplink -> X "0000:01:00.2" = Some vfIndex -> R uplink vfIndex = Some rep ->
     SriovNet.rq_result (SriovNet.GetNetRepresentorWithRetries N U X R "0000:01:00.2" (-1)) = inl rep).
Proof.
  intros N U X R. apply SriovNetProofs.GetNetRepresentorWithRetries_nonpositive. lia.
Defined.

Lemma local_ovs_setup_delete_round_trip_witness :
  let ofport := fun n => if String.eqb n "tapsrc1" then Some "3" else Some "4" in
  let s0 := {| LocalOvs.portMap := ∅; LocalOvs.cmds := [] |} in
  exists srcPort dstPort,
    LocalOvs.portMap (LocalOvs.SetupLocalOvSConnection (fun _ => true) ofport s0 "tapsrc1" "tapdst1")
      = <["tapdst1" := dstPort]> (<["tapsrc1" := srcPort]> ∅) /\
    LocalOvs.portMap (LocalOvs.DeleteLocalOvSConnection (fun _ => true)
      (LocalOvs.SetupLocalOvSConnection (fun _ => true) ofport s0 "tapsrc1" "tapdst1") "tapsrc1" "tapdst1")
      = delete "tapsrc1" (delete "tapdst1" ∅) /\
    LocalOvs.cmds (LocalOvs.DeleteLocalOvSConnection (fun _ => true)
      (LocalOvs.SetupLocalOvSConnection (fun _ => true) ofport s0 "tapsrc1" "tapdst1") "tapsrc1" "tapdst1")
      = [] ++ [LocalOvs.AddPort "tapsrc1"; LocalOvs.AddPort "tapdst1"; LocalOvs.GetOfport "tapsrc1";
               LocalOvs.GetOfport "tapdst1"; LocalOvs.AddFlow srcPort dstPort; LocalOvs.AddFlow dstPort srcPort;
               LocalOvs.DelFlows srcPort; LocalOvs.DelFlows dstPort; LocalOvs.DelPort "tapsrc1";
               LocalOvs.DelPort "tapdst1"].
Proof.
  intros ofport s0. apply (LocalOvsProofs.local_ovs_setup_delete_round_trip (fun _ => true) ofport s0).
  - discriminate.
  - intros a b. reflexivity.
Defined.

Lemma local_ovs_delete_unrecorded_witness :
  let s0 := {| LocalOvs.portMap := {["other" := 9%Z]}; LocalOvs.cmds := [] |} in
  LocalOvs.DeleteLocalOvSConnection (fun _ => true) s0 "tapsrc1" "tapdst1"
  = {| LocalOvs.portMap := {["other" := 9%Z]};
       LocalOvs.cmds := [] ++ [LocalOvs.DelFlows 0; LocalOvs.DelFlows 0;
                               LocalOvs.DelPort "tapsrc1"; LocalOvs.DelPort "tapdst1"] |}.
Proof.
  intros s0. apply LocalOvsProofs.local_ovs_delete_unrecorded; vm_compute; reflexivity.
Defined.

Lemma remote_ovs_setup_early_failure_witness :
  let s0 := {| RemoteOvs.r_PortMap := ∅; RemoteOvs.r_cmds := [] |} in
  exists e, RemoteOvs.SetupOvSConnection (fun _ => true) (fun _ _ => None) s0 "tap_1" "v10005" 42
            = ({| RemoteOvs.r_PortMap := ∅; RemoteOvs.r_cmds := [] ++ [RemoteOvs.RAddPort "tap_1"] |}, Some e).
Proof.
  intros s0. apply RemoteOvsProofs.remote_ovs_setup_early_failure.
  right. left. vm_compute. discriminate.
Defined.

Lemma remote_ovs_setup_delete_round_trip_witness :
  let ofport := fun (n : string) (_ : nat) => if String.eqb n "tap_1" then Some "5" else Some "0" in
  let s0 := {| RemoteOvs.r_PortMap := ∅; RemoteOvs.r_cmds := [] |} in
  let s1 := fst (RemoteOvs.SetupOvSConnection (fun _ => true) ofport s0 "tap_1" "v10005" 42) in
  RemoteOvs.r_PortMap s1 = <["v10005" := 0%Z]> (<["tap_1" := 5%Z]> ∅) /\
  RemoteOvs.r_PortMap (RemoteOvs.DeleteLocalOvSConnection (fun _ => true) s1 "tap_1" "v10005" 42)
    = <["v10005" := 0%Z]> (delete "tap_1" ∅) /\
  RemoteOvs.r_cmds (RemoteOvs.DeleteLocalOvSConnection (fun _ => true) s1 "tap_1" "v10005" 42)
    = [] ++ [RemoteOvs.RAddPort "tap_1"; RemoteOvs.RAddFlowOut 5 42 0; RemoteOvs.RAddFlowIn 0 42 5;
             RemoteOvs.RDelFlows 5] ++ [] ++ [RemoteOvs.RDelPort "tap_1"].
Proof.
  intros ofport s0 s1.
  apply (RemoteOvsProofs.remote_ovs_setup_delete_round_trip (fun _ => true) ofport s0 s1
           "tap_1" "v10005" 42).
  - discriminate.
  - vm_compute. reflexivity.
Defined.

Lemma GetLink_first_matching_namespace_witness :
  let l0 := {| l_pci := "0000:01:00.2"; l_name := "ens1f0v1"; l_ns := 0;
               l_addrs := []; l_up := true |} in
  let vf := {| vf_link := 0; vf_netns := 0 |} in
  exists pre post, [1%nat; 0%nat] = pre ++ vf_netns vf :: post /\
    (forall ns i l, In ns pre -> [l0] !! i = Some l -> ~ link_matches "0000:01:00.2" "nsm0" ns l) /\
    exists l, [l0] !! vf_link vf = Some l /\ link_matches "0000:01:00.2" "nsm0" (vf_netns vf) l /\
      (l_pci l <> "0000:01:00.2" ->
       forall j l', [l0] !! j = Some l' -> l_ns l' = vf_netns vf -> l_pci l' <> "0000:01:00.2").
Proof.
  intros l0 vf.
  apply (proj2 (GetLink_first_matching_namespace [l0] "0000:01:00.2" "nsm0" [1%nat; 0%nat]) vf).
  vm_compute. reflexivity.
Defined.

Lemma SetName_taken_leaves_link_down_witness :
  let l0 := {| l_pci := "0000:01:00.2"; l_name := "a"; l_ns := 0; l_addrs := []; l_up := true |} in
  let l1 := {| l_pci := "0000:01:00.3"; l_name := "b"; l_ns := 0; l_addrs := []; l_up := true |} in
  snd (SetName [l0; l1] {| vf_link := 0; vf_netns := 0 |} "b") = Some (ESetName "b") /\
  fst (SetName [l0; l1] {| vf_link := 0; vf_netns := 0 |} "b") !! 0%nat = Some (set_up false l0) /\
  (forall j, j <> 0%nat -> fst (SetName [l0; l1] {| vf_link := 0; vf_netns := 0 |} "b") !! j = [l0; l1] !! j).
Proof.
  intros l0 l1. apply SetName_taken_leaves_link_down; vm_compute; reflexivity.
Defined.

Lemma MoveToNetns_taken_leaves_link_down_witness :
  let l0 := {| l_pci := "0000:01:00.2"; l_name := "eth0"; l_ns := 0; l_addrs := []; l_up := true |} in
  let l1 := {| l_pci := ""; l_name := "eth0"; l_ns := 1; l_addrs := []; l_up := true |} in
  let vf := {| vf_link := 0; vf_netns := 0 |} in
  snd (MoveToNetns [l0; l1] vf 1) = Some (EExternal "LinkSetNsFd") /\
  snd (fst (MoveToNetns [l0; l1] vf 1)) = vf /\
  fst (fst (MoveToNetns [l0; l1] vf 1)) !! vf_link vf = Some (set_up false l0) /\
  (forall j, j <> vf_link vf -> fst (fst (MoveToNetns [l0; l1] vf 1)) !! j = [l0; l1] !! j).
Proof.
  intros l0 l1 vf. apply MoveToNetns_taken_leaves_link_down.
  - discriminate.
  - reflexivity.
  - vm_compute. reflexivity.
Defined.

Lemma CheckNetRepOvs_special_char_never_attached_witness :
  CheckNetRepOvs "eth 1" (Some ("name : " +:+ dquote +:+ "eth 1" +:+ dquote)) = (true, None).
Proof.
  apply (CheckNetRepOvs_special_char_never_attached "eth 1" _ " "%char).
  - right. right. reflexivity.
  - reflexivity.
Defined.

